(** * Nephe cloud integration plane: a shallow embedding and its properties

    The development follows the Go sources of the cloud-provider plugins:

    - [GoStrings]      the parts of Go's [strings] package the code calls;
    - [Crd]            the custom-resource types the plugins read;
    - [K8s]            the controller-runtime client, as far as [extractSecret]
                       looks into it;
    - [Aws], [Azure]   the account-management code of the two plugins
                       (setAccountCredentials, compareAccountCredentials,
                       extractSecret);
    - [AzureCompute]   the inventory side of the Azure compute service;
    - [Internal]       the account registry of the common plugin framework;
    - [CloudResource]  cloud names, cloud rules and their hash;
    - [AzureSecurity]  the rule update of the security-group synchronizer.

    Go values are embedded as follows.  A Go [string] is a Rocq [string] (a
    sequence of bytes).  A Go [error] is [option error] with [None] for [nil].
    A pointer that the code dereferences without a nil check is an [option]
    whose [None] makes the function panic; panics are the [Panic] outcome.
    Go maps are [gmap]s; where the code ranges over a map, the iteration
    order is an explicit argument.  Library functions that are not part of
    the repository (base64, encoding/json, sha1, Unicode case mapping) are
    Section variables. *)

From stdpp Require Import gmap strings list fin_maps.
From Stdlib Require Import ZArith Ascii.

Local Open Scope Z_scope.
Local Open Scope stdpp_scope.

(** A Go [error] value is carried by its message. *)
Definition error := string.

(** The outcome of a Go call that may panic. *)
Inductive Outcome (A : Type) : Type :=
| Done (a : A)
| Panic (reason : string).
Arguments Done {A} a.
Arguments Panic {A} reason.

(** ** Go's [strings] package *)
Module GoStrings.

Definition bytes (l : list nat) : list ascii := map ascii_of_nat l.

(** The UTF-8 encodings of the code points for which [unicode.IsSpace]
    holds: '\t', '\n', '\v', '\f', '\r', ' ', U+0085, U+00A0, U+1680,
    U+2000..U+200A, U+2028, U+2029, U+202F, U+205F and U+3000. *)
Definition spaceRunes : list (list ascii) :=
  map bytes
    [ [9%nat]; [10%nat]; [11%nat]; [12%nat]; [13%nat]; [32%nat];
      [194; 133]%nat; [194; 160]%nat; [225; 154; 128]%nat;
      [226; 128; 128]%nat; [226; 128; 129]%nat; [226; 128; 130]%nat;
      [226; 128; 131]%nat; [226; 128; 132]%nat; [226; 128; 133]%nat;
      [226; 128; 134]%nat; [226; 128; 135]%nat; [226; 128; 136]%nat;
      [226; 128; 137]%nat; [226; 128; 138]%nat; [226; 128; 168]%nat;
      [226; 128; 169]%nat; [226; 128; 175]%nat; [226; 129; 159]%nat;
      [227; 128; 128]%nat ].

(** [stripPrefix p s] is the rest of [s] after the prefix [p], if [s] starts
    with [p]. *)
Fixpoint stripPrefix (p s : list ascii) : option (list ascii) :=
  match p, s with
  | [], _ => Some s
  | _ :: _, [] => None
  | a :: p', b :: s' => if decide (a = b) then stripPrefix p' s' else None
  end.

(** The first encoding of [runes] that [s] starts with, removed. *)
Fixpoint stripRune (runes : list (list ascii)) (s : list ascii)
  : option (list ascii) :=
  match runes with
  | [] => None
  | r :: rest =>
      match stripPrefix r s with
      | Some s' => Some s'
      | None => stripRune rest s
      end
  end.

(** [strings.TrimLeftFunc(s, unicode.IsSpace)]: drop leading space runes.
    A rune takes at least one byte, so [length s] steps are enough. *)
Fixpoint trimLeftSteps (runes : list (list ascii)) (steps : nat)
  (s : list ascii) : list ascii :=
  match steps with
  | O => s
  | S n =>
      match stripRune runes s with
      | Some s' => trimLeftSteps runes n s'
      | None => s
      end
  end.

Definition trimLeft (s : list ascii) : list ascii :=
  trimLeftSteps spaceRunes (length s) s.

(** [strings.TrimRightFunc(s, unicode.IsSpace)]: the same from the end.  Every
    encoding in [spaceRunes] is a leading byte followed by continuation
    bytes, so the last rune of [s] is a space exactly when [s] ends with one
    of the encodings. *)
Definition trimRight (s : list ascii) : list ascii :=
  rev (trimLeftSteps (map (@rev ascii) spaceRunes) (length s) (rev s)).

(** [strings.TrimSpace]. *)
Definition TrimSpace (s : string) : string :=
  String.string_of_list_ascii
    (trimRight (trimLeft (String.list_ascii_of_string s))).

(** [strings.Compare]: -1, 0 or +1 by lexicographic byte order. *)
Definition Compare (a b : string) : Z :=
  match String.compare a b with
  | Eq => 0
  | Lt => -1
  | Gt => 1
  end.

(** [strings.ToLower] restricted to ASCII input, where Go maps 'A'..'Z' to
    'a'..'z' and leaves every other byte alone.  Used for examples only; the
    development is stated over an arbitrary case mapping. *)
Definition asciiToLowerByte (c : ascii) : ascii :=
  let n := nat_of_ascii c in
  if (Nat.leb 65 n && Nat.leb n 90)%bool then ascii_of_nat (n + 32) else c.

Fixpoint asciiToLower (s : string) : string :=
  match s with
  | EmptyString => EmptyString
  | String c s' => String (asciiToLowerByte c) (asciiToLower s')
  end.

(** [strings.Split(s, sep)] for a one-byte separator: the pieces between the
    occurrences of [sep]; always at least one piece. *)
Fixpoint splitByte (sep : ascii) (s : string) : list string :=
  match s with
  | EmptyString => [EmptyString]
  | String c s' =>
      if decide (c = sep) then EmptyString :: splitByte sep s'
      else
        match splitByte sep s' with
        | [] => [String c EmptyString]
        | piece :: pieces => String c piece :: pieces
        end
  end.

(** Whether the byte [c] occurs in [s] ([strings.IndexByte(s, c) >= 0]). *)
Fixpoint containsByte (c : ascii) (s : string) : bool :=
  match s with
  | EmptyString => false
  | String x s' => if decide (x = c) then true else containsByte c s'
  end.

End GoStrings.

(** ** Custom-resource types (apis/crd/v1alpha1) as the plugins use them *)
Module Crd.

Record SecretReference := {
  Name : string;
  Namespace : string;
  Key : string
}.

Record AwsAccountCredential := {
  AccessKeyID : string;
  AccessKeySecret : string;
  SessionToken : string;
  RoleArn : string;
  ExternalID : string
}.

Record AzureAccountCredential := {
  SubscriptionID : string;
  ClientID : string;
  TenantID : string;
  ClientKey : string
}.

(** The account resources.  They hold the secret reference through a
    pointer, [SecretRef]; [awsSecretRef] and [azureSecretRef] are the
    reference it points to.  The nil pointer of the Azure resource is
    covered by [Azure.setAccountCredentialsOfResource]. *)
Record CloudProviderAccountAWSConfig := {
  awsRegion : string;
  awsEndpoint : string;
  awsSecretRef : SecretReference
}.

Record CloudProviderAccountAzureConfig := {
  azureRegion : list string;
  azureSecretRef : SecretReference
}.

(** The zero values [&AwsAccountCredential{}] and [&AzureAccountCredential{}]. *)
Definition zeroAws : AwsAccountCredential :=
  {| AccessKeyID := EmptyString; AccessKeySecret := EmptyString; SessionToken := EmptyString;
     RoleArn := EmptyString; ExternalID := EmptyString |}.

Definition zeroAzure : AzureAccountCredential :=
  {| SubscriptionID := EmptyString; ClientID := EmptyString; TenantID := EmptyString; ClientKey := EmptyString |}.

End Crd.

(** ** The Kubernetes client, as [extractSecret] sees it *)
Module K8s.

(** A value stored under a key of a secret's [data] map. *)
Inductive DataValue :=
| DataString (s : string)
| DataOther.

(** A value of [unstructured.Unstructured.Object], a [map[string]interface{}]. *)
Inductive Any :=
| AnyString (s : string)
| AnyMap (m : gmap string DataValue)
| AnyOther.

Definition Object := gmap string Any.

(** [client.Get] on a Secret: the object stored under (namespace, name), or an
    error. *)
Record Client := {
  Get : string -> string -> option Object
}.

End K8s.

(** A line written through a plugin logger: the message and the account it is
    about. *)
Record LogLine := {
  logMessage : string;
  logAccount : string
}.

(** The messages of the fields whose old and new values differ, in order. *)
Fixpoint changedFields (messages old new : list string) : list string :=
  match messages, old, new with
  | message :: messages', a :: old', b :: new' =>
      if decide (a = b) then changedFields messages' old' new'
      else message :: changedFields messages' old' new'
  | _, _, _ => []
  end.

(** ** The AWS plugin: account management *)
Module Aws.
Import Crd K8s.

Record awsAccountConfig := {
  credential : AwsAccountCredential;
  region : string;
  endpoint : string
}.

Section Libraries.

(** [base64.StdEncoding.DecodeString]: the decoded bytes, or an error. *)
Variable base64_DecodeString : string -> option string.

(** [json.Unmarshal(data, cred)]: the credential after decoding into it, and
    the error. *)
Variable json_Unmarshal :
  string -> AwsAccountCredential -> AwsAccountCredential * option error.

(** [extractSecret] extracts credentials from a Kubernetes secret.  The type
    assertion [data[s.Key].(string)] has no [ok] result: it panics when the
    key is absent or holds something else. *)
Definition extractSecret (c : Client) (s : SecretReference)
  : Outcome (option AwsAccountCredential * option error) :=
  match Get c (Namespace s) (Name s) with
  | None =>
      Done (None, Some ("error fetching Secret: " +:+ Name s +:+ "/" +:+ Namespace s))
  | Some object =>
      match object !! "data" with
      | Some (AnyMap data) =>
          match data !! Key s with
          | Some (DataString text) =>
              match base64_DecodeString text with
              | None =>
                  Done (None, Some ("error decoding Secret: "
                                    +:+ Name s +:+ "/" +:+ Namespace s))
              | Some decode =>
                  match json_Unmarshal decode zeroAws with
                  | (_, Some _) =>
                      Done (None, Some ("error unmarshalling credentials: "
                                        +:+ Name s +:+ "/" +:+ Namespace s))
                  | (cred, None) => Done (Some cred, None)
                  end
              end
          | _ => Panic "interface conversion: interface {} is not string"
          end
      | _ =>
          Done (None, Some ("error missing Secret config data: "
                            +:+ Name s +:+ "/" +:+ Namespace s))
      end
  end.

(** [setAccountCredentials] sets account credentials. *)
Definition setAccountCredentials (client : Client)
  (awsProviderConfig : CloudProviderAccountAWSConfig)
  : Outcome (option awsAccountConfig * option error) :=
  match extractSecret client (awsSecretRef awsProviderConfig) with
  | Panic reason => Panic reason
  | Done (_, Some err) => Done (None, Some err)
  | Done (None, None) => Panic "invalid memory address or nil pointer dereference"
  | Done (Some accCred, None) =>
      Done (Some {| credential := accCred;
                    region := GoStrings.TrimSpace (awsRegion awsProviderConfig);
                    endpoint := GoStrings.TrimSpace (awsEndpoint awsProviderConfig) |},
            None)
  end.

End Libraries.

(** One [if strings.Compare(a, b) != 0 { credsChanged = true; log }] step. *)
Definition compareField (accountName message : string) (a b : string)
  (acc : bool * list LogLine) : bool * list LogLine :=
  if negb (GoStrings.Compare a b =? 0)
  then (true, acc.2 ++ [{| logMessage := message; logAccount := accountName |}])
  else acc.

(** [compareAccountCredentials]: the [credsChanged] flag and the lines
    logged. *)
Definition compareAccountCredentials (accountName : string)
  (existingConfig newConfig : awsAccountConfig) : bool * list LogLine :=
  let acc := (false, []) in
  let acc := compareField accountName "Account access key ID updated"
               (AccessKeyID (credential existingConfig))
               (AccessKeyID (credential newConfig)) acc in
  let acc := compareField accountName "Account access key secret updated"
               (AccessKeySecret (credential existingConfig))
               (AccessKeySecret (credential newConfig)) acc in
  let acc := compareField accountName "Account session token updated"
               (SessionToken (credential existingConfig))
               (SessionToken (credential newConfig)) acc in
  let acc := compareField accountName "Account IAM role updated"
               (RoleArn (credential existingConfig))
               (RoleArn (credential newConfig)) acc in
  let acc := compareField accountName "Account IAM external id updated"
               (ExternalID (credential existingConfig))
               (ExternalID (credential newConfig)) acc in
  let acc := compareField accountName "Account region updated"
               (region existingConfig) (region newConfig) acc in
  let acc := compareField accountName "Endpoint url updated"
               (endpoint existingConfig) (endpoint newConfig) acc in
  acc.

(** The fields the comparator looks at, in its order. *)
Definition fields (cfg : awsAccountConfig) : list string :=
  [ AccessKeyID (credential cfg); AccessKeySecret (credential cfg);
    SessionToken (credential cfg); RoleArn (credential cfg);
    ExternalID (credential cfg); region cfg; endpoint cfg ].

(** What the comparator logs for each field of [fields]. *)
Definition messages : list string :=
  [ "Account access key ID updated"; "Account access key secret updated";
    "Account session token updated"; "Account IAM role updated";
    "Account IAM external id updated"; "Account region updated";
    "Endpoint url updated" ].

End Aws.

(** ** The Azure plugin: account management *)
Module Azure.
Import Crd K8s.

Record azureAccountConfig := {
  credential : AzureAccountCredential;
  region : string
}.

(** [internal.AccountCredentialsDefault] (cloud_common.go). *)
Definition AccountCredentialsDefault : string := "default".

Section Libraries.

Variable base64_DecodeString : string -> option string.

Variable json_Unmarshal :
  string -> AzureAccountCredential -> AzureAccountCredential * option error.

(** [util.ErrorMsgSecretReference], a constant of a package outside the
    sources at hand. *)
Variable ErrorMsgSecretReference : string.

Definition secretError (what : string) (s : SecretReference) : error :=
  ErrorMsgSecretReference +:+ what +:+ Namespace s +:+ "/" +:+ Name s.

(** [extractSecret] extracts credentials from a Kubernetes secret.  [cred] is
    allocated first and returned on every path. *)
Definition extractSecret (c : Client) (s : SecretReference)
  : AzureAccountCredential * option error :=
  let cred := zeroAzure in
  match Get c (Namespace s) (Name s) with
  | None => (cred, Some (secretError ", failed to get Secret object: " s))
  | Some object =>
      match object !! "data" with
      | Some (AnyMap data) =>
          match data !! Key s with
          | Some (DataString key) =>
              match base64_DecodeString key with
              | None =>
                  (cred, Some (secretError ", failed to decode Secret key: " s))
              | Some decode =>
                  match json_Unmarshal decode cred with
                  | (cred, Some _) =>
                      (cred, Some (secretError
                                     ", failed to unmarshall Secret credentials: " s))
                  | (cred, None) =>
                      if (String.eqb (SubscriptionID cred) EmptyString
                          || String.eqb (TenantID cred) EmptyString
                          || String.eqb (ClientID cred) EmptyString
                          || String.eqb (ClientKey cred) EmptyString)%bool
                      then (cred, Some (secretError
                                          ", Secret credentials cannot be empty: " s))
                      else (cred, None)
                  end
              end
          | _ =>
              (cred, Some (secretError ", failed to get Secret key: " s
                           +:+ ", key: " +:+ Key s))
          end
      | _ => (cred, Some (secretError ", failed to get Secret data: " s))
      end
  end.

(** [setAccountCredentials] sets account credentials.  [Region[0]] panics on
    an empty region list, before the secret is read. *)
Definition setAccountCredentials (client : Client)
  (azureProviderConfig : CloudProviderAccountAzureConfig)
  : Outcome (azureAccountConfig * option error) :=
  match azureRegion azureProviderConfig with
  | [] => Panic "index out of range [0] with length 0"
  | region0 :: _ =>
      let (accCred, err) := extractSecret client (azureSecretRef azureProviderConfig) in
      let accCred :=
        match err with
        | Some _ =>
            {| SubscriptionID := AccountCredentialsDefault;
               ClientID := AccountCredentialsDefault;
               TenantID := AccountCredentialsDefault;
               ClientKey := AccountCredentialsDefault |}
        | None => accCred
        end in
      Done ({| credential := accCred; region := GoStrings.TrimSpace region0 |}, err)
  end.

(** [setAccountCredentials] on the two fields of the account resource as the
    API declares them, where [SecretRef] is a pointer that neither
    [setAccountCredentials] nor [extractSecret] compares with nil:
    [secretRef] is [None] for the nil pointer.  [Region[0]] is read first;
    [extractSecret] then dereferences the pointer for the arguments of its
    [Get], before the secret is asked for. *)
Definition setAccountCredentialsOfResource (client : Client)
  (regions : list string) (secretRef : option SecretReference)
  : Outcome (azureAccountConfig * option error) :=
  match regions, secretRef with
  | [], _ => Panic "index out of range [0] with length 0"
  | _ :: _, None => Panic "invalid memory address or nil pointer dereference"
  | _ :: _, Some s =>
      setAccountCredentials client {| azureRegion := regions; azureSecretRef := s |}
  end.

End Libraries.

Definition compareField (accountName message : string) (a b : string)
  (acc : bool * list LogLine) : bool * list LogLine :=
  if negb (GoStrings.Compare a b =? 0)
  then (true, acc.2 ++ [{| logMessage := message; logAccount := accountName |}])
  else acc.

(** [compareAccountCredentials]: the [credsChanged] flag and the lines
    logged. *)
Definition compareAccountCredentials (accountName : string)
  (existingConfig newConfig : azureAccountConfig) : bool * list LogLine :=
  let acc := (false, []) in
  let acc := compareField accountName "Subscription ID updated"
               (SubscriptionID (credential existingConfig))
               (SubscriptionID (credential newConfig)) acc in
  let acc := compareField accountName "Client ID updated"
               (ClientID (credential existingConfig))
               (ClientID (credential newConfig)) acc in
  let acc := compareField accountName "Account tenant ID updated"
               (TenantID (credential existingConfig))
               (TenantID (credential newConfig)) acc in
  let acc := compareField accountName "Account client key updated"
               (ClientKey (credential existingConfig))
               (ClientKey (credential newConfig)) acc in
  let acc := compareField accountName "Account region updated"
               (region existingConfig) (region newConfig) acc in
  acc.

(** The fields the comparator looks at, in its order. *)
Definition fields (cfg : azureAccountConfig) : list string :=
  [ SubscriptionID (credential cfg); ClientID (credential cfg);
    TenantID (credential cfg); ClientKey (credential cfg); region cfg ].

(** What the comparator logs for each field of [fields]. *)
Definition messages : list string :=
  [ "Subscription ID updated"; "Client ID updated"; "Account tenant ID updated";
    "Account client key updated"; "Account region updated" ].

End Azure.

(** ** [types.NamespacedName] *)
Module Types.

Record NamespacedName := {
  Namespace : string;
  Name : string
}.

#[global] Instance NamespacedName_eq_dec : EqDecision NamespacedName.
Proof. solve_decision. Defined.

#[global] Instance NamespacedName_countable : Countable NamespacedName.
Proof.
  refine (inj_countable' (fun n => (Namespace n, Name n))
            (fun p => {| Namespace := p.1; Name := p.2 |}) _).
  by intros [].
Defined.

(** [NamespacedName.String]. *)
Definition String_ (n : NamespacedName) : string :=
  Namespace n +:+ "/" +:+ Name n.

End Types.

(** ** The Azure plugin: the inventory side of the compute service *)
Module AzureCompute.
Import Azure.

(** The parts of [armnetwork.VirtualNetwork] that the compute service reads.
    Every pointer of the SDK type is an [option]. *)
Record SubResource := { subResourceID : option string }.

Record AddressSpace := { AddressPrefixes : list (option string) }.

Record VirtualNetworkPeeringPropertiesFormat := {
  RemoteVirtualNetwork : option SubResource;
  RemoteAddressSpace : option AddressSpace
}.

Record VirtualNetworkPeering := {
  peeringProperties : option VirtualNetworkPeeringPropertiesFormat
}.

Record VirtualNetworkPropertiesFormat := {
  vnetAddressSpace : option AddressSpace;
  VirtualNetworkPeerings : list (option VirtualNetworkPeering)
}.

Record VirtualNetwork := {
  vnetID : option string;
  vnetLocation : option string;
  vnetProperties : option VirtualNetworkPropertiesFormat
}.

(** A row of the virtual-machine table, with the fields the poll reads. *)
Record virtualMachineTable := {
  vmID : option string;
  vmName : option string;
  vmVnetID : option string
}.

Record computeResourcesCacheSnapshot := {
  virtualMachines : gmap string virtualMachineTable;
  vnets : list VirtualNetwork;
  vnetIDs : gset string;
  vnetPeers : gmap string (list (list string))
}.

(** Modelled from the spec: [internal.CloudServiceResourcesCache], whose
    source is not at hand.  It holds the inventory snapshot of one account:
    "Replaced atomically; consumers always read the latest snapshot or nil
    (meaning not yet polled)". *)
Definition CloudServiceResourcesCache := option computeResourcesCacheSnapshot.

Definition GetSnapshot (cache : CloudServiceResourcesCache)
  : option computeResourcesCacheSnapshot := cache.

Definition UpdateSnapshot (cache : CloudServiceResourcesCache)
  (snapshot : option computeResourcesCacheSnapshot) : CloudServiceResourcesCache :=
  snapshot.

(** [computeServiceConfig], without the SDK client handles, the statistics
    and the selector copies, which the functions below do not touch. *)
Record computeServiceConfig := {
  account : Types.NamespacedName;
  resourcesCache : CloudServiceResourcesCache;
  credentials : azureAccountConfig;
  computeFilters : gmap string (list string)
}.

(** A request sent to the cloud. *)
Inductive CloudCall :=
| CallListAllComplete
| CallResourceGraph (query : string) (subscriptions : list string).

Section Cloud.

(** The cloud behind the SDK wrappers: its state and its two read calls.
    [listAllComplete] is [azureVirtualNetworksWrapper.listAllComplete];
    [resourceGraphRows] is what [getVirtualMachineTable] obtains for a query
    and a list of subscriptions. *)
Variable CloudState : Type.
Variable listAllComplete :
  CloudState -> (list VirtualNetwork * option error) * CloudState.
Variable resourceGraphRows :
  string -> list string -> CloudState
  -> (list virtualMachineTable * option error) * CloudState.

(** [getVMsBySubscriptionIDsAndTenantIDsAndLocationsMatchQuery], the query
    builder of the plugin, whose source is not at hand. *)
Variable getVMsBySubscriptionIDsAndTenantIDsAndLocationsMatchQuery :
  list string -> list string -> list string -> string * option error.

(** [strings.ToLower]. *)
Variable strings_ToLower : string -> string.

(** The world a poll runs in: the cloud and the requests sent so far. *)
Record World := {
  cloud : CloudState;
  calls : list CloudCall
}.

(** Computations that talk to the cloud and may panic. *)
Definition M (A : Type) : Type := World -> Outcome A * World.

Definition ret {A : Type} (a : A) : M A := fun w => (Done a, w).

Definition bind {A B : Type} (m : M A) (k : A -> M B) : M B :=
  fun w =>
    match m w with
    | (Done a, w') => k a w'
    | (Panic reason, w') => (Panic reason, w')
    end.

Definition panic {A : Type} (reason : string) : M A :=
  fun w => (Panic reason, w).

Notation "x <- m ;; k" := (bind m (fun x => k))
  (at level 100, m at next level, right associativity).

(** Dereference of a pointer that the code does not check. *)
Definition deref {A : Type} (p : option A) : M A :=
  match p with
  | Some a => ret a
  | None => panic "invalid memory address or nil pointer dereference"
  end.

(** [getVpcs] invokes the cloud API to fetch the list of vnets. *)
Definition getVpcs (computeCfg : computeServiceConfig)
  : M (list VirtualNetwork * option error) :=
  fun w =>
    let (r, cloud') := listAllComplete (cloud w) in
    (Done r, {| cloud := cloud'; calls := calls w ++ [CallListAllComplete] |}).

(** [getVirtualMachineTable(client, filter, subscriptions)]. *)
Definition getVirtualMachineTable (filter : string) (subscriptions : list string)
  : M (list virtualMachineTable * option error) :=
  fun w =>
    let (r, cloud') := resourceGraphRows filter subscriptions (cloud w) in
    (Done r, {| cloud := cloud';
                calls := calls w ++ [CallResourceGraph filter subscriptions] |}).

(** The [for _, filters := range computeCfg.computeFilters] loop of
    [getComputeResourceFilters], over the entries in the order the range
    visits them. *)
Fixpoint rangeComputeFilters (computeCfg : computeServiceConfig)
  (entries : list (string * list string)) (allFilters : list string)
  : list string * bool :=
  match entries with
  | [] => (allFilters, true)
  | (_, filters) :: rest =>
      if (length filters =? 0)%nat then
        let subscriptionIDs :=
          [Crd.SubscriptionID (credential (credentials computeCfg))] in
        let tenantIDs := [Crd.TenantID (credential (credentials computeCfg))] in
        let locations := [region (credentials computeCfg)] in
        match getVMsBySubscriptionIDsAndTenantIDsAndLocationsMatchQuery
                subscriptionIDs tenantIDs locations with
        | (_, Some _) => ([], false)
        | (queryStr, None) => ([queryStr], true)
        end
      else rangeComputeFilters computeCfg rest (allFilters ++ filters)
  end.

(** [getComputeResourceFilters].  [order] is the order in which Go ranges
    over the [computeFilters] map, a permutation of its entries. *)
Definition getComputeResourceFilters (computeCfg : computeServiceConfig)
  (order : list (string * list string)) : list string * bool :=
  if (size (computeFilters computeCfg) =? 0)%nat then ([], false)
  else rangeComputeFilters computeCfg order [].

(** The [for _, filter := range filters] loop of [getVirtualMachines]. *)
Fixpoint rangeFilters (filters : list string) (subscriptions : list string)
  (virtualMachines : list virtualMachineTable)
  : M (list virtualMachineTable * option error) :=
  match filters with
  | [] => ret (virtualMachines, None)
  | filter :: rest =>
      r <- getVirtualMachineTable filter subscriptions ;;
      match r with
      | (_, Some err) => ret ([], Some err)
      | (virtualMachineRows, None) =>
          rangeFilters rest subscriptions (virtualMachines ++ virtualMachineRows)
      end
  end.

(** [getVirtualMachines]. *)
Definition getVirtualMachines (computeCfg : computeServiceConfig)
  (order : list (string * list string))
  : M (list virtualMachineTable * option error) :=
  let (filters, hasFilters) := getComputeResourceFilters computeCfg order in
  if negb hasFilters then ret ([], None)
  else
    let subscriptions := [Crd.SubscriptionID (credential (credentials computeCfg))] in
    rangeFilters filters subscriptions [].

(** The body of the inner loop of [buildMapVpcPeers] for one peering of the
    vnet [result] with properties [properties]. *)
Definition addVpcPeer (result : VirtualNetwork)
  (properties : VirtualNetworkPropertiesFormat)
  (peerConn : option VirtualNetworkPeering)
  (vpcPeers : gmap string (list (list string)))
  : M (gmap string (list (list string))) :=
  resultID <- deref (vnetID result) ;;
  let accepterID := strings_ToLower resultID in
  peer <- deref peerConn ;;
  let peerProperties := peeringProperties peer in
  requesterID <-
    match peerProperties with
    | Some pp =>
        match RemoteVirtualNetwork pp with
        | Some remote =>
            remoteID <- deref (subResourceID remote) ;;
            ret (strings_ToLower remoteID)
        | None => ret EmptyString
        end
    | None => ret EmptyString
    end ;;
  destinationID <-
    match peerProperties with
    | Some pp =>
        match RemoteAddressSpace pp with
        | Some space =>
            match AddressPrefixes space with
            | prefix :: _ =>
                p <- deref prefix ;;
                ret (strings_ToLower p)
            | [] => ret EmptyString
            end
        | None => ret EmptyString
        end
    | None => ret EmptyString
    end ;;
  sourceID <-
    match vnetAddressSpace properties with
    | Some space =>
        match AddressPrefixes space with
        | prefix :: _ =>
            p <- deref prefix ;;
            ret (strings_ToLower p)
        | [] => ret EmptyString
        end
    | None => ret EmptyString
    end ;;
  ret (<[accepterID :=
          default [] (vpcPeers !! accepterID)
          ++ [[requesterID; destinationID; sourceID]]]> vpcPeers).

Fixpoint rangePeerings (result : VirtualNetwork)
  (properties : VirtualNetworkPropertiesFormat)
  (peerings : list (option VirtualNetworkPeering))
  (vpcPeers : gmap string (list (list string)))
  : M (gmap string (list (list string))) :=
  match peerings with
  | [] => ret vpcPeers
  | peerConn :: rest =>
      vpcPeers' <- addVpcPeer result properties peerConn vpcPeers ;;
      rangePeerings result properties rest vpcPeers'
  end.

Fixpoint rangeVnets (results : list VirtualNetwork)
  (vpcPeers : gmap string (list (list string)))
  : M (gmap string (list (list string))) :=
  match results with
  | [] => ret vpcPeers
  | result :: rest =>
      match vnetProperties result with
      | None => rangeVnets rest vpcPeers
      | Some properties =>
          vpcPeers' <-
            rangePeerings result properties
              (VirtualNetworkPeerings properties) vpcPeers ;;
          rangeVnets rest vpcPeers'
      end
  end.

(** [buildMapVpcPeers]. *)
Definition buildMapVpcPeers (computeCfg : computeServiceConfig)
  (results : list VirtualNetwork) : M (gmap string (list (list string))) :=
  rangeVnets results ∅.

(** The [for _, vm := range virtualMachines] loop of [DoResourceInventory]. *)
Fixpoint rangeVirtualMachines (virtualMachines : list virtualMachineTable)
  (vmIDToInfoMap : gmap string virtualMachineTable) (vnetIDs : gset string)
  : M (gmap string virtualMachineTable * gset string) :=
  match virtualMachines with
  | [] => ret (vmIDToInfoMap, vnetIDs)
  | vm :: rest =>
      vmid <- deref (vmID vm) ;;
      let id := strings_ToLower vmid in
      vnet <- deref (vmVnetID vm) ;;
      rangeVirtualMachines rest (<[id := vm]> vmIDToInfoMap) ({[vnet]} ∪ vnetIDs)
  end.

(** [DoResourceInventory]: the configuration after the poll and the error
    returned. *)
Definition DoResourceInventory (computeCfg : computeServiceConfig)
  (order : list (string * list string))
  : M (computeServiceConfig * option error) :=
  r <- getVpcs computeCfg ;;
  match r with
  | (_, Some err) => ret (computeCfg, Some err)
  | (vnets, None) =>
      r <- getVirtualMachines computeCfg order ;;
      match r with
      | (_, Some err) => ret (computeCfg, Some err)
      | (virtualMachines, None) =>
          vpcPeers <- buildMapVpcPeers computeCfg vnets ;;
          maps <- rangeVirtualMachines virtualMachines ∅ ∅ ;;
          let snapshot :=
            {| virtualMachines := maps.1; vnets := vnets;
               vnetIDs := maps.2; vnetPeers := vpcPeers |} in
          ret ({| account := account computeCfg;
                  resourcesCache :=
                    UpdateSnapshot (resourcesCache computeCfg) (Some snapshot);
                  credentials := credentials computeCfg;
                  computeFilters := computeFilters computeCfg |},
               None)
      end
  end.

(** *** The rest of the compute service *)

(** A [CloudEntitySelector], as far as the service looks into it: its
    namespace and name; the specification is compiled by
    [convertSelectorToComputeQuery], whose source is not at hand. *)
Variable SelectorSpec : Type.

Record CloudEntitySelector := {
  selectorNamespace : string;
  selectorName : string;
  selectorSpec : SelectorSpec
}.

Variable convertSelectorToComputeQuery :
  CloudEntitySelector -> list string -> list string -> list string
  -> list string * bool.

(** [internal.CloudServiceStats] and its [ResetInventoryPollStats]. *)
Variable CloudServiceStats : Type.
Variable zeroStats : CloudServiceStats.
Variable ResetInventoryPollStats : CloudServiceStats -> CloudServiceStats.

(** The runtime VPC object and its constructor
    [ComputeVpcToInternalVpcObject(vnet, namespace, name, region, managed)]. *)
Variable Vpc : Type.
Variable ComputeVpcToInternalVpcObject :
  VirtualNetwork -> string -> string -> string -> bool -> Vpc.

(** [strings.EqualFold]. *)
Variable strings_EqualFold : string -> string -> bool.

(** The whole [computeServiceConfig]: the part above, with the statistics
    and the selector copies. *)
Record computeService := {
  config : computeServiceConfig;
  inventoryStats : CloudServiceStats;
  selectors : gmap string CloudEntitySelector
}.

(** [azureServiceClientCreateInterface]: for each SDK client, whether its
    creation fails. *)
Record azureServiceClientCreate := {
  networkInterfaces : string -> option error;
  securityGroups : string -> option error;
  applicationSecurityGroups : string -> option error;
  resourceGraph : option error;
  virtualNetworks : string -> option error
}.

Definition clientError (what : string) (account : Types.NamespacedName)
  (err : error) : error :=
  "error creating " +:+ what +:+ " sdk api client for account : "
  +:+ Types.String_ account +:+ ", err: " +:+ err.

(** [newComputeServiceConfig]. *)
Definition newComputeServiceConfig (account : Types.NamespacedName)
  (service : azureServiceClientCreate) (credentials : azureAccountConfig)
  : option computeService * option error :=
  let subscription := Crd.SubscriptionID (credential credentials) in
  match networkInterfaces service subscription with
  | Some err => (None, Some (clientError "compute" account err))
  | None =>
  match securityGroups service subscription with
  | Some err => (None, Some (clientError "security-groups" account err))
  | None =>
  match applicationSecurityGroups service subscription with
  | Some err => (None, Some (clientError "application-security-groups" account err))
  | None =>
  match resourceGraph service with
  | Some err => (None, Some (clientError "resource-graph" account err))
  | None =>
  match virtualNetworks service subscription with
  | Some err => (None, Some (clientError "virtual networks" account err))
  | None =>
      (Some {| config := {| account := account; resourcesCache := None;
                            credentials := credentials; computeFilters := ∅ |};
               inventoryStats := zeroStats;
               selectors := ∅ |}, None)
  end end end end end.

(** [getCachedVirtualMachines] returns virtualMachines from the cache for the
    subscription.  [order] is the order in which Go ranges over the
    [virtualMachines] map of the snapshot. *)
Definition getCachedVirtualMachines (computeCfg : computeServiceConfig)
  (order : list (string * virtualMachineTable)) : list virtualMachineTable :=
  match GetSnapshot (resourcesCache computeCfg) with
  | None => []
  | Some snapshot => map snd order
  end.

(** [getManagedVnetIDs] returns vnetIDs of vnets containing managed vms. *)
Definition getManagedVnetIDs (computeCfg : computeServiceConfig) : gset string :=
  match GetSnapshot (resourcesCache computeCfg) with
  | None => ∅
  | Some snapshot => vnetIDs snapshot
  end.

Fixpoint rangeManagedVnets (vnets : list VirtualNetwork)
  (vnetCopy : gmap string VirtualNetwork) : Outcome (gmap string VirtualNetwork) :=
  match vnets with
  | [] => Done vnetCopy
  | vnet :: rest =>
      match vnetID vnet with
      | None => Panic "invalid memory address or nil pointer dereference"
      | Some id => rangeManagedVnets rest (<[strings_ToLower id := vnet]> vnetCopy)
      end
  end.

(** [getManagedVnets] returns vnets containing managed vms. *)
Definition getManagedVnets (computeCfg : computeServiceConfig)
  : Outcome (gmap string VirtualNetwork) :=
  match GetSnapshot (resourcesCache computeCfg) with
  | None => Done ∅
  | Some snapshot => rangeManagedVnets (vnets snapshot) ∅
  end.

(** [getVnetPeers]: nil without a snapshot, else the peers of the vnet, the
    empty slice when it has none. *)
Definition getVnetPeers (computeCfg : computeServiceConfig) (vnetID : string)
  : option (list (list string)) :=
  match GetSnapshot (resourcesCache computeCfg) with
  | None => None
  | Some snapshot => Some (default [] (vnetPeers snapshot !! vnetID))
  end.

(** [AddResourceFilters]. *)
Definition AddResourceFilters (svc : computeService) (selector : CloudEntitySelector)
  : computeService * option error :=
  let computeCfg := config svc in
  let subscriptionIDs := [Crd.SubscriptionID (credential (credentials computeCfg))] in
  let tenantIDs := [Crd.TenantID (credential (credentials computeCfg))] in
  let locations := [region (credentials computeCfg)] in
  match convertSelectorToComputeQuery selector subscriptionIDs tenantIDs locations with
  | (filters, true) =>
      let key := selectorNamespace selector +:+ "/" +:+ selectorName selector in
      ({| config := {| account := account computeCfg;
                       resourcesCache := resourcesCache computeCfg;
                       credentials := credentials computeCfg;
                       computeFilters := <[key := filters]> (computeFilters computeCfg) |};
          inventoryStats := inventoryStats svc;
          selectors := <[key := selector]> (selectors svc) |}, None)
  | (_, false) => (svc, Some "error creating resource query filters")
  end.

(** The key [AddResourceFilters] files a selector under. *)
Definition selectorKey (selector : CloudEntitySelector) : string :=
  selectorNamespace selector +:+ "/" +:+ selectorName selector.

(** The filters and the selector copies go together: the two maps have the
    same keys, and every selector is filed under its own key. *)
Definition selectorsConsistent (svc : computeService) : Prop :=
  dom (computeFilters (config svc)) = dom (selectors svc)
  ∧ ∀ key selector, selectors svc !! key = Some selector → selectorKey selector = key.

(** [RemoveResourceFilters]. *)
Definition RemoveResourceFilters (svc : computeService)
  (selectorNamespacedName : Types.NamespacedName) : computeService :=
  let computeCfg := config svc in
  let key := Types.String_ selectorNamespacedName in
  {| config := {| account := account computeCfg;
                  resourcesCache := resourcesCache computeCfg;
                  credentials := credentials computeCfg;
                  computeFilters := delete key (computeFilters computeCfg) |};
     inventoryStats := inventoryStats svc;
     selectors := delete key (selectors svc) |}.

(** [GetInventoryStats]. *)
Definition GetInventoryStats (svc : computeService) : CloudServiceStats :=
  inventoryStats svc.

(** [ResetInventoryCache]. *)
Definition ResetInventoryCache (svc : computeService) : computeService :=
  let computeCfg := config svc in
  {| config := {| account := account computeCfg;
                  resourcesCache := UpdateSnapshot (resourcesCache computeCfg) None;
                  credentials := credentials computeCfg;
                  computeFilters := computeFilters computeCfg |};
     inventoryStats := ResetInventoryPollStats (inventoryStats svc);
     selectors := selectors svc |}.

(** The [for _, value := range computeCfg.selectors] loop of
    [UpdateServiceConfig], over the selectors in the order of the range. *)
Fixpoint rangeSelectors (svc : computeService) (values : list CloudEntitySelector)
  : computeService * option error :=
  match values with
  | [] => (svc, None)
  | value :: rest =>
      match AddResourceFilters svc value with
      | (svc', Some err) => (svc', Some err)
      | (svc', None) => rangeSelectors svc' rest
      end
  end.

(** [UpdateServiceConfig]: take the clients and the credentials of
    [newConfig], then register every selector again.  [order] is the order
    in which Go ranges over the [selectors] map; each step writes the entry
    of the selector's own key. *)
Definition UpdateServiceConfig (svc newConfig : computeService)
  (order : list (string * CloudEntitySelector)) : computeService * option error :=
  let computeCfg := config svc in
  let svc := {| config := {| account := account computeCfg;
                             resourcesCache := resourcesCache computeCfg;
                             credentials := credentials (config newConfig);
                             computeFilters := computeFilters computeCfg |};
                inventoryStats := inventoryStats svc;
                selectors := selectors svc |} in
  rangeSelectors svc (map snd order).

(** The [for _, vpc := range snapshot.vnets] loop of [GetVpcInventory]. *)
Fixpoint rangeVpcs (computeCfg : computeServiceConfig) (managedIDs : gset string)
  (vpcs : list VirtualNetwork) (vpcMap : gmap string Vpc)
  : Outcome (gmap string Vpc) :=
  match vpcs with
  | [] => Done vpcMap
  | vpc :: rest =>
      match vnetLocation vpc with
      | None => Panic "invalid memory address or nil pointer dereference"
      | Some location =>
          if strings_EqualFold location (region (credentials computeCfg)) then
            match vnetID vpc with
            | None => Panic "invalid memory address or nil pointer dereference"
            | Some id =>
                let managed := bool_decide (strings_ToLower id ∈ managedIDs) in
                let vpcObj :=
                  ComputeVpcToInternalVpcObject vpc
                    (Types.Namespace (account computeCfg))
                    (Types.Name (account computeCfg))
                    (strings_ToLower (region (credentials computeCfg))) managed in
                rangeVpcs computeCfg managedIDs rest
                  (<[strings_ToLower id := vpcObj]> vpcMap)
            end
          else rangeVpcs computeCfg managedIDs rest vpcMap
      end
  end.

(** [GetVpcInventory] generates vpc object for the vpcs stored in snapshot
    and returns a map of vpc runtime objects; nil without a snapshot. *)
Definition GetVpcInventory (computeCfg : computeServiceConfig)
  : Outcome (option (gmap string Vpc)) :=
  match GetSnapshot (resourcesCache computeCfg) with
  | None => Done None
  | Some snapshot =>
      match rangeVpcs computeCfg (getManagedVnetIDs computeCfg) (vnets snapshot) ∅ with
      | Done vpcMap => Done (Some vpcMap)
      | Panic reason => Panic reason
      end
  end.

End Cloud.

Arguments cloud {CloudState} w.
Arguments calls {CloudState} w.
Arguments getVpcs {CloudState} listAllComplete computeCfg w.
Arguments getVirtualMachineTable {CloudState} resourceGraphRows
  filter subscriptions w.
Arguments rangeFilters {CloudState} resourceGraphRows
  filters subscriptions virtualMachines w.
Arguments getVirtualMachines {CloudState} resourceGraphRows
  getVMsBySubscriptionIDsAndTenantIDsAndLocationsMatchQuery computeCfg order w.
Arguments DoResourceInventory {CloudState} listAllComplete resourceGraphRows
  getVMsBySubscriptionIDsAndTenantIDsAndLocationsMatchQuery strings_ToLower
  computeCfg order w.
Arguments buildMapVpcPeers {CloudState} strings_ToLower computeCfg results w.
Arguments rangeVirtualMachines {CloudState} strings_ToLower virtualMachines
  vmIDToInfoMap vnetIDs w.
Arguments selectorNamespace {SelectorSpec} c.
Arguments selectorName {SelectorSpec} c.
Arguments selectorSpec {SelectorSpec} c.
Arguments config {SelectorSpec CloudServiceStats} c.
Arguments inventoryStats {SelectorSpec CloudServiceStats} c.
Arguments selectors {SelectorSpec CloudServiceStats} c.
Arguments newComputeServiceConfig {SelectorSpec CloudServiceStats} zeroStats
  account service credentials.
Arguments AddResourceFilters {SelectorSpec} convertSelectorToComputeQuery
  {CloudServiceStats} svc selector.
Arguments RemoveResourceFilters {SelectorSpec CloudServiceStats} svc
  selectorNamespacedName.
Arguments GetInventoryStats {SelectorSpec CloudServiceStats} svc.
Arguments ResetInventoryCache {SelectorSpec CloudServiceStats}
  ResetInventoryPollStats svc.
Arguments rangeSelectors {SelectorSpec} convertSelectorToComputeQuery
  {CloudServiceStats} svc values.
Arguments UpdateServiceConfig {SelectorSpec} convertSelectorToComputeQuery
  {CloudServiceStats} svc newConfig order.
Arguments GetVpcInventory strings_ToLower {Vpc} ComputeVpcToInternalVpcObject
  strings_EqualFold computeCfg.
Arguments selectorKey {SelectorSpec} selector.
Arguments selectorsConsistent {SelectorSpec CloudServiceStats} svc.

End AzureCompute.

(** ** The common plugin framework: the account registry (cloud_common.go) *)
Module Internal.
Import Types.

(** The object metadata of a [CloudProviderAccount] that the registry reads. *)
Record CloudProviderAccount := {
  GetNamespace : string;
  GetName : string
}.

(** The key of an account:
    [&types.NamespacedName{Namespace: account.GetNamespace(), Name: account.GetName()}]. *)
Definition namespacedNameOf (account : CloudProviderAccount) : NamespacedName :=
  {| Namespace := GetNamespace account; Name := GetName account |}.

Section Framework.

(** The provider credentials handed through as [interface{}]. *)
Variable Credentials : Type.

(** The account configuration behind [CloudAccountInterface], with the two
    functions of the framework that build and update one; their source is
    not at hand.  [updateCloudAccountConfig] works on the configuration the
    registry points to: it yields the configuration after the update. *)
Variable CloudAccountConfig : Type.
Variable GetNamespacedName : CloudAccountConfig -> NamespacedName.
Variable newCloudAccountConfig :
  K8s.Client -> NamespacedName -> Credentials
  -> option CloudAccountConfig * option error.
Variable updateCloudAccountConfig :
  K8s.Client -> Credentials -> CloudAccountConfig
  -> CloudAccountConfig * option error.

(** [cloudCommon]: the registry and the lines its logger has written.  The
    mutex is not modelled; the functions are read as running alone. *)
Record cloudCommon := {
  accountConfigs : gmap NamespacedName CloudAccountConfig;
  logged : list LogLine
}.

(** [NewCloudCommon]. *)
Definition NewCloudCommon : cloudCommon :=
  {| accountConfigs := ∅; logged := [] |}.

Definition logInfo (c : cloudCommon) (message : string)
  (namespacedName : NamespacedName) : cloudCommon :=
  {| accountConfigs := accountConfigs c;
     logged := logged c ++ [{| logMessage := message;
                               logAccount := String_ namespacedName |}] |}.

(** [AddCloudAccount]. *)
Definition AddCloudAccount (c : cloudCommon) (client : K8s.Client)
  (account : CloudProviderAccount) (credentials : Credentials)
  : Outcome (cloudCommon * option error) :=
  let namespacedName := namespacedNameOf account in
  match accountConfigs c !! namespacedName with
  | Some existingConfig =>
      let (updated, err) :=
        updateCloudAccountConfig client credentials existingConfig in
      let c := {| accountConfigs := <[namespacedName := updated]> (accountConfigs c);
                  logged := logged c |} in
      match err with
      | Some _ =>
          Done (logInfo c "Failed to update cloud account config" namespacedName, err)
      | None => Done (c, err)
      end
  | None =>
      match newCloudAccountConfig client namespacedName credentials with
      | (_, Some err) =>
          Done (logInfo c "Failed to create cloud account config" namespacedName,
                Some err)
      | (Some config, None) =>
          Done ({| accountConfigs :=
                     <[GetNamespacedName config := config]> (accountConfigs c);
                   logged := logged c |}, None)
      | (None, None) => Panic "invalid memory address or nil pointer dereference"
      end
  end.

(** [GetCloudAccountByName] finds the configuration matching the name. *)
Definition GetCloudAccountByName (c : cloudCommon) (namespacedName : NamespacedName)
  : option CloudAccountConfig * bool :=
  match accountConfigs c !! namespacedName with
  | Some accCfg => (Some accCfg, true)
  | None => (None, false)
  end.

(** [RemoveCloudAccount]. *)
Definition RemoveCloudAccount (c : cloudCommon) (namespacedName : NamespacedName)
  : cloudCommon :=
  let (_, found) := GetCloudAccountByName c namespacedName in
  if negb found then c
  else {| accountConfigs := delete namespacedName (accountConfigs c);
          logged := logged c |}.

(** The law of the registry: every configuration is filed under its own
    name. *)
Definition filedByName (c : cloudCommon) : Prop :=
  ∀ key accCfg, accountConfigs c !! key = Some accCfg → GetNamespacedName accCfg = key.

(** [GetCloudAccounts] returns a copy of all account configs. *)
Definition GetCloudAccounts (c : cloudCommon)
  : gmap NamespacedName CloudAccountConfig :=
  accountConfigs c.

(** The rest of [CloudAccountInterface] and of the service configuration
    behind it, as far as the registry calls them; their source is not at
    hand.  Each method that works on the account yields the account after
    the call. *)
Variable CloudEntitySelector : Type.
Variable CloudProviderAccountStatus : Type.
Variable CloudInventory : Type.
Variable performInventorySync : CloudAccountConfig -> CloudAccountConfig * option error.
Variable resetInventoryCache : CloudAccountConfig -> CloudAccountConfig.
Variable accountGetStatus : CloudAccountConfig -> CloudProviderAccountStatus.
Variable serviceAddResourceFilters :
  CloudAccountConfig -> CloudEntitySelector -> CloudAccountConfig * option error.
Variable serviceRemoveResourceFilters :
  CloudAccountConfig -> NamespacedName -> CloudAccountConfig.
Variable serviceGetCloudInventory : CloudAccountConfig -> CloudInventory.

(** The registry with the account under [namespacedName] replaced. *)
Definition withAccount (c : cloudCommon) (namespacedName : NamespacedName)
  (accCfg : CloudAccountConfig) : cloudCommon :=
  {| accountConfigs := <[namespacedName := accCfg]> (accountConfigs c);
     logged := logged c |}.

(** [GetCloudAccountByAccountId] converts accountID to namespacedName and
    finds the matching configuration. *)
Definition GetCloudAccountByAccountId (c : cloudCommon) (accountID : string)
  : (option CloudAccountConfig * bool) * cloudCommon :=
  match GoStrings.splitByte "/"%char accountID with
  | [namespace; name] =>
      (GetCloudAccountByName c {| Namespace := namespace; Name := name |}, c)
  | _ =>
      ((None, false),
       {| accountConfigs := accountConfigs c;
          logged := logged c
                    ++ [{| logMessage := "account id is not in the expected format";
                           logAccount := accountID |}] |})
  end.

(** [AddResourceFilters]. *)
Definition AddResourceFilters (c : cloudCommon)
  (accountNamespacedName : NamespacedName) (selector : CloudEntitySelector)
  : cloudCommon * option error :=
  match GetCloudAccountByName c accountNamespacedName with
  | (Some accCfg, true) =>
      let (accCfg, err) := serviceAddResourceFilters accCfg selector in
      (withAccount c accountNamespacedName accCfg, err)
  | _ => (c, Some "unable to find cloud account config")
  end.

(** [RemoveResourceFilters]. *)
Definition RemoveResourceFilters (c : cloudCommon)
  (accNamespacedName selectorNamespacedName : NamespacedName) : cloudCommon :=
  match GetCloudAccountByName c accNamespacedName with
  | (Some accCfg, true) =>
      withAccount c accNamespacedName
        (serviceRemoveResourceFilters accCfg selectorNamespacedName)
  | _ => logInfo c "Cloud account config not found" accNamespacedName
  end.

(** [GetStatus]. *)
Definition GetStatus (c : cloudCommon) (accountNamespacedName : NamespacedName)
  : option CloudProviderAccountStatus * option error :=
  match GetCloudAccountByName c accountNamespacedName with
  | (Some accCfg, true) => (Some (accountGetStatus accCfg), None)
  | _ =>
      (None, Some ("unable to find cloud account config: "
                   +:+ String_ accountNamespacedName))
  end.

(** [DoInventoryPoll] calls cloud API to get vm and vpc resources. *)
Definition DoInventoryPoll (c : cloudCommon) (accountNamespacedName : NamespacedName)
  : cloudCommon * option error :=
  match GetCloudAccountByName c accountNamespacedName with
  | (Some accCfg, true) =>
      let (accCfg, err) := performInventorySync accCfg in
      (withAccount c accountNamespacedName accCfg, err)
  | _ =>
      (c, Some ("unable to find cloud account config: "
                +:+ String_ accountNamespacedName))
  end.

(** [ResetInventoryCache] resets cloud snapshot and poll stats to nil. *)
Definition ResetInventoryCache (c : cloudCommon)
  (accountNamespacedName : NamespacedName) : cloudCommon * option error :=
  match GetCloudAccountByName c accountNamespacedName with
  | (Some accCfg, true) =>
      (withAccount c accountNamespacedName (resetInventoryCache accCfg), None)
  | _ =>
      (c, Some ("unable to find cloud account config "
                +:+ String_ accountNamespacedName))
  end.

(** [GetCloudInventory] gets VPC and VM inventory from plugin snapshot for a
    given cloud provider account. *)
Definition GetCloudInventory (c : cloudCommon)
  (accountNamespacedName : NamespacedName)
  : option CloudInventory * option error :=
  match GetCloudAccountByName c accountNamespacedName with
  | (Some accCfg, true) => (Some (serviceGetCloudInventory accCfg), None)
  | _ => (None, Some "unable to find cloud account config")
  end.

End Framework.

Arguments accountConfigs {CloudAccountConfig} c.
Arguments logged {CloudAccountConfig} c.
Arguments AddCloudAccount {Credentials CloudAccountConfig} GetNamespacedName
  newCloudAccountConfig updateCloudAccountConfig c client account credentials.
Arguments GetCloudAccountByName {CloudAccountConfig} c namespacedName.
Arguments RemoveCloudAccount {CloudAccountConfig} c namespacedName.
Arguments GetCloudAccounts {CloudAccountConfig} c.
Arguments filedByName {CloudAccountConfig} GetNamespacedName c.
Arguments withAccount {CloudAccountConfig} c namespacedName accCfg.
Arguments GetCloudAccountByAccountId {CloudAccountConfig} c accountID.
Arguments AddResourceFilters {CloudAccountConfig CloudEntitySelector}
  serviceAddResourceFilters c accountNamespacedName selector.
Arguments RemoveResourceFilters {CloudAccountConfig} serviceRemoveResourceFilters
  c accNamespacedName selectorNamespacedName.
Arguments GetStatus {CloudAccountConfig CloudProviderAccountStatus}
  accountGetStatus c accountNamespacedName.
Arguments DoInventoryPoll {CloudAccountConfig} performInventorySync
  c accountNamespacedName.
Arguments ResetInventoryCache {CloudAccountConfig} resetInventoryCache
  c accountNamespacedName.
Arguments GetCloudInventory {CloudAccountConfig CloudInventory}
  serviceGetCloudInventory c accountNamespacedName.

End Internal.

(** ** Cloud resources, their cloud names and the hash of a cloud rule
       (cloudresource.go) *)
Module CloudResource.

(** The package-level variables. *)
Record Globals := {
  ControllerPrefix : string;
  ControllerAddressGroupPrefix : string;
  ControllerAppliedToPrefix : string
}.

Definition SetCloudResourcePrefix (CloudResourcePrefix : string) (g : Globals)
  : Globals :=
  {| ControllerPrefix := CloudResourcePrefix;
     ControllerAddressGroupPrefix := ControllerAddressGroupPrefix g;
     ControllerAppliedToPrefix := ControllerAppliedToPrefix g |}.

Definition GetControllerAddressGroupPrefix (g : Globals) : string * Globals :=
  let g := {| ControllerPrefix := ControllerPrefix g;
              ControllerAddressGroupPrefix := ControllerPrefix g +:+ "-ag-";
              ControllerAppliedToPrefix := ControllerAppliedToPrefix g |} in
  (ControllerAddressGroupPrefix g, g).

Definition GetControllerAppliedToPrefix (g : Globals) : string * Globals :=
  let g := {| ControllerPrefix := ControllerPrefix g;
              ControllerAddressGroupPrefix := ControllerAddressGroupPrefix g;
              ControllerAppliedToPrefix := ControllerPrefix g +:+ "-at-" |} in
  (ControllerAppliedToPrefix g, g).

Record CloudResourceID := {
  Name : string;
  Vpc : string
}.

(** [CloudResourceID.String]. *)
Definition CloudResourceID_String (c : CloudResourceID) : string :=
  Name c +:+ "/" +:+ Vpc c.

Record CloudRuleDescription := {
  descName : string;
  descNamespace : string
}.

(** [CloudRuleDescription.String], with the constants [Name] = "Name" and
    [Namespace] = "Ns". *)
Definition CloudRuleDescription_String (r : CloudRuleDescription) : string :=
  "Name" +:+ ":" +:+ descName r +:+ ", " +:+ "Ns" +:+ ":" +:+ descNamespace r.

(** [net.IPNet]: two byte slices. *)
Record IPNet := {
  IP : list ascii;
  Mask : list ascii
}.

(** A Go slice or map that may be [nil] is an [option]: [nil] and the empty
    value are told apart by the JSON encoder. *)
Record IngressRule := {
  FromPort : option Z;
  FromSrcIP : option (list (option IPNet));
  FromSecurityGroups : option (list (option CloudResourceID));
  IngressProtocol : option Z;
  IngressAppliedToGroup : option (gset string)
}.

Record EgressRule := {
  ToPort : option Z;
  ToDstIP : option (list (option IPNet));
  ToSecurityGroups : option (list (option CloudResourceID));
  EgressProtocol : option Z;
  EgressAppliedToGroup : option (gset string)
}.

(** The [Rule] interface: nil, an ingress rule or an egress rule. *)
Inductive Rule :=
| NoRule
| Ingress (i : IngressRule)
| Egress (e : EgressRule).

Record CloudRule := {
  Hash : string;
  Rule_ : Rule;
  NpNamespacedName : string;
  AppliedToGrp : string
}.

(** A struct field as [encoding/json] sees it: its Go name, its [json] tag
    (empty when the field has none) and the encoding of its value, [None]
    when the value cannot be encoded. *)
Record StructField := {
  fieldName : string;
  jsonTag : string;
  fieldJSON : option string
}.

Definition quote : string := String "034"%char EmptyString.

(** The members of a JSON object for the fields that are not tagged "-". *)
Fixpoint marshalFields (fields : list StructField) : option (list string) :=
  match fields with
  | [] => Some []
  | f :: rest =>
      if String.eqb (jsonTag f) "-" then marshalFields rest
      else
        match fieldJSON f, marshalFields rest with
        | Some v, Some members =>
            Some ((quote +:+ fieldName f +:+ quote +:+ ":" +:+ v) :: members)
        | _, _ => None
        end
  end.

Fixpoint joinComma (members : list string) : string :=
  match members with
  | [] => EmptyString
  | [m] => m
  | m :: rest => m +:+ "," +:+ joinComma rest
  end.

(** [json.Marshal] of a struct pointer. *)
Definition marshalStruct (fields : list StructField) : option string :=
  match marshalFields fields with
  | Some members => Some ("{" +:+ joinComma members +:+ "}")
  | None => None
  end.

Definition hexDigit (n : nat) : ascii :=
  if Nat.ltb n 10 then ascii_of_nat (48 + n) else ascii_of_nat (87 + n).

(** [hex.EncodeToString]. *)
Fixpoint hex_EncodeToString (s : string) : string :=
  match s with
  | EmptyString => EmptyString
  | String c s' =>
      let n := nat_of_ascii c in
      String (hexDigit (n / 16)) (String (hexDigit (n mod 16)) (hex_EncodeToString s'))
  end.

Section Libraries.

(** [strings.ToLower]. *)
Variable strings_ToLower : string -> string.

(** [CloudResourceID.GetCloudName]; [fmt.Sprintf] with two "%v" verbs on two
    strings concatenates them. *)
Definition GetCloudName (c : CloudResourceID) (membershipOnly : bool)
  (g : Globals) : string * Globals :=
  if membershipOnly then
    let (prefix, g) := GetControllerAddressGroupPrefix g in
    (prefix +:+ strings_ToLower (Name c), g)
  else
    let (prefix, g) := GetControllerAppliedToPrefix g in
    (prefix +:+ strings_ToLower (Name c), g).

(** The JSON encodings of a [Rule] interface value ([None] when the encoder
    fails, as it does on an IP of invalid length) and of a string. *)
Variable json_Rule : Rule -> option string.
Variable json_string : string -> string.

(** [sha1.New], [Write] and [Sum(nil)] on one input. *)
Variable sha1_Sum : string -> string.

(** The fields of [CloudRule] with their tags, in declaration order. *)
Definition CloudRule_fields (c : CloudRule) : list StructField :=
  [ {| fieldName := "Hash"; jsonTag := "-";
       fieldJSON := Some (json_string (Hash c)) |};
    {| fieldName := "Rule"; jsonTag := EmptyString;
       fieldJSON := json_Rule (Rule_ c) |};
    {| fieldName := "NpNamespacedName"; jsonTag := "-";
       fieldJSON := Some (json_string (NpNamespacedName c)) |};
    {| fieldName := "AppliedToGrp"; jsonTag := EmptyString;
       fieldJSON := Some (json_string (AppliedToGrp c)) |} ].

(** [CloudRule.GetHash].  The error of [json.Marshal] is dropped; the bytes
    are then nil and the hash is that of the empty input. *)
Definition GetHash (c : CloudRule) : string :=
  let bytes := default EmptyString (marshalStruct (CloudRule_fields c)) in
  hex_EncodeToString (sha1_Sum bytes).

End Libraries.

End CloudResource.

(** ** The security-group synchronizer: rule update on Azure

    The source of [UpdateSecurityGroupRules] is not at hand (its tests are);
    this module follows the algorithm of the design document. *)
Module AzureSecurity.
Import CloudResource.

Inductive Direction := Inbound | Outbound.

Inductive Access := Allow | Deny.

(** A rule of a network security group, as the cloud stores it. *)
Record SecurityRule := {
  srDirection : Direction;
  srProtocol : option Z;
  srPort : option Z;
  srAddressPrefixes : option (list (option IPNet));
  srSecurityGroups : option (list (option CloudResourceID));
  srPriority : Z;
  srAccess : Access;
  srDescription : string
}.

#[global] Instance Direction_eq_dec : EqDecision Direction.
Proof. solve_decision. Defined.

#[global] Instance IPNet_eq_dec : EqDecision IPNet.
Proof. solve_decision. Defined.

#[global] Instance CloudResourceID_eq_dec : EqDecision CloudResourceID.
Proof. solve_decision. Defined.

(** The tuple rules are deduplicated by: direction, protocol, port and peer
    specification (a CIDR list or a list of security-group references). *)
Definition RuleKey : Type :=
  Direction * option Z * option Z
  * option (list (option IPNet)) * option (list (option CloudResourceID)).

Definition ruleKey (r : SecurityRule) : RuleKey :=
  (srDirection r, srProtocol r, srPort r, srAddressPrefixes r, srSecurityGroups r).

(** The cloud: the rule set stored for each group, by cloud name, and the
    rule sets pushed so far. *)
Record Cloud := {
  securityRules : gmap string (list SecurityRule);
  pushed : list (string * list SecurityRule)
}.

(** Modelled from the spec: [utils.GenerateCloudDescription], whose source is
    not at hand.  A cloud rule carries "a description string embedding the
    policy identity", "encoding (policy-name, policy-namespace)"; the policy
    is given by its namespaced name, namespace and name joined with "/".  No
    description can be generated from a string of another shape. *)
Definition GenerateCloudDescription (namespacedName : string)
  : string * option error :=
  match GoStrings.splitByte "/"%char namespacedName with
  | [namespace; name] =>
      (CloudRuleDescription_String {| descName := name; descNamespace := namespace |},
       None)
  | _ => (EmptyString, Some ("no policy name in rule description: " +:+ namespacedName))
  end.

(** A rule lacks a policy namespaced-name when its [NpNamespacedName] is not
    a namespace and a name joined with "/"; the zero value is such a
    string. *)
Definition lacksPolicyName (r : CloudRule) : Prop :=
  length (GoStrings.splitByte "/"%char (NpNamespacedName r)) ≠ 2%nat.

(** Index of the first occurrence of [sep] in [s]. *)
Fixpoint indexOf (sep s : string) : option nat :=
  if String.prefix sep s then Some O
  else
    match s with
    | EmptyString => None
    | String _ s' => S <$> indexOf sep s'
    end.

(** Modelled from the spec: a cloud rule is owned when its "description
    parses into a valid policy name", that is, when it has the shape that
    [CloudRuleDescription.String] produces. *)
Definition parseDescription (description : string) : option CloudRuleDescription :=
  if String.prefix "Name:" description then
    let rest := String.substring 5 (String.length description - 5) description in
    match indexOf ", Ns:" rest with
    | Some i =>
        Some {| descName := String.substring 0 i rest;
                descNamespace :=
                  String.substring (i + 5) (String.length rest - (i + 5)) rest |}
    | None => None
    end
  else None.

Definition owned (r : SecurityRule) : bool :=
  match parseDescription (srDescription r) with
  | Some _ => true
  | None => false
  end.

(** Keep the first rule of every key. *)
Fixpoint dedupe (seen : list RuleKey) (rules : list SecurityRule)
  : list SecurityRule :=
  match rules with
  | [] => []
  | r :: rest =>
      if decide (ruleKey r ∈ seen) then dedupe seen rest
      else r :: dedupe (ruleKey r :: seen) rest
  end.

Definition withPriority (r : SecurityRule) (priority : Z) : SecurityRule :=
  {| srDirection := srDirection r; srProtocol := srProtocol r;
     srPort := srPort r; srAddressPrefixes := srAddressPrefixes r;
     srSecurityGroups := srSecurityGroups r; srPriority := priority;
     srAccess := srAccess r; srDescription := srDescription r |}.

(** Priorities count up from the next free one of each direction. *)
Fixpoint assignPriorities (nextInbound nextOutbound : Z)
  (rules : list SecurityRule) : list SecurityRule :=
  match rules with
  | [] => []
  | r :: rest =>
      match srDirection r with
      | Inbound =>
          withPriority r nextInbound
          :: assignPriorities (nextInbound + 1) nextOutbound rest
      | Outbound =>
          withPriority r nextOutbound
          :: assignPriorities nextInbound (nextOutbound + 1) rest
      end
  end.

Section Synchronizer.

Variable strings_ToLower : string -> string.

(** The first priority given to a rule, and the priority of the deny-all
    rules, the lowest one. *)
Variable ruleStartPriority : Z.
Variable lowestPriority : Z.

(** Step 3 for one rule: the cloud rule for a policy rule, or the rejection
    of step 6. *)
Definition convertRule (r : CloudRule) : SecurityRule + error :=
  match GenerateCloudDescription (NpNamespacedName r) with
  | (_, Some err) => inr err
  | (description, None) =>
      match Rule_ r with
      | Ingress i =>
          inl {| srDirection := Inbound; srProtocol := IngressProtocol i;
                 srPort := FromPort i; srAddressPrefixes := FromSrcIP i;
                 srSecurityGroups := FromSecurityGroups i; srPriority := 0;
                 srAccess := Allow; srDescription := description |}
      | Egress e =>
          inl {| srDirection := Outbound; srProtocol := EgressProtocol e;
                 srPort := ToPort e; srAddressPrefixes := ToDstIP e;
                 srSecurityGroups := ToSecurityGroups e; srPriority := 0;
                 srAccess := Allow; srDescription := description |}
      | NoRule => inr "rule has no direction"
      end
  end.

Fixpoint convertRules (rules : list CloudRule) : list SecurityRule + error :=
  match rules with
  | [] => inl []
  | r :: rest =>
      match convertRule r with
      | inr err => inr err
      | inl converted =>
          match convertRules rest with
          | inr err => inr err
          | inl others => inl (converted :: others)
          end
      end
  end.

(** Step 4: the explicit deny-all rule of a direction. *)
Definition denyAll (direction : Direction) : SecurityRule :=
  {| srDirection := direction; srProtocol := None; srPort := None;
     srAddressPrefixes := None; srSecurityGroups := None;
     srPriority := lowestPriority; srAccess := Deny;
     srDescription := EmptyString |}.

(** Modelled from the spec: [UpdateSecurityGroupRules(appliedTo, addRules,
    removeRules, allRules)] of the Azure plugin, whose source is not at
    hand.  The steps are those of the design document: (1) fetch the current
    rule set of the group; (2) split it into owned and unowned rules, the
    unowned ones passing through unchanged; (3) starting from [allRules],
    emit one cloud rule per policy rule with the description of its policy,
    deduplicated by [ruleKey], with priorities counting up from a fixed base
    in each direction; (4) append a deny-all rule for each direction at the
    lowest priority; (5) push the resulting rule set with a single cloud
    call; (6) a rule without a policy-name description is rejected with an
    error.  Step 6 holds for every rule handed to the call, the changed rules
    [addRules] and [removeRules] as well as [allRules]: the description of
    each is generated before anything is written, and the security test
    "invalid namespacedname" hands its rules without a policy name as
    [addRules] and expects the error.  Keeping the priority of a rule the
    cloud already has is left out: the document does not say how kept and
    fresh priorities interleave. *)
Definition UpdateSecurityGroupRules (appliedTo : CloudResourceID) (g : Globals)
  (addRules removeRules allRules : list CloudRule) (cloud : Cloud)
  : Cloud * option error :=
  let group := (GetCloudName strings_ToLower appliedTo false g).1 in
  let current := default [] (securityRules cloud !! group) in
  let unowned := filter (fun r => owned r = false) current in
  match convertRules addRules with
  | inr err => (cloud, Some err)
  | inl _ =>
  match convertRules removeRules with
  | inr err => (cloud, Some err)
  | inl _ =>
  match convertRules allRules with
  | inr err => (cloud, Some err)
  | inl converted =>
      let emitted :=
        assignPriorities ruleStartPriority ruleStartPriority (dedupe [] converted) in
      let rules := unowned ++ emitted ++ [denyAll Inbound; denyAll Outbound] in
      ({| securityRules := <[group := rules]> (securityRules cloud);
          pushed := pushed cloud ++ [(group, rules)] |}, None)
  end end end.

End Synchronizer.

End AzureSecurity.

(** ** Concrete inputs

    The accounts, secrets and clouds of the unit tests, and stand-ins for the
    library functions that agree with the libraries on the inputs used
    here. *)
Module Fixtures.
Import Crd K8s.

(** The secret reference of the account tests. *)
Definition secretRef01 : SecretReference :=
  {| Name := "secret01"; Namespace := "namespace01"; Key := "credentials" |}.

Definition awsConfig01 : CloudProviderAccountAWSConfig :=
  {| awsRegion := "us-east-1"; awsEndpoint := EmptyString;
     awsSecretRef := secretRef01 |}.

Definition azureConfig01 : CloudProviderAccountAzureConfig :=
  {| azureRegion := ["eastus"]; azureSecretRef := secretRef01 |}.

(** A cluster without the secret: [Get] fails. *)
Definition noSecretClient : Client := {| Get := fun _ _ => None |}.

(** A cluster whose secret holds, under "credentials", the base64 text
    "e30=" of the JSON document "{}": an object without members. *)
Definition emptyObjectClient : Client :=
  {| Get := fun namespace name =>
              if decide (namespace = "namespace01" ∧ name = "secret01")
              then Some {[ "data" := AnyMap {[ "credentials" := DataString "e30=" ]} ]}
              else None |}.

(** base64 on "e30=", the encoding of "{}". *)
Definition base64_DecodeString (text : string) : option string :=
  if decide (text = "e30=") then Some "{}" else None.

(** [json.Unmarshal] on "{}": a valid document that sets no field. *)
Definition json_Unmarshal {Cred : Type} (data : string) (cred : Cred)
  : Cred * option error :=
  if decide (data = "{}") then (cred, None)
  else (cred, Some "invalid character looking for beginning of value").

Definition ErrorMsgSecretReference : string := "error in Secret reference".

(** Two AWS configurations that differ in one leading space of the access
    key ID. *)
Definition awsExisting : Aws.awsAccountConfig :=
  {| Aws.credential :=
       {| AccessKeyID := "keyId"; AccessKeySecret := "keySecret";
          SessionToken := EmptyString; RoleArn := EmptyString;
          ExternalID := EmptyString |};
     Aws.region := "us-east-1"; Aws.endpoint := EmptyString |}.

Definition awsPadded : Aws.awsAccountConfig :=
  {| Aws.credential :=
       {| AccessKeyID := " keyId"; AccessKeySecret := "keySecret";
          SessionToken := EmptyString; RoleArn := EmptyString;
          ExternalID := EmptyString |};
     Aws.region := "us-east-1"; Aws.endpoint := EmptyString |}.

(** The Azure account of the compute tests. *)
Definition azureCredentials01 : Azure.azureAccountConfig :=
  {| Azure.credential :=
       {| SubscriptionID := "SubID"; ClientID := "ClientID";
          TenantID := "TenantID"; ClientKey := "ClientKey" |};
     Azure.region := "eastus" |}.

Definition account01 : Types.NamespacedName :=
  {| Types.Namespace := "namespace01"; Types.Name := "account01" |}.

(** A snapshot published by an earlier poll. *)
Definition snapshot01 : AzureCompute.computeResourcesCacheSnapshot :=
  {| AzureCompute.virtualMachines :=
       {[ "testvmid" :=
            {| AzureCompute.vmID := Some "testvmID";
               AzureCompute.vmName := Some "testvmName";
               AzureCompute.vmVnetID := Some "testVnetID01" |} ]};
     AzureCompute.vnets := [];
     AzureCompute.vnetIDs := {[ "testVnetID01" ]};
     AzureCompute.vnetPeers := ∅ |}.

Definition computeCfg (filters : gmap string (list string))
  : AzureCompute.computeServiceConfig :=
  {| AzureCompute.account := account01;
     AzureCompute.resourcesCache := Some snapshot01;
     AzureCompute.credentials := azureCredentials01;
     AzureCompute.computeFilters := filters |}.

(** One selector with a query, and one that selects everything. *)
Definition filtersWithMatchAll : gmap string (list string) :=
  {[ "namespace01/selector-VnetID" := ["vnet-query"];
     "namespace01/selector-all" := [] ]}.

(** Clouds without state: the vnet listing and the resource graph either
    answer with nothing or fail. *)
Definition vnetsFail (cloud : unit)
  : (list AzureCompute.VirtualNetwork * option error) * unit :=
  (([], Some "vnet listing throttled"), cloud).

Definition vnetsEmpty (cloud : unit)
  : (list AzureCompute.VirtualNetwork * option error) * unit :=
  (([], None), cloud).

Definition rowsFail (query : string) (subscriptions : list string) (cloud : unit)
  : (list AzureCompute.virtualMachineTable * option error) * unit :=
  (([], Some "resource graph throttled"), cloud).

Definition rowsEmpty (query : string) (subscriptions : list string) (cloud : unit)
  : (list AzureCompute.virtualMachineTable * option error) * unit :=
  (([], None), cloud).

(** A query builder that always succeeds. *)
Definition matchQuery (subscriptionIDs tenantIDs locations : list string)
  : string * option error :=
  ("subscriptions " +:+ String.concat "," subscriptionIDs
   +:+ " tenants " +:+ String.concat "," tenantIDs
   +:+ " locations " +:+ String.concat "," locations, None).

Definition world0 : AzureCompute.World unit :=
  {| AzureCompute.cloud := tt; AzureCompute.calls := [] |}.

(** The configuration and the world after a poll that found nothing. *)
Definition computeCfgPolled : AzureCompute.computeServiceConfig :=
  {| AzureCompute.account := account01;
     AzureCompute.resourcesCache :=
       Some {| AzureCompute.virtualMachines := ∅; AzureCompute.vnets := [];
               AzureCompute.vnetIDs := ∅; AzureCompute.vnetPeers := ∅ |};
     AzureCompute.credentials := azureCredentials01;
     AzureCompute.computeFilters := filtersWithMatchAll |}.

Definition worldPolled : AzureCompute.World unit :=
  {| AzureCompute.cloud := tt;
     AzureCompute.calls :=
       [AzureCompute.CallListAllComplete;
        AzureCompute.CallResourceGraph
          "subscriptions SubID tenants TenantID locations eastus" ["SubID"]] |}.

(** A registry whose configurations count the updates applied to them. *)
Record accountConfig := {
  configName : Types.NamespacedName;
  configUpdates : nat
}.

Definition newAccountConfig (client : Client) (namespacedName : Types.NamespacedName)
  (credentials : CloudProviderAccountAWSConfig)
  : option accountConfig * option error :=
  (Some {| configName := namespacedName; configUpdates := 0 |}, None).

Definition updateAccountConfig (client : Client)
  (credentials : CloudProviderAccountAWSConfig) (config : accountConfig)
  : accountConfig * option error :=
  ({| configName := configName config;
      configUpdates := S (configUpdates config) |}, None).

Definition cloudProviderAccount01 : Internal.CloudProviderAccount :=
  {| Internal.GetNamespace := "namespace01"; Internal.GetName := "account01" |}.

Definition registry01 : Internal.cloudCommon accountConfig :=
  {| Internal.accountConfigs :=
       {[ account01 := {| configName := account01; configUpdates := 0 |} ]};
     Internal.logged := [] |}.

(** The ingress rule of the security tests: TCP to port 22. *)
Definition ingress22 : CloudResource.Rule :=
  CloudResource.Ingress
    {| CloudResource.FromPort := Some 22;
       CloudResource.FromSrcIP :=
         Some [Some {| CloudResource.IP := GoStrings.bytes [192; 168; 1; 0]%nat;
                       CloudResource.Mask := GoStrings.bytes [255; 255; 255; 0]%nat |}];
       CloudResource.FromSecurityGroups := None;
       CloudResource.IngressProtocol := Some 6;
       CloudResource.IngressAppliedToGroup := None |}.

(** The same rule, once with and once without a policy and a hash. *)
Definition ruleOfPolicy : CloudResource.CloudRule :=
  {| CloudResource.Hash := "0a1b2c";
     CloudResource.Rule_ := ingress22;
     CloudResource.NpNamespacedName := "test-anp-ns/test-anp";
     CloudResource.AppliedToGrp := "atapplicationsgID" |}.

Definition ruleWithoutPolicy : CloudResource.CloudRule :=
  {| CloudResource.Hash := EmptyString;
     CloudResource.Rule_ := ingress22;
     CloudResource.NpNamespacedName := EmptyString;
     CloudResource.AppliedToGrp := "atapplicationsgID" |}.

(** Stand-ins for the encoders and the digest behind [GetHash]. *)
Definition json_Rule (r : CloudResource.Rule) : option string :=
  match r with
  | CloudResource.NoRule => Some "null"
  | CloudResource.Ingress _ => Some "{ingress}"
  | CloudResource.Egress _ => Some "{egress}"
  end.

Definition json_string (s : string) : string :=
  CloudResource.quote +:+ s +:+ CloudResource.quote.

Definition digest (bytes : string) : string := bytes.

Definition globals0 : CloudResource.Globals :=
  {| CloudResource.ControllerPrefix := EmptyString;
     CloudResource.ControllerAddressGroupPrefix := EmptyString;
     CloudResource.ControllerAppliedToPrefix := EmptyString |}.

Definition appliedTo01 : CloudResource.CloudResourceID :=
  {| CloudResource.Name := "atapplicationsgID"; CloudResource.Vpc := "testVnetID01" |}.

(** A cloud that holds one rule of somebody else for the group. *)
Definition foreignRule : AzureSecurity.SecurityRule :=
  {| AzureSecurity.srDirection := AzureSecurity.Inbound;
     AzureSecurity.srProtocol := None; AzureSecurity.srPort := Some 443;
     AzureSecurity.srAddressPrefixes := None;
     AzureSecurity.srSecurityGroups := None;
     AzureSecurity.srPriority := 200; AzureSecurity.srAccess := AzureSecurity.Allow;
     AzureSecurity.srDescription := "allow https" |}.

Definition securityCloud01 : AzureSecurity.Cloud :=
  {| AzureSecurity.securityRules := {[ "nephe-at-atapplicationsgid" := [foreignRule] ]};
     AzureSecurity.pushed := [] |}.

(** Account methods for [accountConfig]: a poll that fails, and a reset. *)
Definition syncFails (config : accountConfig) : accountConfig * option error :=
  ({| configName := configName config;
      configUpdates := S (configUpdates config) |}, Some "poll failed").

Definition resetConfig (config : accountConfig) : accountConfig :=
  {| configName := configName config; configUpdates := 0 |}.

Definition addFilters (config : accountConfig) (selector : string)
  : accountConfig * option error :=
  ({| configName := configName config;
      configUpdates := S (configUpdates config) |}, None).

Definition removeFilters (config : accountConfig)
  (selector : Types.NamespacedName) : accountConfig := config.

Definition account02 : Types.NamespacedName :=
  {| Types.Namespace := "namespace01"; Types.Name := "account02" |}.

(** The account CRs of the tests with blanks around the region. *)
Definition awsConfigPadded : CloudProviderAccountAWSConfig :=
  {| awsRegion := " us-east-1 "; awsEndpoint := EmptyString;
     awsSecretRef := secretRef01 |}.

Definition azureConfigPadded : CloudProviderAccountAzureConfig :=
  {| azureRegion := [" eastus"; "westus"]; azureSecretRef := secretRef01 |}.

(** A cluster whose secret has no entry under the key "credentials". *)
Definition otherKeyClient : Client :=
  {| Get := fun namespace name =>
              Some {[ "data" := AnyMap {[ "password" := DataString "e30=" ]} ]} |}.

(** Two selectors, each with queries. *)
Definition filtersTwoSelectors : gmap string (list string) :=
  {[ "namespace01/selector-VnetID" := ["vnet-query"];
     "namespace01/selector-VmName" := ["name-query-1"; "name-query-2"] ]}.

(** A resource graph that answers every query with one row, complete or
    without its ID. *)
Definition vm01 : AzureCompute.virtualMachineTable :=
  {| AzureCompute.vmID := Some "testvmID"; AzureCompute.vmName := Some "testvmName";
     AzureCompute.vmVnetID := Some "testVnetID03" |}.

Definition vmWithoutID : AzureCompute.virtualMachineTable :=
  {| AzureCompute.vmID := None; AzureCompute.vmName := Some "testvmName";
     AzureCompute.vmVnetID := Some "testVnetID03" |}.

Definition rowsOne (query : string) (subscriptions : list string) (cloud : unit)
  : (list AzureCompute.virtualMachineTable * option error) * unit :=
  (([vm01], None), cloud).

Definition rowsWithoutID (query : string) (subscriptions : list string) (cloud : unit)
  : (list AzureCompute.virtualMachineTable * option error) * unit :=
  (([vmWithoutID], None), cloud).

(** Selectors whose specification is the list of queries they compile to;
    an empty specification does not compile. *)
Definition selectorVnet : AzureCompute.CloudEntitySelector (list string) :=
  {| AzureCompute.selectorNamespace := "namespace01";
     AzureCompute.selectorName := "selector-VnetID";
     AzureCompute.selectorSpec := ["vnet-query"] |}.

Definition convertSelector (selector : AzureCompute.CloudEntitySelector (list string))
  (subscriptionIDs tenantIDs locations : list string) : list string * bool :=
  match AzureCompute.selectorSpec selector with
  | [] => ([], false)
  | queries => (map (λ query, query +:+ " in " +:+ String.concat "," locations) queries,
                true)
  end.

Definition service01 : AzureCompute.computeService (list string) nat :=
  {| AzureCompute.config := computeCfg ∅;
     AzureCompute.inventoryStats := 3%nat;
     AzureCompute.selectors := ∅ |}.

(** The service with [selectorVnet] installed, and a service with the
    credentials of another region. *)
Definition service02 : AzureCompute.computeService (list string) nat :=
  {| AzureCompute.config :=
       computeCfg {[ "namespace01/selector-VnetID" := ["vnet-query in eastus"] ]};
     AzureCompute.inventoryStats := 3%nat;
     AzureCompute.selectors := {[ "namespace01/selector-VnetID" := selectorVnet ]} |}.

Definition serviceWest : AzureCompute.computeService (list string) nat :=
  {| AzureCompute.config :=
       {| AzureCompute.account := account01;
          AzureCompute.resourcesCache := None;
          AzureCompute.credentials :=
            {| Azure.credential := Azure.credential azureCredentials01;
               Azure.region := "westus" |};
          AzureCompute.computeFilters := ∅ |};
     AzureCompute.inventoryStats := 0%nat;
     AzureCompute.selectors := ∅ |}.

(** A snapshot with one vnet of the region, written in another case, and
    one with a vnet that has no location; a case-blind comparison for ASCII
    and a VPC object that keeps the region and the managed flag. *)
Definition vnetEast : AzureCompute.VirtualNetwork :=
  {| AzureCompute.vnetID := Some "testVnetID01";
     AzureCompute.vnetLocation := Some "EastUS";
     AzureCompute.vnetProperties := None |}.

Definition vnetWithoutLocation : AzureCompute.VirtualNetwork :=
  {| AzureCompute.vnetID := Some "testVnetID02";
     AzureCompute.vnetLocation := None;
     AzureCompute.vnetProperties := None |}.

Definition computeCfgWithVnets (vnets : list AzureCompute.VirtualNetwork)
  : AzureCompute.computeServiceConfig :=
  {| AzureCompute.account := account01;
     AzureCompute.resourcesCache :=
       Some {| AzureCompute.virtualMachines := ∅; AzureCompute.vnets := vnets;
               AzureCompute.vnetIDs := {[ "testvnetid01" ]};
               AzureCompute.vnetPeers := ∅ |};
     AzureCompute.credentials := azureCredentials01;
     AzureCompute.computeFilters := ∅ |}.

Definition equalFoldAscii (a b : string) : bool :=
  String.eqb (GoStrings.asciiToLower a) (GoStrings.asciiToLower b).

Definition vpcObject (vnet : AzureCompute.VirtualNetwork)
  (namespace name region : string) (managed : bool) : string * bool :=
  (region, managed).

(** A vnet with one peering, whose remote vnet and address spaces are
    known. *)
Definition vnetPeered : AzureCompute.VirtualNetwork :=
  {| AzureCompute.vnetID := Some "testVnetID01";
     AzureCompute.vnetLocation := Some "eastus";
     AzureCompute.vnetProperties :=
       Some {| AzureCompute.vnetAddressSpace :=
                 Some {| AzureCompute.AddressPrefixes := [Some "10.0.0.0/16"] |};
               AzureCompute.VirtualNetworkPeerings :=
                 [Some {| AzureCompute.peeringProperties :=
                            Some {| AzureCompute.RemoteVirtualNetwork :=
                                      Some {| AzureCompute.subResourceID :=
                                                Some "testVnetPeerID01" |};
                                    AzureCompute.RemoteAddressSpace :=
                                      Some {| AzureCompute.AddressPrefixes :=
                                                [Some "10.1.0.0/16"] |} |} |}] |} |}.

(** Every SDK client can be created. *)
Definition clientsCreated : AzureCompute.azureServiceClientCreate :=
  {| AzureCompute.networkInterfaces := fun _ => None;
     AzureCompute.securityGroups := fun _ => None;
     AzureCompute.applicationSecurityGroups := fun _ => None;
     AzureCompute.resourceGraph := None;
     AzureCompute.virtualNetworks := fun _ => None |}.

(** The egress rule of the security tests, without a policy. *)
Definition egressWithoutPolicy : CloudResource.CloudRule :=
  {| CloudResource.Hash := EmptyString;
     CloudResource.Rule_ :=
       CloudResource.Egress
         {| CloudResource.ToPort := Some 23;
            CloudResource.ToDstIP :=
              Some [Some {| CloudResource.IP := GoStrings.bytes [192; 168; 1; 0]%nat;
                            CloudResource.Mask :=
                              GoStrings.bytes [255; 255; 255; 0]%nat |}];
            CloudResource.ToSecurityGroups := Some [Some appliedTo01];
            CloudResource.EgressProtocol := Some 6;
            CloudResource.EgressAppliedToGroup := None |};
     CloudResource.NpNamespacedName := EmptyString;
     CloudResource.AppliedToGrp := "atapplicationsgID" |}.

(** A selector that does not compile. *)
Definition selectorNothing : AzureCompute.CloudEntitySelector (list string) :=
  {| AzureCompute.selectorNamespace := "namespace01";
     AzureCompute.selectorName := "selector-Nothing";
     AzureCompute.selectorSpec := [] |}.

(** A resource graph that counts the queries it has answered and refuses
    the second one; the order in which the two selectors are visited. *)
Definition rowsSecondFails (query : string) (subscriptions : list string)
  (cloud : nat) : (list AzureCompute.virtualMachineTable * option error) * nat :=
  if (cloud =? 1)%nat then (([], Some "throttled"), S cloud)
  else (([vm01], None), S cloud).

Definition orderTwoSelectors : list (string * list string) :=
  [ ("namespace01/selector-VnetID", ["vnet-query"]);
    ("namespace01/selector-VmName", ["name-query-1"; "name-query-2"]) ].

Definition worldCounting : AzureCompute.World nat :=
  {| AzureCompute.cloud := 0%nat; AzureCompute.calls := [] |}.

End Fixtures.

(** * Properties *)

(** ** Strings *)

Lemma String_compare_refl (s : string) : String.compare s s = Eq.
Proof.
  pose proof (String.compare_antisym s s) as H.
  destruct (String.compare s s); simpl in H; congruence.
Qed.

Lemma Compare_zero_iff (a b : string) :
  (GoStrings.Compare a b =? 0) = true ↔ a = b.
Proof.
  unfold GoStrings.Compare. split.
  - destruct (String.compare a b) eqn:E; try (intros H; discriminate H).
    intros _. by apply String.compare_eq_iff.
  - intros ->. by rewrite String_compare_refl.
Qed.

Lemma Compare_differs (a b : string) :
  negb (GoStrings.Compare a b =? 0) = negb (String.eqb a b).
Proof.
  f_equal. destruct (String.eqb_spec a b) as [->|Hne].
  - by apply Compare_zero_iff.
  - apply not_true_is_false. intros H. by apply Compare_zero_iff in H.
Qed.

(** ** Account management *)

Lemma aws_compareField_flag accountName message a b acc :
  (Aws.compareField accountName message a b acc).1
  = (acc.1 || negb (String.eqb a b))%bool.
Proof.
  unfold Aws.compareField. rewrite Compare_differs.
  destruct (String.eqb a b), acc as [[] ?]; reflexivity.
Qed.

Lemma azure_compareField_flag accountName message a b acc :
  (Azure.compareField accountName message a b acc).1
  = (acc.1 || negb (String.eqb a b))%bool.
Proof.
  unfold Azure.compareField. rewrite Compare_differs.
  destruct (String.eqb a b), acc as [[] ?]; reflexivity.
Qed.

Ltac split_fields :=
  repeat match goal with
    | |- context [String.eqb ?a ?b] =>
        destruct (String.eqb_spec a b); [subst | ]
    end.

(** C1, as amended.  The comparator of each plugin reports a credential
    change exactly when at least one of the fields it compares differs as
    stored, byte for byte; it does not trim the fields. *)
Theorem compareAccountCredentials_exact :
  (∀ accountName existing new,
      (Aws.compareAccountCredentials accountName existing new).1 = true
      ↔ Aws.fields existing ≠ Aws.fields new)
  ∧ (∀ accountName existing new,
      (Azure.compareAccountCredentials accountName existing new).1 = true
      ↔ Azure.fields existing ≠ Azure.fields new).
Proof.
  split; intros accountName existing new.
  - unfold Aws.compareAccountCredentials, Aws.fields.
    rewrite !aws_compareField_flag. simpl.
    split_fields; simpl; split; intros H; try congruence;
      try (exfalso; by apply H); done.
  - unfold Azure.compareAccountCredentials, Azure.fields.
    rewrite !azure_compareField_flag. simpl.
    split_fields; simpl; split; intros H; try congruence;
      try (exfalso; by apply H); done.
Qed.

(** C1 fails as stated: two AWS configurations whose access key IDs differ
    only by a leading space have the same trimmed fields, and the comparator
    reports a change. *)
Lemma compareAccountCredentials_not_trimmed :
  ¬ ((Aws.compareAccountCredentials "account01"
        Fixtures.awsExisting Fixtures.awsPadded).1 = true
     ↔ map GoStrings.TrimSpace (Aws.fields Fixtures.awsExisting)
       ≠ map GoStrings.TrimSpace (Aws.fields Fixtures.awsPadded)).
Proof.
  intros [H _]. apply H; reflexivity.
Qed.

(** The secret hot reload of the controller tests: the access key secret
    changes from "keySecret" to "Secret"; the comparator fires and logs that
    one field. *)
Example compareAccountCredentials_secret_updated :
  Aws.compareAccountCredentials "account01" Fixtures.awsExisting
    {| Aws.credential :=
         {| Crd.AccessKeyID := "keyId"; Crd.AccessKeySecret := "Secret";
            Crd.SessionToken := EmptyString; Crd.RoleArn := EmptyString;
            Crd.ExternalID := EmptyString |};
       Aws.region := "us-east-1"; Aws.endpoint := EmptyString |}
  = (true, [{| logMessage := "Account access key secret updated";
               logAccount := "account01" |}]).
Proof. reflexivity. Qed.

Example TrimSpace_region :
  GoStrings.TrimSpace "  us-east-1 " = "us-east-1"
  ∧ GoStrings.TrimSpace " keyId" = GoStrings.TrimSpace "keyId".
Proof. split; reflexivity. Qed.

(** C2, as amended.  When credential resolution fails, the Azure plugin
    (given a region) returns a configuration whose four credential fields
    are the sentinel "default", together with the resolution error; the AWS
    plugin returns no configuration, together with the resolution error. *)
Theorem setAccountCredentials_on_resolution_failure :
  (∀ base64 json errorMsg client config region0 regions cred err,
      Crd.azureRegion config = region0 :: regions →
      Azure.extractSecret base64 json errorMsg client (Crd.azureSecretRef config)
      = (cred, Some err) →
      Azure.setAccountCredentials base64 json errorMsg client config
      = Done ({| Azure.credential :=
                   {| Crd.SubscriptionID := "default"; Crd.ClientID := "default";
                      Crd.TenantID := "default"; Crd.ClientKey := "default" |};
                 Azure.region := GoStrings.TrimSpace region0 |},
              Some err))
  ∧ (∀ base64 json client config cred err,
      Aws.extractSecret base64 json client (Crd.awsSecretRef config)
      = Done (cred, Some err) →
      Aws.setAccountCredentials base64 json client config = Done (None, Some err)).
Proof.
  split.
  - intros base64 json errorMsg client config region0 regions cred err Hregion Hsecret.
    unfold Azure.setAccountCredentials. rewrite Hregion, Hsecret. reflexivity.
  - intros base64 json client config cred err Hsecret.
    unfold Aws.setAccountCredentials. rewrite Hsecret. by destruct cred.
Qed.

Lemma setAccountCredentials_on_resolution_failure_witness :
  Azure.setAccountCredentials Fixtures.base64_DecodeString Fixtures.json_Unmarshal
    Fixtures.ErrorMsgSecretReference Fixtures.noSecretClient Fixtures.azureConfig01
  = Done ({| Azure.credential :=
               {| Crd.SubscriptionID := "default"; Crd.ClientID := "default";
                  Crd.TenantID := "default"; Crd.ClientKey := "default" |};
             Azure.region := "eastus" |},
          Some "error in Secret reference, failed to get Secret object: namespace01/secret01")
  ∧ Aws.setAccountCredentials Fixtures.base64_DecodeString Fixtures.json_Unmarshal
      Fixtures.noSecretClient Fixtures.awsConfig01
    = Done (None, Some "error fetching Secret: secret01/namespace01").
Proof.
  split.
  - eapply (proj1 setAccountCredentials_on_resolution_failure
              Fixtures.base64_DecodeString Fixtures.json_Unmarshal
              Fixtures.ErrorMsgSecretReference Fixtures.noSecretClient
              Fixtures.azureConfig01 "eastus" []); reflexivity.
  - eapply (proj2 setAccountCredentials_on_resolution_failure
              Fixtures.base64_DecodeString Fixtures.json_Unmarshal
              Fixtures.noSecretClient Fixtures.awsConfig01 None); reflexivity.
Defined.

(** C2 fails as stated for the AWS plugin: without the secret, credential
    resolution fails and [setAccountCredentials] returns no configuration. *)
Lemma aws_setAccountCredentials_no_sentinel :
  (∃ err, Aws.extractSecret Fixtures.base64_DecodeString Fixtures.json_Unmarshal
            Fixtures.noSecretClient (Crd.awsSecretRef Fixtures.awsConfig01)
          = Done (None, Some err))
  ∧ ¬ (∃ config err,
          Aws.setAccountCredentials Fixtures.base64_DecodeString
            Fixtures.json_Unmarshal Fixtures.noSecretClient Fixtures.awsConfig01
          = Done (Some config, err)).
Proof.
  split.
  - eexists. reflexivity.
  - intros (config & err & H). vm_compute in H. discriminate H.
Qed.

(** The Azure [extractSecret] returns a nil error only with four non-empty
    credential fields. *)
Lemma azure_extractSecret_nil_error base64 json errorMsg client s cred :
  Azure.extractSecret base64 json errorMsg client s = (cred, None) →
  Crd.SubscriptionID cred ≠ EmptyString ∧ Crd.TenantID cred ≠ EmptyString
  ∧ Crd.ClientID cred ≠ EmptyString ∧ Crd.ClientKey cred ≠ EmptyString.
Proof.
  unfold Azure.extractSecret.
  destruct (K8s.Get client _ _) as [object|]; [|intros H; discriminate H].
  destruct (object !! "data") as [[ | data | ]|]; try (intros H; discriminate H).
  destruct (data !! Crd.Key s) as [[text|]|]; try (intros H; discriminate H).
  destruct (base64 text) as [decode|]; [|intros H; discriminate H].
  destruct (json decode Crd.zeroAzure) as [cred' [e|]]; [intros H; discriminate H|].
  destruct (String.eqb_spec (Crd.SubscriptionID cred') EmptyString);
    destruct (String.eqb_spec (Crd.TenantID cred') EmptyString);
    destruct (String.eqb_spec (Crd.ClientID cred') EmptyString);
    destruct (String.eqb_spec (Crd.ClientKey cred') EmptyString);
    simpl; intros H; try discriminate H.
  by inversion H; subst.
Qed.

(** C3, as amended.  When the secret decodes and unmarshals, the Azure
    [extractSecret] returns a non-nil error whenever one of subscriptionId,
    tenantId, clientId and clientKey is empty; the AWS [extractSecret] checks
    no field and returns the credential with a nil error. *)
Theorem extractSecret_empty_fields :
  (∀ base64 json errorMsg client s object data text decode cred,
      K8s.Get client (Crd.Namespace s) (Crd.Name s) = Some object →
      object !! "data" = Some (K8s.AnyMap data) →
      data !! Crd.Key s = Some (K8s.DataString text) →
      base64 text = Some decode →
      json decode Crd.zeroAzure = (cred, None) →
      Crd.SubscriptionID cred = EmptyString ∨ Crd.TenantID cred = EmptyString
      ∨ Crd.ClientID cred = EmptyString ∨ Crd.ClientKey cred = EmptyString →
      ∃ err, Azure.extractSecret base64 json errorMsg client s = (cred, Some err))
  ∧ (∀ base64 json client s object data text decode cred,
      K8s.Get client (Crd.Namespace s) (Crd.Name s) = Some object →
      object !! "data" = Some (K8s.AnyMap data) →
      data !! Crd.Key s = Some (K8s.DataString text) →
      base64 text = Some decode →
      json decode Crd.zeroAws = (cred, None) →
      Aws.extractSecret base64 json client s = Done (Some cred, None)).
Proof.
  split.
  - intros base64 json errorMsg client s object data text decode cred
      Hget Hdata Hkey Hdecode Hjson Hempty.
    unfold Azure.extractSecret. rewrite Hget, Hdata, Hkey, Hdecode, Hjson.
    destruct Hempty as [H|[H|[H|H]]]; rewrite H; simpl;
      rewrite ?orb_true_r; eauto.
  - intros base64 json client s object data text decode cred
      Hget Hdata Hkey Hdecode Hjson.
    unfold Aws.extractSecret. rewrite Hget, Hdata, Hkey, Hdecode, Hjson.
    reflexivity.
Qed.

Lemma extractSecret_empty_fields_witness :
  (∃ err, Azure.extractSecret Fixtures.base64_DecodeString Fixtures.json_Unmarshal
            Fixtures.ErrorMsgSecretReference Fixtures.emptyObjectClient
            Fixtures.secretRef01
          = (Crd.zeroAzure, Some err))
  ∧ Aws.extractSecret Fixtures.base64_DecodeString Fixtures.json_Unmarshal
      Fixtures.emptyObjectClient Fixtures.secretRef01
    = Done (Some Crd.zeroAws, None).
Proof.
  split.
  - eapply (proj1 extractSecret_empty_fields Fixtures.base64_DecodeString
              Fixtures.json_Unmarshal Fixtures.ErrorMsgSecretReference
              Fixtures.emptyObjectClient Fixtures.secretRef01
              {[ "data" := K8s.AnyMap {[ "credentials" := K8s.DataString "e30=" ]} ]}
              {[ "credentials" := K8s.DataString "e30=" ]} "e30=" "{}");
      try reflexivity.
    left. reflexivity.
  - eapply (proj2 extractSecret_empty_fields Fixtures.base64_DecodeString
              Fixtures.json_Unmarshal Fixtures.emptyObjectClient
              Fixtures.secretRef01
              {[ "data" := K8s.AnyMap {[ "credentials" := K8s.DataString "e30=" ]} ]}
              {[ "credentials" := K8s.DataString "e30=" ]} "e30=" "{}");
      reflexivity.
Defined.

(** C3 fails as stated for the AWS plugin: the secret "e30=" decodes to the
    JSON object without members, which unmarshals with every field empty,
    and [extractSecret] returns it with a nil error. *)
Lemma aws_extractSecret_accepts_empty_fields :
  Aws.extractSecret Fixtures.base64_DecodeString Fixtures.json_Unmarshal
    Fixtures.emptyObjectClient Fixtures.secretRef01
  = Done (Some Crd.zeroAws, None)
  ∧ Crd.AccessKeyID Crd.zeroAws = EmptyString
  ∧ Crd.AccessKeySecret Crd.zeroAws = EmptyString.
Proof.
  repeat split.
Qed.

(** ** Inventory *)
Section Inventory.

Variable CloudState : Type.
Variable listAllComplete :
  CloudState -> (list AzureCompute.VirtualNetwork * option error) * CloudState.
Variable resourceGraphRows :
  string -> list string -> CloudState
  -> (list AzureCompute.virtualMachineTable * option error) * CloudState.
Variable matchQuery : list string -> list string -> list string -> string * option error.
Variable strings_ToLower : string -> string.

Local Abbreviation getVpcs := (AzureCompute.getVpcs listAllComplete).
Local Abbreviation getVirtualMachines :=
  (AzureCompute.getVirtualMachines resourceGraphRows matchQuery).
Local Abbreviation getComputeResourceFilters :=
  (AzureCompute.getComputeResourceFilters matchQuery).
Local Abbreviation DoResourceInventory :=
  (AzureCompute.DoResourceInventory listAllComplete resourceGraphRows matchQuery
     strings_ToLower).

(** A poll that returns an error returns the configuration it was given. *)
Lemma DoResourceInventory_error_inv computeCfg order w computeCfg' err w' :
  DoResourceInventory computeCfg order w = (Done (computeCfg', Some err), w') →
  computeCfg' = computeCfg.
Proof.
  unfold AzureCompute.DoResourceInventory, AzureCompute.bind, AzureCompute.ret.
  destruct (getVpcs computeCfg w) as [[[vnets [e|]]|reason] w1];
    try (intros H; inversion H; subst; reflexivity).
  destruct (getVirtualMachines computeCfg order w1) as [[[vms [e|]]|reason] w2];
    try (intros H; inversion H; subst; reflexivity).
  destruct (AzureCompute.buildMapVpcPeers _ _ _ _) as [[peers|reason] w3];
    try (intros H; inversion H; subst; reflexivity).
  destruct (AzureCompute.rangeVirtualMachines _ _ _ _ _) as [[maps|reason] w4];
    intros H; inversion H.
Qed.

(** C4.  If fetching the vnets fails, or fetching the virtual machines
    fails, [DoResourceInventory] returns that error and the configuration,
    with its snapshot, as it was; a poll that replaces the snapshot has
    returned no error. *)
Theorem DoResourceInventory_failure_keeps_snapshot computeCfg order w :
  (∀ vnets err w1,
      getVpcs computeCfg w = (Done (vnets, Some err), w1) →
      DoResourceInventory computeCfg order w = (Done (computeCfg, Some err), w1))
  ∧ (∀ vnets w1 virtualMachines err w2,
      getVpcs computeCfg w = (Done (vnets, None), w1) →
      getVirtualMachines computeCfg order w1
      = (Done (virtualMachines, Some err), w2) →
      DoResourceInventory computeCfg order w = (Done (computeCfg, Some err), w2))
  ∧ (∀ computeCfg' err w',
      DoResourceInventory computeCfg order w = (Done (computeCfg', err), w') →
      AzureCompute.resourcesCache computeCfg'
      ≠ AzureCompute.resourcesCache computeCfg →
      err = None).
Proof.
  split; [|split].
  - intros vnets err w1 Hvpcs.
    unfold AzureCompute.DoResourceInventory, AzureCompute.bind.
    by rewrite Hvpcs.
  - intros vnets w1 virtualMachines err w2 Hvpcs Hvms.
    unfold AzureCompute.DoResourceInventory, AzureCompute.bind.
    by rewrite Hvpcs, Hvms.
  - intros computeCfg' [err|] w' Hpoll Hchanged; [|reflexivity].
    apply DoResourceInventory_error_inv in Hpoll. by subst.
Qed.

Lemma rangeComputeFilters_match_all computeCfg selector queryStr entries allFilters :
  (selector, []) ∈ entries →
  matchQuery [Crd.SubscriptionID (Azure.credential (AzureCompute.credentials computeCfg))]
    [Crd.TenantID (Azure.credential (AzureCompute.credentials computeCfg))]
    [Azure.region (AzureCompute.credentials computeCfg)] = (queryStr, None) →
  AzureCompute.rangeComputeFilters matchQuery computeCfg entries allFilters
  = ([queryStr], true).
Proof.
  intros Hin Hquery. revert allFilters.
  induction entries as [|[key filters] entries IH]; intros allFilters.
  - by apply elem_of_nil in Hin.
  - simpl. destruct filters as [|filter filters]; simpl.
    + by rewrite Hquery.
    + apply IH. apply elem_of_cons in Hin as [Heq|Hin]; [congruence|done].
Qed.

(** C5.  With an empty [computeFilters] map, [getVirtualMachines] returns
    nothing and leaves the world, and so the list of requests sent to the
    cloud, as it was.  When some selector has an empty filter list and the
    query builder yields the match-everything query for the subscription,
    tenant and region of the account, that query alone is the compiled set,
    whatever the other selectors and the order of the range are. *)
Theorem getComputeResourceFilters_nil_and_match_all computeCfg order :
  (AzureCompute.computeFilters computeCfg = ∅ →
   ∀ w, getVirtualMachines computeCfg order w = (Done ([], None), w))
  ∧ (∀ selector queryStr,
      order ≡ₚ map_to_list (AzureCompute.computeFilters computeCfg) →
      AzureCompute.computeFilters computeCfg !! selector = Some [] →
      matchQuery
        [Crd.SubscriptionID (Azure.credential (AzureCompute.credentials computeCfg))]
        [Crd.TenantID (Azure.credential (AzureCompute.credentials computeCfg))]
        [Azure.region (AzureCompute.credentials computeCfg)] = (queryStr, None) →
      getComputeResourceFilters computeCfg order = ([queryStr], true)).
Proof.
  split.
  - intros Hempty w.
    unfold AzureCompute.getVirtualMachines, AzureCompute.getComputeResourceFilters.
    rewrite Hempty, map_size_empty. reflexivity.
  - intros selector queryStr Horder Hlookup Hquery.
    unfold AzureCompute.getComputeResourceFilters.
    destruct (size (AzureCompute.computeFilters computeCfg) =? 0)%nat eqn:Hsize.
    + apply Nat.eqb_eq, map_size_empty_iff in Hsize.
      rewrite Hsize, lookup_empty in Hlookup. discriminate Hlookup.
    + eapply rangeComputeFilters_match_all; [|exact Hquery].
      rewrite Horder. by apply elem_of_map_to_list.
Qed.

End Inventory.

Lemma DoResourceInventory_failure_keeps_snapshot_witness :
  AzureCompute.DoResourceInventory Fixtures.vnetsFail Fixtures.rowsFail
    Fixtures.matchQuery GoStrings.asciiToLower
    (Fixtures.computeCfg Fixtures.filtersWithMatchAll)
    (map_to_list Fixtures.filtersWithMatchAll) Fixtures.world0
  = (Done (Fixtures.computeCfg Fixtures.filtersWithMatchAll,
           Some "vnet listing throttled"),
     {| AzureCompute.cloud := tt;
        AzureCompute.calls := [AzureCompute.CallListAllComplete] |})
  ∧ AzureCompute.DoResourceInventory Fixtures.vnetsEmpty Fixtures.rowsFail
      Fixtures.matchQuery GoStrings.asciiToLower
      (Fixtures.computeCfg Fixtures.filtersWithMatchAll)
      (map_to_list Fixtures.filtersWithMatchAll) Fixtures.world0
    = (Done (Fixtures.computeCfg Fixtures.filtersWithMatchAll,
             Some "resource graph throttled"),
       {| AzureCompute.cloud := tt;
          AzureCompute.calls :=
            [AzureCompute.CallListAllComplete;
             AzureCompute.CallResourceGraph
               "subscriptions SubID tenants TenantID locations eastus" ["SubID"]] |})
  ∧ (AzureCompute.DoResourceInventory Fixtures.vnetsEmpty Fixtures.rowsEmpty
       Fixtures.matchQuery GoStrings.asciiToLower
       (Fixtures.computeCfg Fixtures.filtersWithMatchAll)
       (map_to_list Fixtures.filtersWithMatchAll) Fixtures.world0
     = (Done (Fixtures.computeCfgPolled, None), Fixtures.worldPolled)
     ∧ AzureCompute.resourcesCache Fixtures.computeCfgPolled
       ≠ AzureCompute.resourcesCache (Fixtures.computeCfg Fixtures.filtersWithMatchAll)
     ∧ @None error = None).
Proof.
  split; [|split].
  - eapply (proj1 (DoResourceInventory_failure_keeps_snapshot unit
                     Fixtures.vnetsFail Fixtures.rowsFail Fixtures.matchQuery
                     GoStrings.asciiToLower _ _ Fixtures.world0)).
    reflexivity.
  - eapply (proj1 (proj2 (DoResourceInventory_failure_keeps_snapshot unit
                            Fixtures.vnetsEmpty Fixtures.rowsFail Fixtures.matchQuery
                            GoStrings.asciiToLower _ _ Fixtures.world0))).
    + reflexivity.
    + vm_compute. reflexivity.
  - assert (AzureCompute.resourcesCache Fixtures.computeCfgPolled
            ≠ AzureCompute.resourcesCache
                (Fixtures.computeCfg Fixtures.filtersWithMatchAll)) as Hchanged.
    { intros H. vm_compute in H. discriminate H. }
    assert (AzureCompute.DoResourceInventory Fixtures.vnetsEmpty Fixtures.rowsEmpty
              Fixtures.matchQuery GoStrings.asciiToLower
              (Fixtures.computeCfg Fixtures.filtersWithMatchAll)
              (map_to_list Fixtures.filtersWithMatchAll) Fixtures.world0
            = (Done (Fixtures.computeCfgPolled, None), Fixtures.worldPolled)) as Hpoll.
    { vm_compute. reflexivity. }
    split; [exact Hpoll|]. split; [exact Hchanged|].
    exact (proj2 (proj2 (DoResourceInventory_failure_keeps_snapshot unit
                           Fixtures.vnetsEmpty Fixtures.rowsEmpty Fixtures.matchQuery
                           GoStrings.asciiToLower
                           (Fixtures.computeCfg Fixtures.filtersWithMatchAll)
                           (map_to_list Fixtures.filtersWithMatchAll)
                           Fixtures.world0))
             Fixtures.computeCfgPolled None Fixtures.worldPolled Hpoll Hchanged).
Defined.

Lemma getComputeResourceFilters_nil_and_match_all_witness :
  AzureCompute.getVirtualMachines Fixtures.rowsFail Fixtures.matchQuery
    (Fixtures.computeCfg ∅) [] Fixtures.world0
  = (Done ([], None), Fixtures.world0)
  ∧ AzureCompute.getComputeResourceFilters Fixtures.matchQuery
      (Fixtures.computeCfg Fixtures.filtersWithMatchAll)
      (map_to_list Fixtures.filtersWithMatchAll)
    = (["subscriptions SubID tenants TenantID locations eastus"], true).
Proof.
  split.
  - apply (proj1 (getComputeResourceFilters_nil_and_match_all unit
                    Fixtures.rowsFail Fixtures.matchQuery
                    (Fixtures.computeCfg ∅) [])).
    reflexivity.
  - apply (proj2 (getComputeResourceFilters_nil_and_match_all unit
                    Fixtures.rowsFail Fixtures.matchQuery
                    (Fixtures.computeCfg Fixtures.filtersWithMatchAll)
                    (map_to_list Fixtures.filtersWithMatchAll))
             "namespace01/selector-all").
    + reflexivity.
    + vm_compute. reflexivity.
    + reflexivity.
Defined.

(** ** The account registry *)
Section Registry.

Variable Credentials : Type.
Variable CloudAccountConfig : Type.
Variable GetNamespacedName : CloudAccountConfig -> Types.NamespacedName.
Variable newCloudAccountConfig :
  K8s.Client -> Types.NamespacedName -> Credentials
  -> option CloudAccountConfig * option error.
Variable updateCloudAccountConfig :
  K8s.Client -> Credentials -> CloudAccountConfig
  -> CloudAccountConfig * option error.

Local Abbreviation AddCloudAccount :=
  (Internal.AddCloudAccount GetNamespacedName newCloudAccountConfig
     updateCloudAccountConfig).

Local Abbreviation accountKey := Internal.namespacedNameOf.

Lemma RemoveCloudAccount_lookup (c : Internal.cloudCommon CloudAccountConfig) key :
  Internal.accountConfigs (Internal.RemoveCloudAccount c key) !! key = None.
Proof.
  unfold Internal.RemoveCloudAccount, Internal.GetCloudAccountByName.
  destruct (Internal.accountConfigs c !! key) eqn:E; simpl.
  - apply lookup_delete_eq.
  - exact E.
Qed.

(** When the key is free and the builder files the new configuration under
    it, adding the account and removing it gives the registry back. *)
Lemma AddCloudAccount_RemoveCloudAccount_restores
  (c : Internal.cloudCommon CloudAccountConfig) client account credentials config :
  Internal.accountConfigs c !! accountKey account = None →
  newCloudAccountConfig client (accountKey account) credentials = (Some config, None) →
  GetNamespacedName config = accountKey account →
  ∃ c',
    AddCloudAccount c client account credentials = Done (c', None)
    ∧ Internal.RemoveCloudAccount c' (accountKey account) = c.
Proof.
  intros Hfree Hnew Hname. unfold Internal.AddCloudAccount. simpl.
  rewrite Hfree, Hnew, Hname. eexists. split; [reflexivity|].
  unfold Internal.RemoveCloudAccount, Internal.GetCloudAccountByName. simpl.
  rewrite lookup_insert_eq. simpl.
  rewrite delete_insert_id by exact Hfree. by destruct c.
Qed.

(** C6.  [AddCloudAccount] returns unless the configuration builder yields
    neither a configuration nor an error; after it, [RemoveCloudAccount] on
    the key of the account leaves the registry without an entry for that
    key; and [RemoveCloudAccount] on a key without an entry returns the
    registry as it was. *)
Theorem AddCloudAccount_RemoveCloudAccount
  (c : Internal.cloudCommon CloudAccountConfig) client account credentials :
  (newCloudAccountConfig client (accountKey account) credentials ≠ (None, None) →
   ∃ c' err, AddCloudAccount c client account credentials = Done (c', err))
  ∧ (∀ c' err,
      AddCloudAccount c client account credentials = Done (c', err) →
      Internal.accountConfigs (Internal.RemoveCloudAccount c' (accountKey account))
        !! accountKey account = None)
  ∧ (∀ key,
      Internal.accountConfigs c !! key = None →
      Internal.RemoveCloudAccount c key = c).
Proof.
  split; [|split].
  - intros Hnew. unfold Internal.AddCloudAccount.
    destruct (Internal.accountConfigs c !! accountKey account) as [existing|].
    + destruct (updateCloudAccountConfig client credentials existing) as [updated [e|]];
        eauto.
    + destruct (newCloudAccountConfig client (accountKey account) credentials)
        as [[config|] [e|]]; eauto. by destruct Hnew.
  - intros c' err _. apply RemoveCloudAccount_lookup.
  - intros key Hnone.
    unfold Internal.RemoveCloudAccount, Internal.GetCloudAccountByName.
    by rewrite Hnone.
Qed.

(** C7.  When the registry already holds a configuration under the key of
    the account, [AddCloudAccount] hands it to [updateCloudAccountConfig]
    and returns the error of the update; the registry keeps its keys, and
    the key holds the updated configuration whether or not the update
    failed. *)
Theorem AddCloudAccount_existing_updates
  (c : Internal.cloudCommon CloudAccountConfig) client account credentials
  existing updated err :
  Internal.accountConfigs c !! accountKey account = Some existing →
  updateCloudAccountConfig client credentials existing = (updated, err) →
  ∃ c',
    AddCloudAccount c client account credentials = Done (c', err)
    ∧ Internal.accountConfigs c'
      = <[accountKey account := updated]> (Internal.accountConfigs c)
    ∧ dom (Internal.accountConfigs c') = dom (Internal.accountConfigs c)
    ∧ Internal.accountConfigs c' !! accountKey account = Some updated.
Proof.
  intros Hfound Hupdate.
  unfold Internal.AddCloudAccount. simpl.
  rewrite Hfound, Hupdate.
  assert (dom (<[accountKey account := updated]> (Internal.accountConfigs c))
          = dom (Internal.accountConfigs c)) as Hdom.
  { rewrite dom_insert_L. apply subseteq_union_1_L, singleton_subseteq_l.
    apply elem_of_dom. by exists existing. }
  destruct err as [e|]; eexists; (split; [reflexivity|]); simpl;
    (split; [reflexivity|]); (split; [exact Hdom|]); apply lookup_insert_eq.
Qed.

End Registry.

Lemma AddCloudAccount_RemoveCloudAccount_witness :
  (∃ c' err,
      Internal.AddCloudAccount Fixtures.configName Fixtures.newAccountConfig
        Fixtures.updateAccountConfig (Internal.NewCloudCommon Fixtures.accountConfig)
        Fixtures.noSecretClient Fixtures.cloudProviderAccount01 Fixtures.awsConfig01
      = Done (c', err))
  ∧ Internal.accountConfigs
      (Internal.RemoveCloudAccount Fixtures.registry01 Fixtures.account01)
      !! Fixtures.account01 = None
  ∧ Internal.RemoveCloudAccount (Internal.NewCloudCommon Fixtures.accountConfig)
      Fixtures.account01
    = Internal.NewCloudCommon Fixtures.accountConfig.
Proof.
  split; [|split].
  - apply (proj1 (AddCloudAccount_RemoveCloudAccount _ _ Fixtures.configName
                    Fixtures.newAccountConfig Fixtures.updateAccountConfig
                    (Internal.NewCloudCommon Fixtures.accountConfig)
                    Fixtures.noSecretClient Fixtures.cloudProviderAccount01
                    Fixtures.awsConfig01)).
    discriminate.
  - apply (proj1 (proj2 (AddCloudAccount_RemoveCloudAccount _ _ Fixtures.configName
                           Fixtures.newAccountConfig Fixtures.updateAccountConfig
                           (Internal.NewCloudCommon Fixtures.accountConfig)
                           Fixtures.noSecretClient Fixtures.cloudProviderAccount01
                           Fixtures.awsConfig01))
             Fixtures.registry01 None).
    reflexivity.
  - apply (proj2 (proj2 (AddCloudAccount_RemoveCloudAccount _ _ Fixtures.configName
                           Fixtures.newAccountConfig Fixtures.updateAccountConfig
                           (Internal.NewCloudCommon Fixtures.accountConfig)
                           Fixtures.noSecretClient Fixtures.cloudProviderAccount01
                           Fixtures.awsConfig01))).
    reflexivity.
Defined.

Lemma AddCloudAccount_existing_updates_witness :
  ∃ c',
    Internal.AddCloudAccount Fixtures.configName Fixtures.newAccountConfig
      Fixtures.updateAccountConfig Fixtures.registry01 Fixtures.noSecretClient
      Fixtures.cloudProviderAccount01 Fixtures.awsConfig01
    = Done (c', None)
    ∧ Internal.accountConfigs c'
      = <[Fixtures.account01 :=
            {| Fixtures.configName := Fixtures.account01;
               Fixtures.configUpdates := 1 |}]>
          (Internal.accountConfigs Fixtures.registry01)
    ∧ dom (Internal.accountConfigs c')
      = dom (Internal.accountConfigs Fixtures.registry01)
    ∧ Internal.accountConfigs c' !! Fixtures.account01
      = Some {| Fixtures.configName := Fixtures.account01;
                Fixtures.configUpdates := 1 |}.
Proof.
  apply (AddCloudAccount_existing_updates _ _ Fixtures.configName
           Fixtures.newAccountConfig Fixtures.updateAccountConfig
           Fixtures.registry01 Fixtures.noSecretClient
           Fixtures.cloudProviderAccount01 Fixtures.awsConfig01
           {| Fixtures.configName := Fixtures.account01;
              Fixtures.configUpdates := 0 |}).
  - vm_compute. reflexivity.
  - reflexivity.
Defined.

(** ** Cloud names and rule hashes *)

Lemma String_append_assoc (a b c : string) : (a +:+ b) +:+ c = a +:+ b +:+ c.
Proof.
  induction a as [|x a IH]; [reflexivity|].
  change (String x ((a +:+ b) +:+ c) = String x (a +:+ b +:+ c)).
  by f_equal.
Qed.

(** C8.  With the controller prefix set to [prefix], [GetCloudName] returns
    the prefix, then "-ag-" for a membership-only group and "-at-" for an
    applied-to group, then the lowercased name; the call keeps the prefix. *)
Theorem GetCloudName_format (strings_ToLower : string -> string)
  (prefix : string) (g : CloudResource.Globals) (c : CloudResource.CloudResourceID) :
  (CloudResource.GetCloudName strings_ToLower c true
     (CloudResource.SetCloudResourcePrefix prefix g)).1
  = prefix +:+ "-ag-" +:+ strings_ToLower (CloudResource.Name c)
  ∧ (CloudResource.GetCloudName strings_ToLower c false
       (CloudResource.SetCloudResourcePrefix prefix g)).1
    = prefix +:+ "-at-" +:+ strings_ToLower (CloudResource.Name c)
  ∧ ∀ membershipOnly,
      CloudResource.ControllerPrefix
        (CloudResource.GetCloudName strings_ToLower c membershipOnly
           (CloudResource.SetCloudResourcePrefix prefix g)).2
      = prefix.
Proof.
  split; [|split].
  - unfold CloudResource.GetCloudName. simpl. apply String_append_assoc.
  - unfold CloudResource.GetCloudName. simpl. apply String_append_assoc.
  - by intros [].
Qed.

(** C10.  Two cloud rules with the same [Rule] and the same [AppliedToGrp]
    have the same hash, whatever their [Hash] and [NpNamespacedName]
    fields hold. *)
Theorem GetHash_ignores_Hash_and_NpNamespacedName
  (json_Rule : CloudResource.Rule -> option string)
  (json_string sha1_Sum : string -> string) (c1 c2 : CloudResource.CloudRule) :
  CloudResource.Rule_ c1 = CloudResource.Rule_ c2 →
  CloudResource.AppliedToGrp c1 = CloudResource.AppliedToGrp c2 →
  CloudResource.GetHash json_Rule json_string sha1_Sum c1
  = CloudResource.GetHash json_Rule json_string sha1_Sum c2.
Proof.
  intros Hrule Hgroup.
  unfold CloudResource.GetHash, CloudResource.marshalStruct,
    CloudResource.CloudRule_fields.
  simpl. by rewrite Hrule, Hgroup.
Qed.

Lemma GetHash_ignores_Hash_and_NpNamespacedName_witness :
  CloudResource.Hash Fixtures.ruleOfPolicy
  ≠ CloudResource.Hash Fixtures.ruleWithoutPolicy
  ∧ CloudResource.NpNamespacedName Fixtures.ruleOfPolicy
    ≠ CloudResource.NpNamespacedName Fixtures.ruleWithoutPolicy
  ∧ CloudResource.GetHash Fixtures.json_Rule Fixtures.json_string Fixtures.digest
      Fixtures.ruleOfPolicy
    = CloudResource.GetHash Fixtures.json_Rule Fixtures.json_string Fixtures.digest
        Fixtures.ruleWithoutPolicy.
Proof.
  split; [discriminate|]. split; [discriminate|].
  apply (GetHash_ignores_Hash_and_NpNamespacedName Fixtures.json_Rule
           Fixtures.json_string Fixtures.digest
           Fixtures.ruleOfPolicy Fixtures.ruleWithoutPolicy); reflexivity.
Defined.

(** ** Rule update *)

Lemma GenerateCloudDescription_lacking (r : CloudResource.CloudRule) :
  AzureSecurity.lacksPolicyName r →
  ∃ err,
    AzureSecurity.GenerateCloudDescription (CloudResource.NpNamespacedName r)
    = (EmptyString, Some err).
Proof.
  unfold AzureSecurity.lacksPolicyName, AzureSecurity.GenerateCloudDescription.
  destruct (GoStrings.splitByte _ _) as [|a [|b [|c l]]]; simpl; intros H;
    eauto; by destruct H.
Qed.

Lemma convertRules_rejects (rules : list CloudResource.CloudRule) r :
  r ∈ rules → AzureSecurity.lacksPolicyName r →
  ∃ err, AzureSecurity.convertRules rules = inr err.
Proof.
  intros Hin Hlacks. induction rules as [|r' rules IH].
  - by apply elem_of_nil in Hin.
  - simpl. apply elem_of_cons in Hin as [<-|Hin].
    + unfold AzureSecurity.convertRule.
      destruct (GenerateCloudDescription_lacking r Hlacks) as [err ->]. eauto.
    + destruct (AzureSecurity.convertRule r') as [converted|err]; [|eauto].
      destruct (IH Hin) as [err ->]. eauto.
Qed.

(** C9.  If any rule handed to [UpdateSecurityGroupRules], among the added,
    the removed or the intended rules, lacks a policy namespaced-name, the
    call returns an error and the cloud as it was: nothing is pushed and no
    rule set changes; any later call then behaves as if the rejected call
    had not been made. *)
Theorem UpdateSecurityGroupRules_rejects_rule_without_policy
  (strings_ToLower : string -> string) (ruleStartPriority lowestPriority : Z)
  appliedTo g (addRules removeRules allRules : list CloudResource.CloudRule)
  (cloud : AzureSecurity.Cloud) :
  (∃ r, r ∈ addRules ++ removeRules ++ allRules ∧ AzureSecurity.lacksPolicyName r) →
  (∃ err,
      AzureSecurity.UpdateSecurityGroupRules strings_ToLower ruleStartPriority
        lowestPriority appliedTo g addRules removeRules allRules cloud
      = (cloud, Some err))
  ∧ ∀ appliedTo' g' addRules' removeRules' allRules',
      AzureSecurity.UpdateSecurityGroupRules strings_ToLower ruleStartPriority
        lowestPriority appliedTo' g' addRules' removeRules' allRules'
        (AzureSecurity.UpdateSecurityGroupRules strings_ToLower ruleStartPriority
           lowestPriority appliedTo g addRules removeRules allRules cloud).1
      = AzureSecurity.UpdateSecurityGroupRules strings_ToLower ruleStartPriority
          lowestPriority appliedTo' g' addRules' removeRules' allRules' cloud.
Proof.
  intros (r & Hin & Hlacks).
  assert (∃ err,
             AzureSecurity.UpdateSecurityGroupRules strings_ToLower ruleStartPriority
               lowestPriority appliedTo g addRules removeRules allRules cloud
             = (cloud, Some err)) as [err Hcall].
  { unfold AzureSecurity.UpdateSecurityGroupRules.
    destruct (AzureSecurity.convertRules addRules) as [added|err] eqn:Hadd;
      [|eauto].
    destruct (AzureSecurity.convertRules removeRules) as [removed|err] eqn:Hremove;
      [|eauto].
    destruct (AzureSecurity.convertRules allRules) as [converted|err] eqn:Hall;
      [|eauto].
    apply elem_of_app in Hin as [Hin|Hin];
      [|apply elem_of_app in Hin as [Hin|Hin]];
      destruct (convertRules_rejects _ r Hin Hlacks) as [err Hreject];
      congruence. }
  split; [eauto|]. intros. by rewrite Hcall.
Qed.

Lemma UpdateSecurityGroupRules_rejects_rule_without_policy_witness :
  ∃ err,
    AzureSecurity.UpdateSecurityGroupRules GoStrings.asciiToLower 100 4096
      Fixtures.appliedTo01
      (CloudResource.SetCloudResourcePrefix "nephe" Fixtures.globals0)
      [Fixtures.ruleWithoutPolicy; Fixtures.egressWithoutPolicy] [] []
      Fixtures.securityCloud01
    = (Fixtures.securityCloud01, Some err).
Proof.
  apply (UpdateSecurityGroupRules_rejects_rule_without_policy
           GoStrings.asciiToLower 100 4096 Fixtures.appliedTo01
           (CloudResource.SetCloudResourcePrefix "nephe" Fixtures.globals0)
           [Fixtures.ruleWithoutPolicy; Fixtures.egressWithoutPolicy] [] []
           Fixtures.securityCloud01).
  exists Fixtures.egressWithoutPolicy. split.
  - apply elem_of_cons. right. apply elem_of_cons. left. reflexivity.
  - vm_compute. lia.
Defined.

(** The rejection does not depend on where the rule stands: a rule without a
    policy name among the removed rules, or among the intended ones behind a
    rule that names its policy, stops the call as well. *)
Example UpdateSecurityGroupRules_rejects_anywhere :
  AzureSecurity.UpdateSecurityGroupRules GoStrings.asciiToLower 100 4096
    Fixtures.appliedTo01
    (CloudResource.SetCloudResourcePrefix "nephe" Fixtures.globals0)
    [Fixtures.ruleOfPolicy] [Fixtures.ruleWithoutPolicy] [Fixtures.ruleOfPolicy]
    Fixtures.securityCloud01
  = (Fixtures.securityCloud01, Some "no policy name in rule description: ")
  ∧ AzureSecurity.UpdateSecurityGroupRules GoStrings.asciiToLower 100 4096
      Fixtures.appliedTo01
      (CloudResource.SetCloudResourcePrefix "nephe" Fixtures.globals0)
      [] [] [Fixtures.ruleOfPolicy; Fixtures.ruleWithoutPolicy]
      Fixtures.securityCloud01
    = (Fixtures.securityCloud01, Some "no policy name in rule description: ").
Proof. split; reflexivity. Qed.

(** A rule set whose rules all name their policy is pushed once: the rule of
    somebody else passes through, the policy rule gets the first priority
    and its description, and the two deny-all rules close the set. *)
Example UpdateSecurityGroupRules_pushes_named_rule :
  AzureSecurity.UpdateSecurityGroupRules GoStrings.asciiToLower 100 4096
    Fixtures.appliedTo01
    (CloudResource.SetCloudResourcePrefix "nephe" Fixtures.globals0)
    [Fixtures.ruleOfPolicy] [] [Fixtures.ruleOfPolicy; Fixtures.ruleOfPolicy]
    Fixtures.securityCloud01
  = (let rules :=
       [ Fixtures.foreignRule;
         {| AzureSecurity.srDirection := AzureSecurity.Inbound;
            AzureSecurity.srProtocol := Some 6; AzureSecurity.srPort := Some 22;
            AzureSecurity.srAddressPrefixes :=
              Some [Some {| CloudResource.IP := GoStrings.bytes [192; 168; 1; 0]%nat;
                            CloudResource.Mask :=
                              GoStrings.bytes [255; 255; 255; 0]%nat |}];
            AzureSecurity.srSecurityGroups := None;
            AzureSecurity.srPriority := 100;
            AzureSecurity.srAccess := AzureSecurity.Allow;
            AzureSecurity.srDescription := "Name:test-anp, Ns:test-anp-ns" |};
         AzureSecurity.denyAll 4096 AzureSecurity.Inbound;
         AzureSecurity.denyAll 4096 AzureSecurity.Outbound ] in
     ({| AzureSecurity.securityRules :=
           <["nephe-at-atapplicationsgid" := rules]>
             (AzureSecurity.securityRules Fixtures.securityCloud01);
         AzureSecurity.pushed := [("nephe-at-atapplicationsgid", rules)] |},
      None)).
Proof. reflexivity. Qed.

Example GetCloudName_web :
  (CloudResource.GetCloudName GoStrings.asciiToLower
     {| CloudResource.Name := "Web"; CloudResource.Vpc := "testVnetID01" |} true
     (CloudResource.SetCloudResourcePrefix "nephe" Fixtures.globals0)).1
  = "nephe-ag-web".
Proof. reflexivity. Qed.

(** * Further properties of the code *)

#[local] Set Warnings "-clear-no-such-hyp".

(** ** Account identifiers *)

Lemma splitByte_without_separator (sep : ascii) (s : string) :
  GoStrings.containsByte sep s = false → GoStrings.splitByte sep s = [s].
Proof.
  induction s as [|x s IH]; simpl; [reflexivity|].
  destruct (decide (x = sep)); [intros H; discriminate H|].
  intros H. by rewrite (IH H).
Qed.

Lemma splitByte_at_separator (sep : ascii) (a b : string) :
  GoStrings.containsByte sep a = false →
  GoStrings.splitByte sep (a +:+ String sep b) = a :: GoStrings.splitByte sep b.
Proof.
  induction a as [|x a IH]; simpl.
  - intros _. by rewrite decide_True.
  - destruct (decide (x = sep)); [intros H; discriminate H|].
    intros H. by rewrite (IH H).
Qed.

Lemma splitByte_length (sep : ascii) (s : string) :
  (1 ≤ length (GoStrings.splitByte sep s))%nat.
Proof.
  induction s as [|x s IH]; simpl; [lia|].
  destruct (decide (x = sep)); simpl; [lia|].
  destruct (GoStrings.splitByte sep s); simpl; lia.
Qed.

Section RegistryAccounts.

Variable Credentials : Type.
Variable CloudAccountConfig : Type.
Variable GetNamespacedName : CloudAccountConfig -> Types.NamespacedName.
Variable newCloudAccountConfig :
  K8s.Client -> Types.NamespacedName -> Credentials
  -> option CloudAccountConfig * option error.
Variable updateCloudAccountConfig :
  K8s.Client -> Credentials -> CloudAccountConfig
  -> CloudAccountConfig * option error.

Local Abbreviation AddCloudAccount :=
  (Internal.AddCloudAccount GetNamespacedName newCloudAccountConfig
     updateCloudAccountConfig).

Implicit Types c : Internal.cloudCommon CloudAccountConfig.

(** X1.  An account identifier is the namespaced name written with "/":
    for a namespace and a name without "/", looking an account up by the
    identifier is looking it up by the name, and nothing is logged; an
    identifier that does not split into two parts at "/" finds nothing and
    leaves one line in the log. *)
Theorem GetCloudAccountByAccountId_round_trip c :
  (∀ namespacedName,
      GoStrings.containsByte "/" (Types.Namespace namespacedName) = false →
      GoStrings.containsByte "/" (Types.Name namespacedName) = false →
      Internal.GetCloudAccountByAccountId c (Types.String_ namespacedName)
      = (Internal.GetCloudAccountByName c namespacedName, c))
  ∧ (∀ accountID,
      length (GoStrings.splitByte "/" accountID) ≠ 2%nat →
      (Internal.GetCloudAccountByAccountId c accountID).1 = (None, false)
      ∧ Internal.accountConfigs (Internal.GetCloudAccountByAccountId c accountID).2
        = Internal.accountConfigs c
      ∧ length (Internal.logged (Internal.GetCloudAccountByAccountId c accountID).2)
        = S (length (Internal.logged c))).
Proof.
  split.
  - intros [namespace name] Hnamespace Hname. simpl in *.
    unfold Internal.GetCloudAccountByAccountId, Types.String_. simpl.
    change ("/" +:+ name) with (String "/" name).
    rewrite (splitByte_at_separator _ _ _ Hnamespace),
      (splitByte_without_separator _ _ Hname).
    reflexivity.
  - intros accountID Hparts. unfold Internal.GetCloudAccountByAccountId.
    destruct (GoStrings.splitByte "/" accountID) as [|a [|b [|x l]]];
      simpl in *; try done; rewrite length_app; simpl; repeat split; lia.
Qed.

Lemma withAccount_dom c key accCfg accCfg' :
  Internal.accountConfigs c !! key = Some accCfg →
  dom (Internal.accountConfigs (Internal.withAccount c key accCfg'))
  = dom (Internal.accountConfigs c).
Proof.
  intros Hfound. simpl. rewrite dom_insert_L.
  apply subseteq_union_1_L, singleton_subseteq_l, elem_of_dom. by exists accCfg.
Qed.

(** X2.  Every configuration of the registry is filed under its own name:
    the empty registry is so, and when [updateCloudAccountConfig] keeps the
    name of a configuration, [AddCloudAccount] and [RemoveCloudAccount] keep
    the registry so. *)
Theorem registry_filedByName c client account credentials :
  (∀ client credentials accCfg,
      GetNamespacedName (updateCloudAccountConfig client credentials accCfg).1
      = GetNamespacedName accCfg) →
  Internal.filedByName GetNamespacedName c →
  Internal.filedByName GetNamespacedName (Internal.NewCloudCommon CloudAccountConfig)
  ∧ (∀ c' err,
        AddCloudAccount c client account credentials = Done (c', err) →
        Internal.filedByName GetNamespacedName c')
  ∧ (∀ key,
        Internal.filedByName GetNamespacedName (Internal.RemoveCloudAccount c key)).
Proof.
  intros Hupdate Hfiled. split; [|split].
  - intros key accCfg H. simpl in H. by rewrite lookup_empty in H.
  - intros c' err. unfold Internal.AddCloudAccount.
    set (key := Internal.namespacedNameOf account).
    destruct (Internal.accountConfigs c !! key) as [existing|] eqn:Hfound.
    + pose proof (Hupdate client credentials existing) as Hname.
      destruct (updateCloudAccountConfig client credentials existing)
        as [updated e]. simpl in Hname.
      assert (∀ k accCfg,
                 <[key := updated]> (Internal.accountConfigs c) !! k = Some accCfg →
                 GetNamespacedName accCfg = k) as Hinsert.
      { intros k accCfg. rewrite lookup_insert. case_decide as Hk.
        - intros [= <-]. rewrite Hname, <- Hk. by apply Hfiled.
        - apply Hfiled. }
      destruct e; intros [= <- _]; exact Hinsert.
    + destruct (newCloudAccountConfig client key credentials) as [[config|] [e|]];
        intros [= <- _]; try exact Hfiled.
      intros k accCfg. simpl. rewrite lookup_insert. case_decide as Hk.
      * by intros [= <-].
      * apply Hfiled.
  - intros key k accCfg.
    unfold Internal.RemoveCloudAccount, Internal.GetCloudAccountByName.
    destruct (Internal.accountConfigs c !! key); simpl; [|apply Hfiled].
    rewrite lookup_delete. case_decide; [intros Hnone; discriminate Hnone|apply Hfiled].
Qed.

(** X3.  [AddCloudAccount] never drops an account and adds at most one; a
    call that returns an error leaves the set of registered keys as it
    was. *)
Theorem AddCloudAccount_keeps_accounts c client account credentials c' err :
  AddCloudAccount c client account credentials = Done (c', err) →
  dom (Internal.accountConfigs c) ⊆ dom (Internal.accountConfigs c')
  ∧ (size (Internal.accountConfigs c') ≤ S (size (Internal.accountConfigs c)))%nat
  ∧ (err ≠ None →
     dom (Internal.accountConfigs c') = dom (Internal.accountConfigs c)).
Proof.
  unfold Internal.AddCloudAccount.
  set (key := Internal.namespacedNameOf account).
  destruct (Internal.accountConfigs c !! key) as [existing|] eqn:Hfound.
  - destruct (updateCloudAccountConfig client credentials existing) as [updated e].
    assert (dom (<[key := updated]> (Internal.accountConfigs c))
            = dom (Internal.accountConfigs c)) as Hdom
      by exact (withAccount_dom c key existing updated Hfound).
    assert (size (<[key := updated]> (Internal.accountConfigs c))
            = size (Internal.accountConfigs c)) as Hsize
      by (rewrite <- !size_dom, Hdom; reflexivity).
    destruct e; intros [= <- <-]; simpl; rewrite Hdom, Hsize;
      (split; [done|split; [lia|done]]).
  - destruct (newCloudAccountConfig client key credentials) as [[config|] [e|]];
      intros [= <- <-]; simpl; try (split; [done|split; [lia|done]]).
    split; [|split].
    + rewrite dom_insert_L. set_solver.
    + destruct (Internal.accountConfigs c !! GetNamespacedName config) eqn:Hother.
      * pose proof (withAccount_dom c _ _ config Hother) as Hd. simpl in Hd.
        rewrite <- !size_dom, Hd. lia.
      * rewrite map_size_insert_None by exact Hother. lia.
    + intros H. by destruct H.
Qed.

End RegistryAccounts.

Section RegistryOperations.

Variable CloudAccountConfig : Type.
Variable CloudEntitySelector : Type.
Variable CloudProviderAccountStatus : Type.
Variable CloudInventory : Type.
Variable performInventorySync : CloudAccountConfig -> CloudAccountConfig * option error.
Variable resetInventoryCache : CloudAccountConfig -> CloudAccountConfig.
Variable accountGetStatus : CloudAccountConfig -> CloudProviderAccountStatus.
Variable serviceAddResourceFilters :
  CloudAccountConfig -> CloudEntitySelector -> CloudAccountConfig * option error.
Variable serviceRemoveResourceFilters :
  CloudAccountConfig -> Types.NamespacedName -> CloudAccountConfig.
Variable serviceGetCloudInventory : CloudAccountConfig -> CloudInventory.

Local Abbreviation AddResourceFilters :=
  (Internal.AddResourceFilters serviceAddResourceFilters).
Local Abbreviation RemoveResourceFilters :=
  (Internal.RemoveResourceFilters serviceRemoveResourceFilters).
Local Abbreviation GetStatus := (Internal.GetStatus accountGetStatus).
Local Abbreviation DoInventoryPoll := (Internal.DoInventoryPoll performInventorySync).
Local Abbreviation ResetInventoryCache :=
  (Internal.ResetInventoryCache resetInventoryCache).
Local Abbreviation GetCloudInventory :=
  (Internal.GetCloudInventory serviceGetCloudInventory).

Implicit Types c : Internal.cloudCommon CloudAccountConfig.

(** X4.  Once [RemoveCloudAccount] has run for a key, every operation on
    that account reports that the account is not found and leaves the
    accounts of the registry as they are. *)
Theorem operations_after_RemoveCloudAccount c key selector selectorNamespacedName :
  let c' := Internal.RemoveCloudAccount c key in
  DoInventoryPoll c' key
  = (c', Some ("unable to find cloud account config: " +:+ Types.String_ key))
  ∧ ResetInventoryCache c' key
    = (c', Some ("unable to find cloud account config " +:+ Types.String_ key))
  ∧ GetStatus c' key
    = (None, Some ("unable to find cloud account config: " +:+ Types.String_ key))
  ∧ AddResourceFilters c' key selector
    = (c', Some "unable to find cloud account config")
  ∧ GetCloudInventory c' key = (None, Some "unable to find cloud account config")
  ∧ Internal.accountConfigs (RemoveResourceFilters c' key selectorNamespacedName)
    = Internal.accountConfigs c'
  ∧ Internal.GetCloudAccountByName c' key = (None, false).
Proof.
  intros c'. pose proof (RemoveCloudAccount_lookup _ c key) as Hgone.
  fold c' in Hgone.
  unfold Internal.DoInventoryPoll, Internal.ResetInventoryCache, Internal.GetStatus,
    Internal.AddResourceFilters, Internal.GetCloudInventory,
    Internal.RemoveResourceFilters, Internal.GetCloudAccountByName.
  rewrite Hgone. repeat split.
Qed.

(** X5.  The operations on one account ([AddResourceFilters],
    [RemoveResourceFilters], [DoInventoryPoll], [ResetInventoryCache])
    register and remove no account and leave every other account as it
    was. *)
Theorem account_operations_frame c key selector selectorNamespacedName :
  let sameAccounts (c' : Internal.cloudCommon CloudAccountConfig) :=
    dom (Internal.accountConfigs c') = dom (Internal.accountConfigs c)
    ∧ ∀ other, other ≠ key →
        Internal.accountConfigs c' !! other = Internal.accountConfigs c !! other in
  sameAccounts (AddResourceFilters c key selector).1
  ∧ sameAccounts (RemoveResourceFilters c key selectorNamespacedName)
  ∧ sameAccounts (DoInventoryPoll c key).1
  ∧ sameAccounts (ResetInventoryCache c key).1.
Proof.
  intros sameAccounts.
  assert (∀ accCfg accCfg',
             Internal.accountConfigs c !! key = Some accCfg →
             sameAccounts (Internal.withAccount c key accCfg')) as Hwith.
  { intros accCfg accCfg' Hfound. split; [by eapply withAccount_dom|].
    intros other Hother. simpl. by rewrite lookup_insert_ne. }
  assert (sameAccounts c) as Hsame by done.
  unfold Internal.AddResourceFilters, Internal.RemoveResourceFilters,
    Internal.DoInventoryPoll, Internal.ResetInventoryCache,
    Internal.GetCloudAccountByName.
  destruct (Internal.accountConfigs c !! key) as [accCfg|] eqn:Hfound.
  - destruct (serviceAddResourceFilters accCfg selector) as [a1 e1].
    destruct (performInventorySync accCfg) as [a2 e2].
    split_and!; by eapply Hwith.
  - split_and!; exact Hsame.
Qed.

End RegistryOperations.

Lemma GetCloudAccountByAccountId_round_trip_witness :
  Internal.GetCloudAccountByAccountId Fixtures.registry01
    (Types.String_ Fixtures.account01)
  = (Internal.GetCloudAccountByName Fixtures.registry01 Fixtures.account01,
     Fixtures.registry01)
  ∧ (Internal.GetCloudAccountByAccountId Fixtures.registry01 "account01").1
    = (None, false).
Proof.
  split.
  - apply (proj1 (GetCloudAccountByAccountId_round_trip _ Fixtures.registry01)
             Fixtures.account01); reflexivity.
  - apply (proj2 (GetCloudAccountByAccountId_round_trip _ Fixtures.registry01)
             "account01").
    vm_compute. lia.
Defined.

Lemma registry_filedByName_witness :
  Internal.filedByName Fixtures.configName
    (Internal.RemoveCloudAccount Fixtures.registry01 Fixtures.account02).
Proof.
  apply (registry_filedByName _ _ Fixtures.configName Fixtures.newAccountConfig
           Fixtures.updateAccountConfig Fixtures.registry01 Fixtures.noSecretClient
           Fixtures.cloudProviderAccount01 Fixtures.awsConfig01).
  - reflexivity.
  - intros key accCfg. unfold Fixtures.registry01. simpl.
    rewrite lookup_singleton. case_decide as Hkey; [|intros H; discriminate H].
    intros [= <-]. exact Hkey.
Defined.

Lemma AddCloudAccount_keeps_accounts_witness :
  dom (Internal.accountConfigs (Internal.NewCloudCommon Fixtures.accountConfig))
  ⊆ dom (Internal.accountConfigs Fixtures.registry01)
  ∧ (size (Internal.accountConfigs Fixtures.registry01)
     ≤ S (size (Internal.accountConfigs
                  (Internal.NewCloudCommon Fixtures.accountConfig))))%nat
  ∧ (@None error ≠ None →
     dom (Internal.accountConfigs Fixtures.registry01)
     = dom (Internal.accountConfigs (Internal.NewCloudCommon Fixtures.accountConfig))).
Proof.
  apply (AddCloudAccount_keeps_accounts _ _ Fixtures.configName
           Fixtures.newAccountConfig Fixtures.updateAccountConfig
           (Internal.NewCloudCommon Fixtures.accountConfig) Fixtures.noSecretClient
           Fixtures.cloudProviderAccount01 Fixtures.awsConfig01).
  reflexivity.
Defined.

(** ** Account management, continued *)

Lemma aws_compareField_decide accountName message a b acc :
  Aws.compareField accountName message a b acc
  = if decide (a = b) then acc
    else (true, acc.2 ++ [{| logMessage := message; logAccount := accountName |}]).
Proof.
  unfold Aws.compareField. rewrite Compare_differs.
  destruct (String.eqb_spec a b); case_decide; done.
Qed.

Lemma azure_compareField_decide accountName message a b acc :
  Azure.compareField accountName message a b acc
  = if decide (a = b) then acc
    else (true, acc.2 ++ [{| logMessage := message; logAccount := accountName |}]).
Proof.
  unfold Azure.compareField. rewrite Compare_differs.
  destruct (String.eqb_spec a b); case_decide; done.
Qed.

(** X6.  The comparator of each plugin logs one line for every field that
    differs, in the order of the fields, and no other line; it reports a
    change exactly when it has logged something. *)
Theorem compareAccountCredentials_log :
  (∀ accountName existing new,
      (Aws.compareAccountCredentials accountName existing new).2
      = map (λ message, {| logMessage := message; logAccount := accountName |})
          (changedFields Aws.messages (Aws.fields existing) (Aws.fields new))
      ∧ ((Aws.compareAccountCredentials accountName existing new).1 = false
         ↔ (Aws.compareAccountCredentials accountName existing new).2 = []))
  ∧ (∀ accountName existing new,
      (Azure.compareAccountCredentials accountName existing new).2
      = map (λ message, {| logMessage := message; logAccount := accountName |})
          (changedFields Azure.messages (Azure.fields existing) (Azure.fields new))
      ∧ ((Azure.compareAccountCredentials accountName existing new).1 = false
         ↔ (Azure.compareAccountCredentials accountName existing new).2 = [])).
Proof.
  split; intros accountName existing new.
  - unfold Aws.compareAccountCredentials, Aws.fields, Aws.messages.
    rewrite !aws_compareField_decide. simpl.
    repeat case_decide; simpl; split; try reflexivity; split; intros Hlog;
      first [reflexivity | discriminate Hlog].
  - unfold Azure.compareAccountCredentials, Azure.fields, Azure.messages.
    rewrite !azure_compareField_decide. simpl.
    repeat case_decide; simpl; split; try reflexivity; split; intros Hlog;
      first [reflexivity | discriminate Hlog].
Qed.

(** X7.  Blanks around the region (and, for AWS, the endpoint) of the account
    resource are no credential change: two configurations that
    [setAccountCredentials] builds from the same secret and from regions
    that are equal after trimming compare as unchanged, with nothing
    logged. *)
Theorem setAccountCredentials_region_blanks :
  (∀ base64 json client p1 p2 c1 c2 e1 e2 accountName,
      Aws.setAccountCredentials base64 json client p1 = Done (Some c1, e1) →
      Aws.setAccountCredentials base64 json client p2 = Done (Some c2, e2) →
      Crd.awsSecretRef p1 = Crd.awsSecretRef p2 →
      GoStrings.TrimSpace (Crd.awsRegion p1) = GoStrings.TrimSpace (Crd.awsRegion p2) →
      GoStrings.TrimSpace (Crd.awsEndpoint p1)
      = GoStrings.TrimSpace (Crd.awsEndpoint p2) →
      Aws.compareAccountCredentials accountName c1 c2 = (false, []))
  ∧ (∀ base64 json errorMsg client p1 p2 c1 c2 e1 e2 accountName,
      Azure.setAccountCredentials base64 json errorMsg client p1 = Done (c1, e1) →
      Azure.setAccountCredentials base64 json errorMsg client p2 = Done (c2, e2) →
      Crd.azureSecretRef p1 = Crd.azureSecretRef p2 →
      GoStrings.TrimSpace <$> head (Crd.azureRegion p1)
      = GoStrings.TrimSpace <$> head (Crd.azureRegion p2) →
      Azure.compareAccountCredentials accountName c1 c2 = (false, [])).
Proof.
  split.
  - intros base64 json client p1 p2 c1 c2 e1 e2 accountName H1 H2 Hsecret
      Hregion Hendpoint.
    unfold Aws.setAccountCredentials in H1, H2. rewrite <- Hsecret in H2.
    destruct (Aws.extractSecret base64 json client (Crd.awsSecretRef p1))
      as [[[cred|] [err|]]|reason]; try discriminate H1.
    injection H1 as <- _. injection H2 as <- _.
    unfold Aws.compareAccountCredentials. rewrite !aws_compareField_decide. simpl.
    rewrite Hregion, Hendpoint. by rewrite !decide_True.
  - intros base64 json errorMsg client p1 p2 c1 c2 e1 e2 accountName H1 H2 Hsecret
      Hregion.
    unfold Azure.setAccountCredentials in H1, H2. rewrite <- Hsecret in H2.
    destruct (Crd.azureRegion p1) as [|r1 rs1]; [discriminate H1|].
    destruct (Crd.azureRegion p2) as [|r2 rs2]; [discriminate H2|].
    simpl in Hregion. injection Hregion as Hregion.
    destruct (Azure.extractSecret base64 json errorMsg client (Crd.azureSecretRef p1))
      as [cred err].
    injection H1 as <- _. injection H2 as <- _.
    unfold Azure.compareAccountCredentials. rewrite !azure_compareField_decide.
    simpl. rewrite Hregion. by rewrite !decide_True.
Qed.

Lemma setAccountCredentials_region_blanks_witness :
  Aws.compareAccountCredentials "account01"
    {| Aws.credential := Crd.zeroAws; Aws.region := "us-east-1";
       Aws.endpoint := EmptyString |}
    {| Aws.credential := Crd.zeroAws;
       Aws.region := GoStrings.TrimSpace " us-east-1 ";
       Aws.endpoint := EmptyString |}
  = (false, [])
  ∧ Azure.compareAccountCredentials "account01"
      {| Azure.credential :=
           {| Crd.SubscriptionID := "default"; Crd.ClientID := "default";
              Crd.TenantID := "default"; Crd.ClientKey := "default" |};
         Azure.region := "eastus" |}
      {| Azure.credential :=
           {| Crd.SubscriptionID := "default"; Crd.ClientID := "default";
              Crd.TenantID := "default"; Crd.ClientKey := "default" |};
         Azure.region := GoStrings.TrimSpace " eastus" |}
    = (false, []).
Proof.
  split.
  - apply (proj1 setAccountCredentials_region_blanks
             Fixtures.base64_DecodeString Fixtures.json_Unmarshal
             Fixtures.emptyObjectClient Fixtures.awsConfig01 Fixtures.awsConfigPadded
             _ _ None None "account01"); reflexivity.
  - apply (proj2 setAccountCredentials_region_blanks
             Fixtures.base64_DecodeString Fixtures.json_Unmarshal
             Fixtures.ErrorMsgSecretReference Fixtures.noSecretClient
             Fixtures.azureConfig01 Fixtures.azureConfigPadded
             _ _
             (Some "error in Secret reference, failed to get Secret object: namespace01/secret01")
             (Some "error in Secret reference, failed to get Secret object: namespace01/secret01")
             "account01"); reflexivity.
Defined.

(** X8.  When the secret's data has no string under the referenced key, the
    AWS [extractSecret] panics (its type assertion is unchecked), where the
    Azure [extractSecret] returns the empty credential and an error that
    names the key. *)
Theorem extractSecret_missing_key :
  ∀ base64 jsonAws jsonAzure errorMsg client s object data,
    K8s.Get client (Crd.Namespace s) (Crd.Name s) = Some object →
    object !! "data" = Some (K8s.AnyMap data) →
    (∀ text, data !! Crd.Key s ≠ Some (K8s.DataString text)) →
    (∃ reason, Aws.extractSecret base64 jsonAws client s = Panic reason)
    ∧ Azure.extractSecret base64 jsonAzure errorMsg client s
      = (Crd.zeroAzure,
         Some (errorMsg +:+ ", failed to get Secret key: " +:+ Crd.Namespace s
               +:+ "/" +:+ Crd.Name s +:+ ", key: " +:+ Crd.Key s)).
Proof.
  intros base64 jsonAws jsonAzure errorMsg client s object data Hget Hdata Hkey.
  unfold Aws.extractSecret, Azure.extractSecret, Azure.secretError.
  rewrite Hget, Hdata.
  destruct (data !! Crd.Key s) as [[text|]|] eqn:Hlookup.
  - by destruct (Hkey text).
  - split; [eauto|]. by rewrite !String_append_assoc.
  - split; [eauto|]. by rewrite !String_append_assoc.
Qed.

Lemma extractSecret_missing_key_witness :
  (∃ reason,
      Aws.extractSecret Fixtures.base64_DecodeString Fixtures.json_Unmarshal
        Fixtures.otherKeyClient Fixtures.secretRef01 = Panic reason)
  ∧ Azure.extractSecret Fixtures.base64_DecodeString Fixtures.json_Unmarshal
      Fixtures.ErrorMsgSecretReference Fixtures.otherKeyClient Fixtures.secretRef01
    = (Crd.zeroAzure,
       Some "error in Secret reference, failed to get Secret key: namespace01/secret01, key: credentials").
Proof.
  apply (extractSecret_missing_key Fixtures.base64_DecodeString
           Fixtures.json_Unmarshal Fixtures.json_Unmarshal
           Fixtures.ErrorMsgSecretReference Fixtures.otherKeyClient
           Fixtures.secretRef01
           {[ "data" := K8s.AnyMap {[ "password" := K8s.DataString "e30=" ]} ]}
           {[ "password" := K8s.DataString "e30=" ]}).
  - reflexivity.
  - reflexivity.
  - intros text H. vm_compute in H. discriminate H.
Defined.

(** X9.  On an account resource, the Azure [setAccountCredentials] panics
    exactly when the region list is empty or the pointer to the secret
    reference is nil.  Whenever it returns, none of the four credential
    fields of the configuration is empty (they are those of the secret, or
    the sentinel), the region is the trimmed first region, and the error is
    the one of [extractSecret]. *)
Theorem azure_setAccountCredentials_total_nonempty :
  ∀ base64 json errorMsg client regions secretRef,
    let run :=
      Azure.setAccountCredentialsOfResource base64 json errorMsg client
        regions secretRef in
    ((∃ reason, run = Panic reason) ↔ regions = [] ∨ secretRef = None)
    ∧ ∀ accountConfig err,
        run = Done (accountConfig, err) →
        Crd.SubscriptionID (Azure.credential accountConfig) ≠ EmptyString
        ∧ Crd.TenantID (Azure.credential accountConfig) ≠ EmptyString
        ∧ Crd.ClientID (Azure.credential accountConfig) ≠ EmptyString
        ∧ Crd.ClientKey (Azure.credential accountConfig) ≠ EmptyString
        ∧ Some (Azure.region accountConfig) = GoStrings.TrimSpace <$> head regions
        ∧ ∃ s, secretRef = Some s
               ∧ err = (Azure.extractSecret base64 json errorMsg client s).2.
Proof.
  intros base64 json errorMsg client regions secretRef run. subst run.
  unfold Azure.setAccountCredentialsOfResource, Azure.setAccountCredentials.
  destruct regions as [|region0 regions]; simpl.
  { split; [split; eauto|]. intros ? ? H. discriminate H. }
  destruct secretRef as [s|]; simpl.
  - destruct (Azure.extractSecret base64 json errorMsg client s)
      as [cred e] eqn:Hsecret.
    split.
    + split; [intros [reason H]; discriminate H|].
      intros [H|H]; discriminate H.
    + intros accountConfig err [= <- <-]. simpl. destruct e as [e|].
      * split_and!; try discriminate; [done|].
        exists s. split; [done|by rewrite Hsecret].
      * destruct (azure_extractSecret_nil_error _ _ _ _ _ _ Hsecret)
          as (? & ? & ? & ?).
        split_and!; [done..|]. exists s. split; [done|by rewrite Hsecret].
  - split; [split; eauto|]. intros ? ? H. discriminate H.
Qed.

Lemma azure_setAccountCredentials_total_nonempty_witness :
  Crd.SubscriptionID
    (Azure.credential
       {| Azure.credential :=
            {| Crd.SubscriptionID := "default"; Crd.ClientID := "default";
               Crd.TenantID := "default"; Crd.ClientKey := "default" |};
          Azure.region := "eastus" |}) ≠ EmptyString
  ∧ ∃ reason,
      Azure.setAccountCredentialsOfResource Fixtures.base64_DecodeString
        Fixtures.json_Unmarshal Fixtures.ErrorMsgSecretReference
        Fixtures.noSecretClient [" eastus"] None
      = Panic reason.
Proof.
  split.
  - apply (proj2 (azure_setAccountCredentials_total_nonempty
                    Fixtures.base64_DecodeString Fixtures.json_Unmarshal
                    Fixtures.ErrorMsgSecretReference Fixtures.noSecretClient
                    ["eastus"] (Some Fixtures.secretRef01))
             _ (Some "error in Secret reference, failed to get Secret object: namespace01/secret01")).
    reflexivity.
  - apply (proj1 (azure_setAccountCredentials_total_nonempty
                    Fixtures.base64_DecodeString Fixtures.json_Unmarshal
                    Fixtures.ErrorMsgSecretReference Fixtures.noSecretClient
                    [" eastus"] None)).
    by right.
Defined.

(** X10.  The AWS [extractSecret] and [setAccountCredentials] return a value
    exactly when they return no error, never both and never neither; and
    [setAccountCredentials] panics only when [extractSecret] does. *)
Theorem aws_credentials_or_error :
  ∀ base64 json client config,
    (∀ cred err,
        Aws.extractSecret base64 json client (Crd.awsSecretRef config)
        = Done (cred, err) →
        (is_Some cred ↔ err = None))
    ∧ (∀ accountConfig err,
        Aws.setAccountCredentials base64 json client config
        = Done (accountConfig, err) →
        (is_Some accountConfig ↔ err = None))
    ∧ ((∃ reason, Aws.setAccountCredentials base64 json client config = Panic reason)
       ↔ (∃ reason,
             Aws.extractSecret base64 json client (Crd.awsSecretRef config)
             = Panic reason)).
Proof.
  intros base64 json client config.
  assert (∀ cred err,
             Aws.extractSecret base64 json client (Crd.awsSecretRef config)
             = Done (cred, err) →
             (is_Some cred ↔ err = None)) as Hsecret.
  { intros cred err. unfold Aws.extractSecret.
    destruct (K8s.Get client _ _) as [object|];
      [|intros [= <- <-]; split; [intros [? H]|intros H]; discriminate H].
    destruct (object !! "data") as [[ | data | ]|];
      try (intros [= <- <-]; split; [intros [? H]|intros H]; discriminate H).
    destruct (data !! _) as [[text|]|]; try (intros H; discriminate H).
    destruct (base64 text) as [decode|];
      [|intros [= <- <-]; split; [intros [? H]|intros H]; discriminate H].
    destruct (json decode Crd.zeroAws) as [cred' [e|]]; intros [= <- <-].
    - split; [intros [? H]|intros H]; discriminate H.
    - split; eauto. }
  split; [exact Hsecret|]. unfold Aws.setAccountCredentials.
  destruct (Aws.extractSecret base64 json client (Crd.awsSecretRef config))
    as [[cred err]|reason] eqn:Hextract.
  - specialize (Hsecret cred err eq_refl).
    destruct cred as [cred|], err as [err|].
    + destruct Hsecret as [Hsecret _]. by specialize (Hsecret (mk_is_Some _ _ eq_refl)).
    + split.
      * intros accountConfig err [= <- <-]. split; eauto.
      * split; intros [reason H]; discriminate H.
    + split.
      * intros accountConfig e [= <- <-].
        split; [intros [? H]|intros H]; discriminate H.
      * split; intros [reason H]; discriminate H.
    + destruct Hsecret as [_ Hsecret]. destruct (Hsecret eq_refl) as [? H].
      discriminate H.
  - split; [intros ? ? H; discriminate H|]. split; eauto.
Qed.

Lemma aws_credentials_or_error_witness :
  is_Some (Some Crd.zeroAws) ↔ @None error = None.
Proof.
  apply (proj1 (aws_credentials_or_error Fixtures.base64_DecodeString
                  Fixtures.json_Unmarshal Fixtures.emptyObjectClient
                  Fixtures.awsConfig01)).
  reflexivity.
Defined.

(** ** Cloud names and descriptions, continued *)

Lemma String_prefix_append (p s : string) : String.prefix p (p +:+ s) = true.
Proof.
  induction p as [|x p IH]; simpl; [by destruct s|].
  destruct (ascii_dec x x); [exact IH|done].
Qed.

Lemma String_append_cancel (p a b : string) : p +:+ a = p +:+ b → a = b.
Proof.
  induction p as [|x p IH]; simpl; [done|]. intros [= H]. by apply IH.
Qed.

(** X11.  Every cloud name begins with the controller prefix in force, and
    the names of a membership-only group and of an applied-to group never
    coincide, whatever the two resources are; a prefix set after names were
    derived is the one the next name uses. *)
Theorem GetCloudName_prefix_and_roles (strings_ToLower : string -> string)
  (g : CloudResource.Globals) (c1 c2 : CloudResource.CloudResourceID) :
  (∀ membershipOnly,
      String.prefix (CloudResource.ControllerPrefix g)
        (CloudResource.GetCloudName strings_ToLower c1 membershipOnly g).1 = true)
  ∧ (CloudResource.GetCloudName strings_ToLower c1 true g).1
    ≠ (CloudResource.GetCloudName strings_ToLower c2 false g).1
  ∧ (∀ membershipOnly membershipOnly' prefix,
      String.prefix prefix
        (CloudResource.GetCloudName strings_ToLower c2 membershipOnly'
           (CloudResource.SetCloudResourcePrefix prefix
              (CloudResource.GetCloudName strings_ToLower c1 membershipOnly g).2)).1
      = true).
Proof.
  split; [|split].
  - intros []; unfold CloudResource.GetCloudName; simpl;
      rewrite String_append_assoc; apply String_prefix_append.
  - unfold CloudResource.GetCloudName. simpl. rewrite !String_append_assoc.
    intros H. apply String_append_cancel in H. discriminate H.
  - intros [] [] prefix; unfold CloudResource.GetCloudName; simpl;
      rewrite String_append_assoc; apply String_prefix_append.
Qed.

Lemma append_separator_inj (sep : ascii) (a1 a2 r1 r2 : string) :
  GoStrings.containsByte sep a1 = false →
  GoStrings.containsByte sep a2 = false →
  a1 +:+ String sep r1 = a2 +:+ String sep r2 →
  a1 = a2 ∧ r1 = r2.
Proof.
  revert a2. induction a1 as [|x a1 IH]; intros [|y a2]; simpl.
  - intros _ _ [= ->]. done.
  - intros _. case_decide as Hy; [intros H; discriminate H|].
    intros _ [= Hsep _]. by destruct Hy.
  - case_decide as Hx; [intros H; discriminate H|].
    intros _ _ [= Hsep _]. by destruct Hx.
  - case_decide as Hx; [intros H; discriminate H|].
    case_decide as Hy; [intros _ H; discriminate H|].
    intros H1 H2 [= -> Hrest]. destruct (IH a2 H1 H2 Hrest) as [-> ->]. done.
Qed.

(** X12.  The strings that identify a cloud resource and a policy are
    unambiguous: two resource identifiers whose names hold no "/" and have
    the same [String] are equal, and two rule descriptions whose policy
    names hold no "," and have the same [String] are equal. *)
Theorem String_identifies :
  (∀ c1 c2 : CloudResource.CloudResourceID,
      GoStrings.containsByte "/" (CloudResource.Name c1) = false →
      GoStrings.containsByte "/" (CloudResource.Name c2) = false →
      CloudResource.CloudResourceID_String c1 = CloudResource.CloudResourceID_String c2 →
      c1 = c2)
  ∧ (∀ r1 r2 : CloudResource.CloudRuleDescription,
      GoStrings.containsByte "," (CloudResource.descName r1) = false →
      GoStrings.containsByte "," (CloudResource.descName r2) = false →
      CloudResource.CloudRuleDescription_String r1
      = CloudResource.CloudRuleDescription_String r2 →
      r1 = r2).
Proof.
  split.
  - intros [n1 v1] [n2 v2] H1 H2. unfold CloudResource.CloudResourceID_String.
    simpl in *. change ("/" +:+ v1) with (String "/" v1).
    change ("/" +:+ v2) with (String "/" v2).
    intros H. by destruct (append_separator_inj _ _ _ _ _ H1 H2 H) as [-> ->].
  - intros [n1 s1] [n2 s2] H1 H2. unfold CloudResource.CloudRuleDescription_String.
    simpl in *. intros [= H].
    change (n1 +:+ String "," (" Ns:" +:+ s1) = n2 +:+ String "," (" Ns:" +:+ s2)) in H.
    destruct (append_separator_inj _ _ _ _ _ H1 H2 H) as [-> Hrest].
    apply (String_append_cancel " Ns:") in Hrest. by subst.
Qed.

Lemma String_identifies_witness :
  {| CloudResource.Name := "Web"; CloudResource.Vpc := "testVnetID01" |}
  = {| CloudResource.Name := "Web"; CloudResource.Vpc := "testVnetID01" |}
  ∧ {| CloudResource.descName := "test-anp";
       CloudResource.descNamespace := "test-anp-ns" |}
    = {| CloudResource.descName := "test-anp";
         CloudResource.descNamespace := "test-anp-ns" |}.
Proof.
  split.
  - apply (proj1 String_identifies); reflexivity.
  - apply (proj2 String_identifies); reflexivity.
Defined.

(** ** The compute service, continued *)
Section ComputeFilters.

Variable matchQuery : list string -> list string -> list string -> string * option error.

Lemma rangeComputeFilters_no_empty computeCfg entries allFilters :
  Forall (λ entry : string * list string, entry.2 ≠ []) entries →
  AzureCompute.rangeComputeFilters matchQuery computeCfg entries allFilters
  = (allFilters ++ concat (map snd entries), true).
Proof.
  intros Hall. revert allFilters.
  induction Hall as [|[key filters] entries Hne _ IH]; intros allFilters; simpl.
  - by rewrite app_nil_r.
  - destruct filters as [|filter filters]; [done|]. simpl.
    rewrite IH. by rewrite <- app_assoc.
Qed.

(** X13.  When filters are installed and no selector has an empty filter
    list, the compiled query set is the filters of all selectors, each
    selector's filters together and in their order: a query is in the set
    exactly when some selector holds it, whatever the order of the range
    is, and the query builder plays no part. *)
Theorem getComputeResourceFilters_union computeCfg order :
  order ≡ₚ map_to_list (AzureCompute.computeFilters computeCfg) →
  AzureCompute.computeFilters computeCfg ≠ ∅ →
  map_Forall (λ _ filters, filters ≠ []) (AzureCompute.computeFilters computeCfg) →
  AzureCompute.getComputeResourceFilters matchQuery computeCfg order
  = (concat (map snd order), true)
  ∧ ∀ query,
      query ∈ (AzureCompute.getComputeResourceFilters matchQuery computeCfg order).1
      ↔ ∃ selector filters,
          AzureCompute.computeFilters computeCfg !! selector = Some filters
          ∧ query ∈ filters.
Proof.
  intros Horder Hnonempty Hall.
  assert (AzureCompute.getComputeResourceFilters matchQuery computeCfg order
          = (concat (map snd order), true)) as Hresult.
  { unfold AzureCompute.getComputeResourceFilters.
    destruct (size (AzureCompute.computeFilters computeCfg) =? 0)%nat eqn:Hsize.
    - apply Nat.eqb_eq, map_size_empty_iff in Hsize. done.
    - apply rangeComputeFilters_no_empty, Forall_forall.
      intros [key filters] Hin. rewrite Horder in Hin.
      apply elem_of_map_to_list in Hin. exact (Hall key filters Hin). }
  split; [exact Hresult|]. intros query. rewrite Hresult. simpl.
  rewrite list_elem_of_In, in_concat. split.
  - intros (filters & Hfilters & Hquery).
    apply list_elem_of_In, list_elem_of_fmap in Hfilters
      as ([key filters'] & -> & Hentry).
    rewrite Horder in Hentry. apply elem_of_map_to_list in Hentry.
    exists key, filters'. split; [exact Hentry|by apply list_elem_of_In].
  - intros (selector & filters & Hlookup & Hquery).
    exists filters. split; [|by apply list_elem_of_In].
    apply list_elem_of_In, list_elem_of_fmap. exists (selector, filters).
    split; [reflexivity|]. rewrite Horder. by apply elem_of_map_to_list.
Qed.

End ComputeFilters.

Lemma getComputeResourceFilters_union_witness :
  AzureCompute.getComputeResourceFilters Fixtures.matchQuery
    (Fixtures.computeCfg Fixtures.filtersTwoSelectors)
    (map_to_list Fixtures.filtersTwoSelectors)
  = (concat (map snd (map_to_list Fixtures.filtersTwoSelectors)), true).
Proof.
  apply (getComputeResourceFilters_union Fixtures.matchQuery
           (Fixtures.computeCfg Fixtures.filtersTwoSelectors)
           (map_to_list Fixtures.filtersTwoSelectors)).
  - reflexivity.
  - intros H. apply (f_equal size) in H. vm_compute in H. discriminate H.
  - apply map_Forall_insert_2; [discriminate|].
    apply map_Forall_singleton. discriminate.
Defined.

Section ComputeRequests.

Variable CloudState : Type.
Variable resourceGraphRows :
  string -> list string -> CloudState
  -> (list AzureCompute.virtualMachineTable * option error) * CloudState.
Variable matchQuery : list string -> list string -> list string -> string * option error.

(** The cloud after the queries [filters] were sent to it in their order. *)
Local Abbreviation cloudAfter :=
  (λ (subscriptions : list string) (filters : list string) (cloud : CloudState),
     fold_left (λ cloud filter, (resourceGraphRows filter subscriptions cloud).2)
       filters cloud).

(** What the cloud replies to [filter] when it is sent as the query number
    [i] of [filters], after those before it. *)
Local Abbreviation reply :=
  (λ (subscriptions : list string) (filters : list string) (cloud : CloudState)
     (i : nat) (filter : string),
     (resourceGraphRows filter subscriptions
        (cloudAfter subscriptions (take i filters) cloud)).1).

Local Abbreviation requests :=
  (λ (subscriptions : list string) (filters : list string),
     map (λ filter, AzureCompute.CallResourceGraph filter subscriptions) filters).

Lemma rangeFilters_replies filters subscriptions virtualMachines
  (w : AzureCompute.World CloudState) :
  ∃ r w',
    AzureCompute.rangeFilters resourceGraphRows filters subscriptions
      virtualMachines w = (Done r, w')
    ∧ (∀ i filter err,
          filters !! i = Some filter →
          (∀ j filter', (j < i)%nat → filters !! j = Some filter' →
                        (reply subscriptions filters (AzureCompute.cloud w) j filter').2
                        = None) →
          (reply subscriptions filters (AzureCompute.cloud w) i filter).2 = Some err →
          r = ([], Some err)
          ∧ w' = {| AzureCompute.cloud :=
                      cloudAfter subscriptions (take (S i) filters) (AzureCompute.cloud w);
                    AzureCompute.calls :=
                      AzureCompute.calls w
                      ++ requests subscriptions (take (S i) filters) |})
    ∧ ((∀ i filter,
           filters !! i = Some filter →
           (reply subscriptions filters (AzureCompute.cloud w) i filter).2 = None) →
       r = (virtualMachines
            ++ concat (imap (λ i filter,
                               (reply subscriptions filters (AzureCompute.cloud w)
                                  i filter).1) filters), None)
       ∧ w' = {| AzureCompute.cloud :=
                   cloudAfter subscriptions filters (AzureCompute.cloud w);
                 AzureCompute.calls :=
                   AzureCompute.calls w ++ requests subscriptions filters |}).
Proof.
  revert virtualMachines w.
  induction filters as [|filter0 filters IH]; intros virtualMachines w.
  - exists (virtualMachines, None), w. simpl. split; [done|]. split.
    + intros i filter err Hi. by rewrite lookup_nil in Hi.
    + intros _. rewrite !app_nil_r. by destruct w.
  - simpl. unfold AzureCompute.bind, AzureCompute.getVirtualMachineTable.
    destruct (resourceGraphRows filter0 subscriptions (AzureCompute.cloud w))
      as [[rows [err0|]] cloud'] eqn:Hreply.
    + exists ([], Some err0), 
        {| AzureCompute.cloud := cloud';
           AzureCompute.calls :=
             AzureCompute.calls w
             ++ [AzureCompute.CallResourceGraph filter0 subscriptions] |}.
      split; [done|]. split.
      * intros [|i] filter err Hi Hbefore Herr.
        -- injection Hi as <-. simpl in Herr. rewrite Hreply in Herr.
           injection Herr as <-. simpl. by rewrite ?Hreply.
        -- specialize (Hbefore 0%nat filter0 ltac:(lia) eq_refl).
           simpl in Hbefore. rewrite ?Hreply in Hbefore. done.
      * intros Hall. specialize (Hall 0%nat filter0 eq_refl).
        simpl in Hall. rewrite ?Hreply in Hall. done.
    + destruct (IH (virtualMachines ++ rows)
                  {| AzureCompute.cloud := cloud';
                     AzureCompute.calls :=
                       AzureCompute.calls w
                       ++ [AzureCompute.CallResourceGraph filter0 subscriptions] |})
        as (r & w' & -> & Hfail & Hall).
      exists r, w'. split; [done|]. simpl in Hfail, Hall. split.
      * intros [|i] filter err Hi Hbefore Herr.
        -- injection Hi as <-. simpl in Herr. rewrite ?Hreply in Herr. done.
        -- simpl in Hi, Herr. rewrite ?Hreply in Herr. simpl in Herr.
           destruct (Hfail i filter err Hi) as [-> ->]; [|done|].
           ++ intros j filter' Hj Hlookup.
              specialize (Hbefore (S j) filter' ltac:(lia) Hlookup).
              simpl in Hbefore. rewrite ?Hreply in Hbefore. done.
           ++ split; [done|]. simpl. rewrite ?Hreply. simpl.
              by rewrite <- app_assoc.
      * intros Hnone. destruct Hall as [-> ->].
        -- intros i filter Hi. specialize (Hnone (S i) filter Hi).
           simpl in Hnone. by rewrite ?Hreply in Hnone.
        -- simpl. rewrite ?Hreply. simpl. rewrite <- ?app_assoc.
           split; [|done]. do 4 f_equal. apply imap_ext.
           intros i filter _. simpl. by rewrite Hreply.
Qed.

(** X14.  [getVirtualMachines] never panics and talks to the cloud through
    resource-graph queries only.  Without filters to use it sends nothing
    and returns no row and no error.  Otherwise it sends the compiled
    queries in their order, each with the subscription of the account:
    when the cloud answers one of them with an error, and none before it,
    the call returns that error and no row and has sent the queries up to
    that one and none after it; when the cloud answers all of them without
    an error, the call has sent them all and returns the rows of the
    replies, in the order of the queries. *)
Theorem getVirtualMachines_requests computeCfg order
  (w : AzureCompute.World CloudState) :
  let compiled := AzureCompute.getComputeResourceFilters matchQuery computeCfg order in
  let filters := compiled.1 in
  let subscriptions :=
    [Crd.SubscriptionID (Azure.credential (AzureCompute.credentials computeCfg))] in
  let run :=
    AzureCompute.getVirtualMachines resourceGraphRows matchQuery computeCfg order w in
  (compiled.2 = false → run = (Done ([], None), w))
  ∧ (compiled.2 = true →
     ∃ r w',
       run = (Done r, w')
       ∧ (∀ i filter err,
             filters !! i = Some filter →
             (∀ j filter', (j < i)%nat → filters !! j = Some filter' →
                (reply subscriptions filters (AzureCompute.cloud w) j filter').2
                = None) →
             (reply subscriptions filters (AzureCompute.cloud w) i filter).2
             = Some err →
             r = ([], Some err)
             ∧ w' = {| AzureCompute.cloud :=
                         cloudAfter subscriptions (take (S i) filters)
                           (AzureCompute.cloud w);
                       AzureCompute.calls :=
                         AzureCompute.calls w
                         ++ requests subscriptions (take (S i) filters) |})
       ∧ ((∀ i filter,
              filters !! i = Some filter →
              (reply subscriptions filters (AzureCompute.cloud w) i filter).2 = None) →
          r = (concat (imap (λ i filter,
                               (reply subscriptions filters (AzureCompute.cloud w)
                                  i filter).1) filters), None)
          ∧ w' = {| AzureCompute.cloud :=
                      cloudAfter subscriptions filters (AzureCompute.cloud w);
                    AzureCompute.calls :=
                      AzureCompute.calls w ++ requests subscriptions filters |})).
Proof.
  intros compiled filters subscriptions run. subst run filters compiled.
  unfold AzureCompute.getVirtualMachines.
  destruct (AzureCompute.getComputeResourceFilters matchQuery computeCfg order)
    as [filters hasFilters]. simpl. split.
  - by intros ->.
  - intros ->. simpl.
    destruct (rangeFilters_replies filters subscriptions [] w)
      as (r & w' & Hrun & Hfail & Hall).
    exists r, w'. split; [exact Hrun|]. split; [exact Hfail|exact Hall].
Qed.

End ComputeRequests.

Lemma getVirtualMachines_requests_witness :
  AzureCompute.getVirtualMachines Fixtures.rowsSecondFails Fixtures.matchQuery
    (Fixtures.computeCfg Fixtures.filtersTwoSelectors) Fixtures.orderTwoSelectors
    Fixtures.worldCounting
  = (Done ([], Some "throttled"),
     {| AzureCompute.cloud := 2%nat;
        AzureCompute.calls :=
          [AzureCompute.CallResourceGraph "vnet-query" ["SubID"];
           AzureCompute.CallResourceGraph "name-query-1" ["SubID"]] |}).
Proof.
  assert ((AzureCompute.getComputeResourceFilters Fixtures.matchQuery
             (Fixtures.computeCfg Fixtures.filtersTwoSelectors)
             Fixtures.orderTwoSelectors).2 = true) as Hcompiled
    by (vm_compute; reflexivity).
  destruct (proj2 (getVirtualMachines_requests nat Fixtures.rowsSecondFails
                     Fixtures.matchQuery
                     (Fixtures.computeCfg Fixtures.filtersTwoSelectors)
                     Fixtures.orderTwoSelectors Fixtures.worldCounting) Hcompiled)
    as (r & w' & Hrun & Hfail & _).
  destruct (Hfail 1%nat "name-query-1" "throttled") as [-> ->].
  - vm_compute. reflexivity.
  - intros [|j] filter' Hj Hlookup; [vm_compute; reflexivity|lia].
  - vm_compute. reflexivity.
  - etrans; [exact Hrun|]. vm_compute. reflexivity.
Defined.

Section ComputePoll.

Variable CloudState : Type.
Variable listAllComplete :
  CloudState -> (list AzureCompute.VirtualNetwork * option error) * CloudState.
Variable resourceGraphRows :
  string -> list string -> CloudState
  -> (list AzureCompute.virtualMachineTable * option error) * CloudState.
Variable matchQuery : list string -> list string -> list string -> string * option error.
Variable strings_ToLower : string -> string.

Local Abbreviation DoResourceInventory :=
  (AzureCompute.DoResourceInventory listAllComplete resourceGraphRows matchQuery
     strings_ToLower).

Lemma rangeVirtualMachines_rows virtualMachines vmIDToInfoMap vnetIDs
  (w : AzureCompute.World CloudState) :
  Forall (λ vm, is_Some (AzureCompute.vmID vm) ∧ is_Some (AzureCompute.vmVnetID vm))
    virtualMachines →
  ∃ vms,
    AzureCompute.rangeVirtualMachines strings_ToLower virtualMachines
      vmIDToInfoMap vnetIDs w
    = (Done (vms, list_to_set (omap AzureCompute.vmVnetID virtualMachines) ∪ vnetIDs), w)
    ∧ dom vms
      = list_to_set (strings_ToLower <$> omap AzureCompute.vmID virtualMachines)
        ∪ dom vmIDToInfoMap
    ∧ ∀ id vm,
        vms !! id = Some vm →
        vmIDToInfoMap !! id = Some vm
        ∨ (vm ∈ virtualMachines
           ∧ strings_ToLower <$> AzureCompute.vmID vm = Some id).
Proof.
  intros Hrows. revert vmIDToInfoMap vnetIDs.
  induction Hrows as [|vm rest [[id Hid] [vnet Hvnet]] _ IH];
    intros vmIDToInfoMap vnetIDs.
  - exists vmIDToInfoMap. simpl. unfold AzureCompute.ret.
    split; [f_equal; f_equal; f_equal; set_solver|]. split; [set_solver|]. eauto.
  - destruct (IH (<[strings_ToLower id := vm]> vmIDToInfoMap) ({[vnet]} ∪ vnetIDs))
      as (vms & Hrun & Hdom & Hlookup).
    exists vms. simpl. rewrite Hid, Hvnet. simpl.
    unfold AzureCompute.bind at 1. simpl. unfold AzureCompute.bind at 1. simpl.
    rewrite Hrun. split; [f_equal; f_equal; f_equal; set_solver|].
    split; [rewrite Hdom, dom_insert_L; set_solver|].
    intros id' vm' Hvm'. destruct (Hlookup id' vm' Hvm') as [Hold|[Hin Hlower]].
    + rewrite lookup_insert in Hold. case_decide as Hsame.
      * injection Hold as <-. right. split; [left|by rewrite Hid, <- Hsame].
      * by left.
    + right. split; [by right|done].
Qed.

Lemma rangeVirtualMachines_bad_row virtualMachines vmIDToInfoMap vnetIDs
  (w : AzureCompute.World CloudState) :
  Exists (λ vm, AzureCompute.vmID vm = None ∨ AzureCompute.vmVnetID vm = None)
    virtualMachines →
  ∃ reason,
    AzureCompute.rangeVirtualMachines strings_ToLower virtualMachines
      vmIDToInfoMap vnetIDs w
    = (Panic reason, w).
Proof.
  revert vmIDToInfoMap vnetIDs.
  induction virtualMachines as [|vm rest IH]; intros vmIDToInfoMap vnetIDs Hbad.
  - by apply Exists_nil in Hbad.
  - simpl. unfold AzureCompute.bind at 1.
    destruct (AzureCompute.vmID vm) as [id|] eqn:Hid; simpl; [|eauto].
    unfold AzureCompute.bind at 1.
    destruct (AzureCompute.vmVnetID vm) as [vnet|] eqn:Hvnet; simpl; [|eauto].
    apply IH. apply Exists_cons in Hbad as [[H|H]|Hbad]; [congruence..|exact Hbad].
Qed.

(** X15.  A poll whose cloud calls succeed publishes what the cloud returned:
    when every row has an ID and a vnet ID, the new snapshot holds the vnets
    as listed, the peers as built, the vnet IDs of the rows as the managed
    set, and the rows under their lowercased IDs and under no other key; the
    account, the credentials and the filters stay as they were, and
    [getManagedVnetIDs] then reads that managed set.  When a row lacks its ID
    or its vnet ID, the poll panics instead. *)
Theorem DoResourceInventory_publishes computeCfg order
  (w w1 w2 w3 : AzureCompute.World CloudState) vnets virtualMachines peers :
  AzureCompute.getVpcs listAllComplete computeCfg w = (Done (vnets, None), w1) →
  AzureCompute.getVirtualMachines resourceGraphRows matchQuery computeCfg order w1
  = (Done (virtualMachines, None), w2) →
  AzureCompute.buildMapVpcPeers strings_ToLower computeCfg vnets w2
  = (Done peers, w3) →
  (Forall (λ vm, is_Some (AzureCompute.vmID vm) ∧ is_Some (AzureCompute.vmVnetID vm))
     virtualMachines →
   ∃ snapshot computeCfg',
     DoResourceInventory computeCfg order w = (Done (computeCfg', None), w3)
     ∧ computeCfg'
       = {| AzureCompute.account := AzureCompute.account computeCfg;
            AzureCompute.resourcesCache := Some snapshot;
            AzureCompute.credentials := AzureCompute.credentials computeCfg;
            AzureCompute.computeFilters := AzureCompute.computeFilters computeCfg |}
     ∧ AzureCompute.vnets snapshot = vnets
     ∧ AzureCompute.vnetPeers snapshot = peers
     ∧ AzureCompute.vnetIDs snapshot
       = list_to_set (omap AzureCompute.vmVnetID virtualMachines)
     ∧ dom (AzureCompute.virtualMachines snapshot)
       = list_to_set (strings_ToLower <$> omap AzureCompute.vmID virtualMachines)
     ∧ (∀ id vm,
           AzureCompute.virtualMachines snapshot !! id = Some vm →
           vm ∈ virtualMachines ∧ strings_ToLower <$> AzureCompute.vmID vm = Some id)
     ∧ AzureCompute.getManagedVnetIDs computeCfg'
       = list_to_set (omap AzureCompute.vmVnetID virtualMachines))
  ∧ (Exists (λ vm, AzureCompute.vmID vm = None ∨ AzureCompute.vmVnetID vm = None)
       virtualMachines →
     ∃ reason, DoResourceInventory computeCfg order w = (Panic reason, w3)).
Proof.
  intros Hvpcs Hvms Hpeers.
  unfold AzureCompute.DoResourceInventory, AzureCompute.bind.
  rewrite Hvpcs, Hvms, Hpeers. split.
  - intros Hrows.
    destruct (rangeVirtualMachines_rows virtualMachines ∅ ∅ w3 Hrows)
      as (vms & Hrun & Hdom & Hlookup).
    rewrite Hrun. unfold AzureCompute.ret. simpl.
    eexists _, _. split; [reflexivity|]. split; [reflexivity|]. simpl.
    split; [reflexivity|]. split; [reflexivity|].
    split; [set_solver|]. split; [rewrite Hdom; set_solver|].
    split; [|set_solver].
    intros id vm Hvm. destruct (Hlookup id vm Hvm) as [Hnone|?]; [|done].
    by rewrite lookup_empty in Hnone.
  - intros Hbad.
    destruct (rangeVirtualMachines_bad_row virtualMachines ∅ ∅ w3 Hbad)
      as [reason Hrun].
    rewrite Hrun. eauto.
Qed.

Lemma getVirtualMachines_same_filters computeCfg1 computeCfg2 order
  (w : AzureCompute.World CloudState) :
  AzureCompute.credentials computeCfg1 = AzureCompute.credentials computeCfg2 →
  AzureCompute.computeFilters computeCfg1 = AzureCompute.computeFilters computeCfg2 →
  AzureCompute.getVirtualMachines resourceGraphRows matchQuery computeCfg1 order w
  = AzureCompute.getVirtualMachines resourceGraphRows matchQuery computeCfg2 order w.
Proof.
  intros Hcredentials Hfilters.
  unfold AzureCompute.getVirtualMachines, AzureCompute.getComputeResourceFilters.
  rewrite Hcredentials, Hfilters.
  assert (∀ entries allFilters,
             AzureCompute.rangeComputeFilters matchQuery computeCfg1 entries allFilters
             = AzureCompute.rangeComputeFilters matchQuery computeCfg2 entries
                 allFilters) as Hrange.
  { induction entries as [|[key filters] entries IH]; intros allFilters; simpl;
      [reflexivity|].
    rewrite Hcredentials. by rewrite IH. }
  by rewrite Hrange.
Qed.

(** X16.  A poll reads nothing of the snapshot it replaces: from two
    configurations that differ in the snapshot only, it sends the same
    requests and returns the same error, and when it succeeds it publishes
    the same configuration. *)
Theorem DoResourceInventory_ignores_snapshot computeCfg cache order
  (w : AzureCompute.World CloudState) :
  let computeCfg' :=
    {| AzureCompute.account := AzureCompute.account computeCfg;
       AzureCompute.resourcesCache := cache;
       AzureCompute.credentials := AzureCompute.credentials computeCfg;
       AzureCompute.computeFilters := AzureCompute.computeFilters computeCfg |} in
  (DoResourceInventory computeCfg' order w).2 = (DoResourceInventory computeCfg order w).2
  ∧ match (DoResourceInventory computeCfg order w).1 with
    | Done (published, None) =>
        (DoResourceInventory computeCfg' order w).1 = Done (published, None)
    | Done (_, Some err) =>
        (DoResourceInventory computeCfg' order w).1 = Done (computeCfg', Some err)
    | Panic reason => (DoResourceInventory computeCfg' order w).1 = Panic reason
    end.
Proof.
  intros computeCfg'.
  unfold AzureCompute.DoResourceInventory, AzureCompute.bind.
  change (AzureCompute.getVpcs listAllComplete computeCfg' w)
    with (AzureCompute.getVpcs listAllComplete computeCfg w).
  destruct (AzureCompute.getVpcs listAllComplete computeCfg w)
    as [[[vnets [err|]]|reason] w1]; simpl; try done.
  rewrite (getVirtualMachines_same_filters computeCfg' computeCfg order w1)
    by reflexivity.
  destruct (AzureCompute.getVirtualMachines resourceGraphRows matchQuery
              computeCfg order w1) as [[[vms [err|]]|reason] w2]; simpl; try done.
  change (AzureCompute.buildMapVpcPeers strings_ToLower computeCfg' vnets w2)
    with (AzureCompute.buildMapVpcPeers strings_ToLower computeCfg vnets w2).
  destruct (AzureCompute.buildMapVpcPeers strings_ToLower computeCfg vnets w2)
    as [[peers|reason] w3]; simpl; try done.
  destruct (AzureCompute.rangeVirtualMachines strings_ToLower vms ∅ ∅ w3)
    as [[maps|reason] w4]; simpl; done.
Qed.

End ComputePoll.

Lemma DoResourceInventory_publishes_witness :
  (∃ snapshot computeCfg',
      AzureCompute.DoResourceInventory Fixtures.vnetsEmpty Fixtures.rowsOne
        Fixtures.matchQuery GoStrings.asciiToLower
        (Fixtures.computeCfg Fixtures.filtersWithMatchAll)
        (map_to_list Fixtures.filtersWithMatchAll) Fixtures.world0
      = (Done (computeCfg', None), Fixtures.worldPolled)
      ∧ AzureCompute.resourcesCache computeCfg' = Some snapshot
      ∧ AzureCompute.vnetIDs snapshot = {[ "testVnetID03" ]}
      ∧ dom (AzureCompute.virtualMachines snapshot) = {[ "testvmid" ]})
  ∧ (∃ reason,
        AzureCompute.DoResourceInventory Fixtures.vnetsEmpty Fixtures.rowsWithoutID
          Fixtures.matchQuery GoStrings.asciiToLower
          (Fixtures.computeCfg Fixtures.filtersWithMatchAll)
          (map_to_list Fixtures.filtersWithMatchAll) Fixtures.world0
        = (Panic reason, Fixtures.worldPolled)).
Proof.
  assert (∀ rows rowsResult,
             (∀ query subscriptions cloud,
                 rows query subscriptions cloud = ((rowsResult, None), cloud)) →
             AzureCompute.getVirtualMachines rows Fixtures.matchQuery
               (Fixtures.computeCfg Fixtures.filtersWithMatchAll)
               (map_to_list Fixtures.filtersWithMatchAll)
               {| AzureCompute.cloud := tt;
                  AzureCompute.calls := [AzureCompute.CallListAllComplete] |}
             = (Done (rowsResult, None), Fixtures.worldPolled)) as Hvms.
  { intros rows rowsResult Hrows.
    unfold AzureCompute.getVirtualMachines.
    replace (AzureCompute.getComputeResourceFilters Fixtures.matchQuery
               (Fixtures.computeCfg Fixtures.filtersWithMatchAll)
               (map_to_list Fixtures.filtersWithMatchAll))
      with (["subscriptions SubID tenants TenantID locations eastus"], true)
      by (vm_compute; reflexivity).
    simpl. unfold AzureCompute.bind, AzureCompute.getVirtualMachineTable. simpl.
    rewrite Hrows. reflexivity. }
  split.
  - destruct (proj1 (DoResourceInventory_publishes unit Fixtures.vnetsEmpty
                       Fixtures.rowsOne Fixtures.matchQuery GoStrings.asciiToLower
                       (Fixtures.computeCfg Fixtures.filtersWithMatchAll)
                       (map_to_list Fixtures.filtersWithMatchAll)
                       Fixtures.world0
                       {| AzureCompute.cloud := tt;
                          AzureCompute.calls := [AzureCompute.CallListAllComplete] |}
                       Fixtures.worldPolled Fixtures.worldPolled
                       [] [Fixtures.vm01] ∅ eq_refl
                       (Hvms Fixtures.rowsOne [Fixtures.vm01] (λ _ _ _, eq_refl))
                       eq_refl))
      as (snapshot & computeCfg' & Hpoll & -> & _ & _ & Hvnets & Hdom & _).
    + repeat constructor; by eexists.
    + exists snapshot. eexists. split; [exact Hpoll|]. split; [reflexivity|].
      split; [rewrite Hvnets|rewrite Hdom]; vm_compute; reflexivity.
  - apply (proj2 (DoResourceInventory_publishes unit Fixtures.vnetsEmpty
                    Fixtures.rowsWithoutID Fixtures.matchQuery GoStrings.asciiToLower
                    (Fixtures.computeCfg Fixtures.filtersWithMatchAll)
                    (map_to_list Fixtures.filtersWithMatchAll)
                    Fixtures.world0
                    {| AzureCompute.cloud := tt;
                       AzureCompute.calls := [AzureCompute.CallListAllComplete] |}
                    Fixtures.worldPolled Fixtures.worldPolled
                    [] [Fixtures.vmWithoutID] ∅ eq_refl
                    (Hvms Fixtures.rowsWithoutID [Fixtures.vmWithoutID]
                       (λ _ _ _, eq_refl))
                    eq_refl)).
    apply Exists_cons_hd. by left.
Defined.

Section ComputeSelectors.

Variable SelectorSpec : Type.
Variable convertSelectorToComputeQuery :
  AzureCompute.CloudEntitySelector SelectorSpec
  -> list string -> list string -> list string -> list string * bool.
Variable CloudServiceStats : Type.
Variable ResetInventoryPollStats : CloudServiceStats -> CloudServiceStats.

Implicit Types svc : AzureCompute.computeService SelectorSpec CloudServiceStats.
Implicit Types selector : AzureCompute.CloudEntitySelector SelectorSpec.

Local Abbreviation AddResourceFilters :=
  (AzureCompute.AddResourceFilters convertSelectorToComputeQuery).

Lemma AddResourceFilters_consistent svc selector :
  AzureCompute.selectorsConsistent svc →
  AzureCompute.selectorsConsistent (AddResourceFilters svc selector).1.
Proof.
  intros [Hdom Hkeys]. unfold AzureCompute.AddResourceFilters.
  destruct (convertSelectorToComputeQuery selector _ _ _) as [filters [|]];
    simpl; [|done].
  split; simpl.
  - by rewrite !dom_insert_L, Hdom.
  - intros key selector'. rewrite lookup_insert. case_decide as Hkey.
    + by intros [= <-].
    + apply Hkeys.
Qed.

Lemma rangeSelectors_consistent svc values :
  AzureCompute.selectorsConsistent svc →
  AzureCompute.selectorsConsistent
    (AzureCompute.rangeSelectors convertSelectorToComputeQuery svc values).1.
Proof.
  revert svc. induction values as [|value values IH]; intros svc Hsvc; [done|].
  simpl. pose proof (AddResourceFilters_consistent svc value Hsvc) as Hstep.
  destruct (AddResourceFilters svc value) as [svc' [err|]]; [exact Hstep|].
  by apply IH.
Qed.

(** X17.  The filters and the selector copies of a compute service stay
    together: a new service has neither, and [AddResourceFilters],
    [RemoveResourceFilters], [ResetInventoryCache] and [UpdateServiceConfig]
    keep the two maps on the same keys, every selector under its own key. *)
Theorem selectors_consistent svc :
  (∀ zeroStats account service credentials created,
      (AzureCompute.newComputeServiceConfig zeroStats account service credentials).1
      = Some created →
      AzureCompute.selectorsConsistent (created : AzureCompute.computeService
                                                    SelectorSpec CloudServiceStats))
  ∧ (AzureCompute.selectorsConsistent svc →
     (∀ selector,
         AzureCompute.selectorsConsistent (AddResourceFilters svc selector).1)
     ∧ (∀ selectorNamespacedName,
         AzureCompute.selectorsConsistent
           (AzureCompute.RemoveResourceFilters svc selectorNamespacedName))
     ∧ AzureCompute.selectorsConsistent
         (AzureCompute.ResetInventoryCache ResetInventoryPollStats svc)
     ∧ (∀ newConfig order,
         AzureCompute.selectorsConsistent
           (AzureCompute.UpdateServiceConfig convertSelectorToComputeQuery
              svc newConfig order).1)).
Proof.
  split.
  - intros zeroStats account service credentials created.
    unfold AzureCompute.newComputeServiceConfig.
    destruct (AzureCompute.networkInterfaces service _); [intros H; discriminate H|].
    destruct (AzureCompute.securityGroups service _); [intros H; discriminate H|].
    destruct (AzureCompute.applicationSecurityGroups service _);
      [intros H; discriminate H|].
    destruct (AzureCompute.resourceGraph service); [intros H; discriminate H|].
    destruct (AzureCompute.virtualNetworks service _); [intros H; discriminate H|].
    intros [= <-]. split; simpl; [by rewrite !dom_empty_L|].
    intros key selector H. by rewrite lookup_empty in H.
  - intros Hsvc. split; [intros; by apply AddResourceFilters_consistent|].
    destruct Hsvc as [Hdom Hkeys]. split; [|split].
    + intros selectorNamespacedName. split; simpl.
      * by rewrite !dom_delete_L, Hdom.
      * intros key selector. rewrite lookup_delete. case_decide; [done|apply Hkeys].
    + done.
    + intros newConfig order. apply rangeSelectors_consistent. done.
Qed.

(** X18.  Selectors are installed and removed one by one.  A selector that
    does not compile under the credentials of the service is refused:
    [AddResourceFilters] returns an error and the service as it was.  A
    selector that compiles is installed without an error: its compiled
    filters and its copy are filed under its key, and nothing else of the
    service changes.  Installing a selector twice is installing it once.
    [RemoveResourceFilters] drops the key from both maps and leaves the
    filters and the copies of all others; removing a selector right after
    it was installed on a free key gives the service back. *)
Theorem AddResourceFilters_RemoveResourceFilters svc selector :
  let name :=
    {| Types.Namespace := AzureCompute.selectorNamespace selector;
       Types.Name := AzureCompute.selectorName selector |} in
  let credentials := AzureCompute.credentials (AzureCompute.config svc) in
  let compiled :=
    convertSelectorToComputeQuery selector
      [Crd.SubscriptionID (Azure.credential credentials)]
      [Crd.TenantID (Azure.credential credentials)]
      [Azure.region credentials] in
  (compiled.2 = false →
   AddResourceFilters svc selector
   = (svc, Some "error creating resource query filters"))
  ∧ (compiled.2 = true →
     AddResourceFilters svc selector
     = ({| AzureCompute.config :=
             {| AzureCompute.account := AzureCompute.account (AzureCompute.config svc);
                AzureCompute.resourcesCache :=
                  AzureCompute.resourcesCache (AzureCompute.config svc);
                AzureCompute.credentials := credentials;
                AzureCompute.computeFilters :=
                  <[AzureCompute.selectorKey selector := compiled.1]>
                    (AzureCompute.computeFilters (AzureCompute.config svc)) |};
           AzureCompute.inventoryStats := AzureCompute.inventoryStats svc;
           AzureCompute.selectors :=
             <[AzureCompute.selectorKey selector := selector]>
               (AzureCompute.selectors svc) |}, None))
  ∧ AddResourceFilters (AddResourceFilters svc selector).1 selector
    = AddResourceFilters svc selector
  ∧ (∀ selectorNamespacedName,
      let removed := AzureCompute.RemoveResourceFilters svc selectorNamespacedName in
      AzureCompute.computeFilters (AzureCompute.config removed)
        !! Types.String_ selectorNamespacedName = None
      ∧ AzureCompute.selectors removed !! Types.String_ selectorNamespacedName = None
      ∧ ∀ other,
          other ≠ Types.String_ selectorNamespacedName →
          AzureCompute.computeFilters (AzureCompute.config removed) !! other
          = AzureCompute.computeFilters (AzureCompute.config svc) !! other
          ∧ AzureCompute.selectors removed !! other
            = AzureCompute.selectors svc !! other)
  ∧ (AzureCompute.computeFilters (AzureCompute.config svc)
       !! AzureCompute.selectorKey selector = None →
     AzureCompute.selectors svc !! AzureCompute.selectorKey selector = None →
     AzureCompute.RemoveResourceFilters (AddResourceFilters svc selector).1 name = svc).
Proof.
  intros name credentials compiled. subst compiled credentials.
  unfold AzureCompute.AddResourceFilters, AzureCompute.selectorKey.
  destruct svc as [[account cache credentials filters] stats selectors]. simpl.
  destruct (convertSelectorToComputeQuery selector
              [Crd.SubscriptionID (Azure.credential credentials)]
              [Crd.TenantID (Azure.credential credentials)]
              [Azure.region credentials]) as [compiled [|]] eqn:Hconvert;
    simpl.
  - rewrite Hconvert. split; [intros H; discriminate H|]. split; [done|].
    split; [by rewrite !insert_insert_eq|]. split.
    + intros selectorNamespacedName. split; [apply lookup_delete_eq|].
      split; [apply lookup_delete_eq|].
      intros other Hother. by rewrite !lookup_delete_ne.
    + intros Hfilters Hselectors.
      unfold AzureCompute.RemoveResourceFilters. simpl.
      unfold Types.String_. simpl.
      by rewrite !delete_insert_id.
  - rewrite Hconvert. split; [done|]. split; [intros H; discriminate H|].
    split; [done|]. split.
    + intros selectorNamespacedName. split; [apply lookup_delete_eq|].
      split; [apply lookup_delete_eq|].
      intros other Hother. by rewrite !lookup_delete_ne.
    + intros Hfilters Hselectors.
      unfold AzureCompute.RemoveResourceFilters. simpl.
      unfold Types.String_. simpl.
      by rewrite !delete_id.
Qed.

(** What [AddResourceFilters] compiles a selector to under given
    credentials. *)
Local Abbreviation compiled credentials selector :=
  (convertSelectorToComputeQuery selector
     [Crd.SubscriptionID (Azure.credential credentials)]
     [Crd.TenantID (Azure.credential credentials)]
     [Azure.region credentials]).



End ComputeSelectors.

Lemma service01_consistent : AzureCompute.selectorsConsistent Fixtures.service01.
Proof.
  split; simpl; [by rewrite !dom_empty_L|].
  intros key selector H. by rewrite lookup_empty in H.
Qed.

Lemma service02_consistent : AzureCompute.selectorsConsistent Fixtures.service02.
Proof.
  split; simpl; [by rewrite !dom_singleton_L|].
  intros key selector. rewrite lookup_singleton. case_decide as Hkey; [|done].
  by intros [= <-].
Qed.

Lemma selectors_consistent_witness :
  AzureCompute.selectorsConsistent
    (AzureCompute.AddResourceFilters Fixtures.convertSelector Fixtures.service01
       Fixtures.selectorVnet).1
  ∧ AzureCompute.selectorsConsistent
      (AzureCompute.UpdateServiceConfig Fixtures.convertSelector Fixtures.service02
         Fixtures.serviceWest
         (map_to_list (AzureCompute.selectors Fixtures.service02))).1.
Proof.
  split.
  - apply (proj2 (selectors_consistent (list string) Fixtures.convertSelector nat
                    (λ stats, 0%nat) Fixtures.service01) service01_consistent).
  - apply (proj2 (selectors_consistent (list string) Fixtures.convertSelector nat
                    (λ stats, 0%nat) Fixtures.service02) service02_consistent).
Defined.

Lemma AddResourceFilters_RemoveResourceFilters_witness :
  AzureCompute.AddResourceFilters Fixtures.convertSelector Fixtures.service01
    Fixtures.selectorVnet
  = (Fixtures.service02, None)
  ∧ AzureCompute.AddResourceFilters Fixtures.convertSelector Fixtures.service01
      Fixtures.selectorNothing
    = (Fixtures.service01, Some "error creating resource query filters")
  ∧ AzureCompute.RemoveResourceFilters
      (AzureCompute.AddResourceFilters Fixtures.convertSelector Fixtures.service01
         Fixtures.selectorVnet).1
      {| Types.Namespace := "namespace01"; Types.Name := "selector-VnetID" |}
    = Fixtures.service01.
Proof.
  split; [|split].
  - etrans.
    + apply (proj1 (proj2 (AddResourceFilters_RemoveResourceFilters (list string)
                             Fixtures.convertSelector nat Fixtures.service01
                             Fixtures.selectorVnet))).
      reflexivity.
    + vm_compute. reflexivity.
  - apply (proj1 (AddResourceFilters_RemoveResourceFilters (list string)
                    Fixtures.convertSelector nat Fixtures.service01
                    Fixtures.selectorNothing)).
    reflexivity.
  - apply (proj2 (proj2 (proj2 (proj2
             (AddResourceFilters_RemoveResourceFilters (list string)
                Fixtures.convertSelector nat Fixtures.service01
                Fixtures.selectorVnet)))));
      apply lookup_empty.
Defined.


(** After the credentials move to another region, the filter of the
    installed selector is the one compiled for that region. *)
Example UpdateServiceConfig_region_changes :
  AzureCompute.computeFilters
    (AzureCompute.config
       (AzureCompute.UpdateServiceConfig Fixtures.convertSelector Fixtures.service02
          Fixtures.serviceWest
          (map_to_list (AzureCompute.selectors Fixtures.service02))).1)
  !! "namespace01/selector-VnetID"
  = Some ["vnet-query in westus"].
Proof. vm_compute. reflexivity. Qed.

Section ComputeReaders.

Variable SelectorSpec : Type.
Variable CloudServiceStats : Type.
Variable ResetInventoryPollStats : CloudServiceStats -> CloudServiceStats.
Variable strings_ToLower : string -> string.
Variable Vpc : Type.
Variable ComputeVpcToInternalVpcObject :
  AzureCompute.VirtualNetwork -> string -> string -> string -> bool -> Vpc.
Variable strings_EqualFold : string -> string -> bool.
Variable matchQuery : list string -> list string -> list string -> string * option error.

Implicit Types svc : AzureCompute.computeService SelectorSpec CloudServiceStats.

Local Abbreviation GetVpcInventory :=
  (AzureCompute.GetVpcInventory strings_ToLower ComputeVpcToInternalVpcObject
     strings_EqualFold).

(** [ResetInventoryCache] drops the snapshot and nothing else of the
    configuration: afterwards the cached virtual machines, the managed vnet
    IDs and the managed vnets are empty, the peers of any vnet and the VPC
    inventory are nil, none of the readers panics, and the compiled queries
    of the next poll are those from before the reset. *)
Lemma ResetInventoryCache_readers svc :
  let computeCfg :=
    AzureCompute.config (AzureCompute.ResetInventoryCache ResetInventoryPollStats svc) in
  (∀ order, AzureCompute.getCachedVirtualMachines computeCfg order = [])
  ∧ AzureCompute.getManagedVnetIDs computeCfg = ∅
  ∧ AzureCompute.getManagedVnets strings_ToLower computeCfg = Done ∅
  ∧ (∀ vnetID, AzureCompute.getVnetPeers computeCfg vnetID = None)
  ∧ GetVpcInventory computeCfg = Done None
  ∧ (∀ order,
        AzureCompute.getComputeResourceFilters matchQuery computeCfg order
        = AzureCompute.getComputeResourceFilters matchQuery (AzureCompute.config svc)
            order)
  ∧ AzureCompute.selectors (AzureCompute.ResetInventoryCache ResetInventoryPollStats svc)
    = AzureCompute.selectors svc
  ∧ AzureCompute.GetInventoryStats
      (AzureCompute.ResetInventoryCache ResetInventoryPollStats svc)
    = ResetInventoryPollStats (AzureCompute.GetInventoryStats svc).
Proof.
  intros computeCfg. repeat split.
  intros order. unfold AzureCompute.getComputeResourceFilters. simpl.
  assert (∀ entries allFilters,
             AzureCompute.rangeComputeFilters matchQuery computeCfg entries allFilters
             = AzureCompute.rangeComputeFilters matchQuery (AzureCompute.config svc)
                 entries allFilters) as Hrange.
  { induction entries as [|[key filters] entries IH]; intros allFilters; simpl;
      [reflexivity|]. by rewrite IH. }
  by rewrite Hrange.
Qed.

(** X20.  [newComputeServiceConfig] returns a service exactly when each of
    the five SDK clients can be created, and an error exactly when it
    returns no service.  The new service holds the account and the
    credentials it was given, no snapshot, no filter and no selector, so
    its first poll asks the cloud for no virtual machine. *)
Theorem newComputeServiceConfig_result zeroStats account service credentials :
  let result :=
    AzureCompute.newComputeServiceConfig (SelectorSpec := SelectorSpec)
      (CloudServiceStats := CloudServiceStats) zeroStats account service credentials in
  let subscription := Crd.SubscriptionID (Azure.credential credentials) in
  (is_Some result.1
   ↔ AzureCompute.networkInterfaces service subscription = None
     ∧ AzureCompute.securityGroups service subscription = None
     ∧ AzureCompute.applicationSecurityGroups service subscription = None
     ∧ AzureCompute.resourceGraph service = None
     ∧ AzureCompute.virtualNetworks service subscription = None)
  ∧ (result.2 = None ↔ is_Some result.1)
  ∧ ∀ svc,
      result.1 = Some svc →
      svc = {| AzureCompute.config :=
                 {| AzureCompute.account := account;
                    AzureCompute.resourcesCache := None;
                    AzureCompute.credentials := credentials;
                    AzureCompute.computeFilters := ∅ |};
               AzureCompute.inventoryStats := zeroStats;
               AzureCompute.selectors := ∅ |}
      ∧ ∀ (CloudState : Type) rows order (w : AzureCompute.World CloudState),
          AzureCompute.getVirtualMachines rows matchQuery (AzureCompute.config svc)
            order w
          = (Done ([], None), w).
Proof.
  intros result subscription. subst result.
  unfold AzureCompute.newComputeServiceConfig. fold subscription.
  destruct (AzureCompute.networkInterfaces service subscription);
    [simpl; split; [|split]; [split; [intros [? H]|intros [H _]]; discriminate H
                            |split; [intros H|intros [? H]]; discriminate H
                            |intros ? H; discriminate H]|].
  destruct (AzureCompute.securityGroups service subscription);
    [simpl; split; [|split]; [split; [intros [? H]|intros (_ & H & _)]; discriminate H
                            |split; [intros H|intros [? H]]; discriminate H
                            |intros ? H; discriminate H]|].
  destruct (AzureCompute.applicationSecurityGroups service subscription);
    [simpl; split; [|split];
     [split; [intros [? H]|intros (_ & _ & H & _)]; discriminate H
     |split; [intros H|intros [? H]]; discriminate H
     |intros ? H; discriminate H]|].
  destruct (AzureCompute.resourceGraph service);
    [simpl; split; [|split];
     [split; [intros [? H]|intros (_ & _ & _ & H & _)]; discriminate H
     |split; [intros H|intros [? H]]; discriminate H
     |intros ? H; discriminate H]|].
  destruct (AzureCompute.virtualNetworks service subscription);
    [simpl; split; [|split];
     [split; [intros [? H]|intros (_ & _ & _ & _ & H)]; discriminate H
     |split; [intros H|intros [? H]]; discriminate H
     |intros ? H; discriminate H]|].
  simpl. split; [split; eauto|]. split; [split; eauto|].
  intros svc [= <-]. split; [reflexivity|]. reflexivity.
Qed.

End ComputeReaders.

Section ComputeVpcInventory.

Variable strings_ToLower : string -> string.
Variable Vpc : Type.
Variable ComputeVpcToInternalVpcObject :
  AzureCompute.VirtualNetwork -> string -> string -> string -> bool -> Vpc.
Variable strings_EqualFold : string -> string -> bool.

Local Abbreviation GetVpcInventory :=
  (AzureCompute.GetVpcInventory strings_ToLower ComputeVpcToInternalVpcObject
     strings_EqualFold).

(** A vnet the inventory cannot read: it has no location, or it lies in the
    region of the account and has no ID. *)
Local Abbreviation unreadable computeCfg :=
  (λ vpc : AzureCompute.VirtualNetwork,
     AzureCompute.vnetLocation vpc = None
     ∨ ∃ location,
         AzureCompute.vnetLocation vpc = Some location
         ∧ strings_EqualFold location
             (Azure.region (AzureCompute.credentials computeCfg)) = true
         ∧ AzureCompute.vnetID vpc = None).

(** The object reported for a vnet of the region under [key]. *)
Local Abbreviation reported computeCfg managedIDs vpcs key vpcObj :=
  (∃ vpc location id,
      vpc ∈ vpcs
      ∧ AzureCompute.vnetLocation vpc = Some location
      ∧ strings_EqualFold location
          (Azure.region (AzureCompute.credentials computeCfg)) = true
      ∧ AzureCompute.vnetID vpc = Some id
      ∧ strings_ToLower id = key
      ∧ vpcObj
        = ComputeVpcToInternalVpcObject vpc
            (Types.Namespace (AzureCompute.account computeCfg))
            (Types.Name (AzureCompute.account computeCfg))
            (strings_ToLower (Azure.region (AzureCompute.credentials computeCfg)))
            (bool_decide (key ∈ managedIDs))).

Lemma rangeVpcs_result computeCfg (managedIDs : gset string) vpcs
  (vpcMap : gmap string Vpc) :
  match AzureCompute.rangeVpcs strings_ToLower Vpc ComputeVpcToInternalVpcObject
          strings_EqualFold computeCfg managedIDs vpcs vpcMap with
  | Done vpcMap' =>
      ¬ Exists (unreadable computeCfg) vpcs
      ∧ (∀ key vpcObj,
            vpcMap' !! key = Some vpcObj →
            vpcMap !! key = Some vpcObj
            ∨ reported computeCfg managedIDs vpcs key vpcObj)
      ∧ (∀ key, is_Some (vpcMap !! key) → is_Some (vpcMap' !! key))
      ∧ (∀ vpc location id,
            vpc ∈ vpcs →
            AzureCompute.vnetLocation vpc = Some location →
            strings_EqualFold location
              (Azure.region (AzureCompute.credentials computeCfg)) = true →
            AzureCompute.vnetID vpc = Some id →
            is_Some (vpcMap' !! strings_ToLower id))
  | Panic _ => Exists (unreadable computeCfg) vpcs
  end.
Proof.
  revert vpcMap. induction vpcs as [|vpc vpcs IH]; intros vpcMap; simpl.
  - split; [by intros H%Exists_nil|]. split; [eauto|]. split; [done|].
    intros vpc location id H. by apply elem_of_nil in H.
  - destruct (AzureCompute.vnetLocation vpc) as [location|] eqn:Hlocation;
      [|apply Exists_cons_hd; by left].
    destruct (strings_EqualFold location _) eqn:Hregion.
    + destruct (AzureCompute.vnetID vpc) as [id|] eqn:Hid;
        [|apply Exists_cons_hd; right; eauto].
      match goal with
      | |- context [AzureCompute.rangeVpcs _ _ _ _ _ _ _ ?m] => specialize (IH m)
      end.
      destruct (AzureCompute.rangeVpcs _ _ _ _ _ _ _ _) as [vpcMap'|reason];
        [|by apply Exists_cons_tl].
      destruct IH as (Hreadable & Hfrom & Hkeeps & Hall). split; [|split; [|split]].
      * intros [[H|(l & Hl & _ & Hnone)]|H]%Exists_cons; [congruence..|done].
      * intros key vpcObj Hlookup.
        destruct (Hfrom key vpcObj Hlookup) as [Hold|(v & l & i & Hin & ?)].
        -- destruct (decide (strings_ToLower id = key)) as [Hkey|Hne];
             [|rewrite lookup_insert_ne in Hold by done; by left].
           rewrite <- Hkey, lookup_insert_eq in Hold.
           injection Hold as <-. right. exists vpc, location, id.
           rewrite <- Hkey. repeat split; try done. left.
        -- right. exists v, l, i. split; [by right|done].
      * intros key Hsome. apply Hkeeps.
        destruct (decide (strings_ToLower id = key)) as [<-|Hne];
          [rewrite lookup_insert_eq; eauto|by rewrite lookup_insert_ne].
      * intros v l i [->|Hin]%elem_of_cons Hl Hr Hi; [|by eapply Hall].
        apply Hkeeps. rewrite Hid in Hi. injection Hi as <-.
        rewrite lookup_insert_eq. eauto.
    + specialize (IH vpcMap).
      destruct (AzureCompute.rangeVpcs _ _ _ _ _ _ _ _) as [vpcMap'|reason];
        [|by apply Exists_cons_tl].
      destruct IH as (Hreadable & Hfrom & Hkeeps & Hall). split; [|split; [|split]].
      * intros [[H|(l & Hl & Hr & _)]|H]%Exists_cons; [congruence..|done].
      * intros key vpcObj Hlookup.
        destruct (Hfrom key vpcObj Hlookup) as [Hold|(v & l & i & Hin & ?)];
          [by left|].
        right. exists v, l, i. split; [by right|done].
      * done.
      * intros v l i [->|Hin]%elem_of_cons Hl Hr Hi; [congruence|by eapply Hall].
Qed.

(** X21.  With a snapshot, [GetVpcInventory] panics exactly when the
    snapshot holds a vnet without a location, or a vnet of the account's
    region without an ID.  Otherwise it reports the vnets of the account's
    region (compared without case) and no other: each under its lowercased
    ID, built for the account and the lowercased region, and flagged as
    managed exactly when that lowercased ID is in the managed set of the
    snapshot. *)
Theorem GetVpcInventory_region computeCfg snapshot :
  AzureCompute.resourcesCache computeCfg = Some snapshot →
  ((∃ reason, GetVpcInventory computeCfg = Panic reason)
   ↔ Exists (unreadable computeCfg) (AzureCompute.vnets snapshot))
  ∧ ∀ inventory,
      GetVpcInventory computeCfg = Done inventory →
      ∃ vpcMap,
        inventory = Some vpcMap
        ∧ (∀ key vpcObj,
              vpcMap !! key = Some vpcObj →
              reported computeCfg (AzureCompute.vnetIDs snapshot)
                (AzureCompute.vnets snapshot) key vpcObj)
        ∧ (∀ vpc location id,
              vpc ∈ AzureCompute.vnets snapshot →
              AzureCompute.vnetLocation vpc = Some location →
              strings_EqualFold location
                (Azure.region (AzureCompute.credentials computeCfg)) = true →
              AzureCompute.vnetID vpc = Some id →
              is_Some (vpcMap !! strings_ToLower id)).
Proof.
  intros Hsnapshot.
  unfold AzureCompute.GetVpcInventory, AzureCompute.getManagedVnetIDs,
    AzureCompute.GetSnapshot.
  rewrite Hsnapshot.
  pose proof (rangeVpcs_result computeCfg (AzureCompute.vnetIDs snapshot)
                (AzureCompute.vnets snapshot) ∅) as Hrange.
  destruct (AzureCompute.rangeVpcs _ _ _ _ _ _ _ _) as [vpcMap|reason].
  - destruct Hrange as (Hreadable & Hfrom & _ & Hall). split.
    + split; [intros [reason H]; discriminate H|done].
    + intros inventory [= <-]. exists vpcMap. split; [done|]. split; [|done].
      intros key vpcObj Hlookup.
      destruct (Hfrom key vpcObj Hlookup) as [Hempty|?]; [|done].
      by rewrite lookup_empty in Hempty.
  - split; [split; eauto|]. intros inventory H. discriminate H.
Qed.

End ComputeVpcInventory.

Lemma GetVpcInventory_region_witness :
  is_Some (({[ "testvnetid01" := ("eastus", true) ]} : gmap string (string * bool))
             !! GoStrings.asciiToLower "testVnetID01")
  ∧ ∃ reason,
      AzureCompute.GetVpcInventory GoStrings.asciiToLower Fixtures.vpcObject
        Fixtures.equalFoldAscii
        (Fixtures.computeCfgWithVnets [Fixtures.vnetEast; Fixtures.vnetWithoutLocation])
      = Panic reason.
Proof.
  split.
  - assert (AzureCompute.GetVpcInventory GoStrings.asciiToLower Fixtures.vpcObject
              Fixtures.equalFoldAscii (Fixtures.computeCfgWithVnets [Fixtures.vnetEast])
            = Done (Some {[ "testvnetid01" := ("eastus", true) ]})) as Hrun
      by (vm_compute; reflexivity).
    destruct (proj2 (GetVpcInventory_region GoStrings.asciiToLower _
                       Fixtures.vpcObject Fixtures.equalFoldAscii
                       (Fixtures.computeCfgWithVnets [Fixtures.vnetEast]) _ eq_refl)
                _ Hrun) as (vpcMap & [= <-] & _ & Hall).
    apply (Hall Fixtures.vnetEast "EastUS" "testVnetID01"); try reflexivity.
    apply list_elem_of_here.
  - apply (proj1 (GetVpcInventory_region GoStrings.asciiToLower _
                    Fixtures.vpcObject Fixtures.equalFoldAscii
                    (Fixtures.computeCfgWithVnets
                       [Fixtures.vnetEast; Fixtures.vnetWithoutLocation])
                    _ eq_refl)).
    apply Exists_cons_tl, Exists_cons_hd. by left.
Defined.

Lemma newComputeServiceConfig_result_witness :
  AzureCompute.getVirtualMachines Fixtures.rowsOne Fixtures.matchQuery
    {| AzureCompute.account := Fixtures.account01;
       AzureCompute.resourcesCache := None;
       AzureCompute.credentials := Fixtures.azureCredentials01;
       AzureCompute.computeFilters := ∅ |} [] Fixtures.world0
  = (Done ([], None), Fixtures.world0).
Proof.
  destruct (proj2 (proj2 (newComputeServiceConfig_result (list string) nat
                            Fixtures.matchQuery 0%nat Fixtures.account01
                            Fixtures.clientsCreated Fixtures.azureCredentials01))
              _ eq_refl) as [_ Hpoll].
  exact (Hpoll unit Fixtures.rowsOne [] Fixtures.world0).
Defined.

Section ComputePeers.
Variable CloudState : Type.
Variable strings_ToLower : string → string.

Local Abbreviation addVpcPeer := (AzureCompute.addVpcPeer CloudState strings_ToLower).
Local Abbreviation rangePeerings :=
  (AzureCompute.rangePeerings CloudState strings_ToLower).
Local Abbreviation rangeVnets := (AzureCompute.rangeVnets CloudState strings_ToLower).

(** A peering of the vnet [result] that the loop body cannot read: the vnet
    has no ID, the peering is nil, its remote vnet has no ID, or a first
    address prefix is nil. *)
Local Abbreviation badPeering :=
  (λ (result : AzureCompute.VirtualNetwork)
     (properties : AzureCompute.VirtualNetworkPropertiesFormat)
     (peerConn : option AzureCompute.VirtualNetworkPeering),
     AzureCompute.vnetID result = None
     ∨ peerConn = None
     ∨ (∃ peer pp remote,
           peerConn = Some peer ∧ AzureCompute.peeringProperties peer = Some pp
           ∧ AzureCompute.RemoteVirtualNetwork pp = Some remote
           ∧ AzureCompute.subResourceID remote = None)
     ∨ (∃ peer pp space rest,
           peerConn = Some peer ∧ AzureCompute.peeringProperties peer = Some pp
           ∧ AzureCompute.RemoteAddressSpace pp = Some space
           ∧ AzureCompute.AddressPrefixes space = None :: rest)
     ∨ (∃ space rest,
           AzureCompute.vnetAddressSpace properties = Some space
           ∧ AzureCompute.AddressPrefixes space = None :: rest)).

Local Abbreviation badVnet :=
  (λ result : AzureCompute.VirtualNetwork,
     ∃ properties,
       AzureCompute.vnetProperties result = Some properties
       ∧ Exists (badPeering result properties)
           (AzureCompute.VirtualNetworkPeerings properties)).

Local Abbreviation peered :=
  (λ (results : list AzureCompute.VirtualNetwork) (key : string),
     ∃ result id properties,
       result ∈ results ∧ AzureCompute.vnetID result = Some id
       ∧ strings_ToLower id = key
       ∧ AzureCompute.vnetProperties result = Some properties
       ∧ AzureCompute.VirtualNetworkPeerings properties ≠ []).

Local Abbreviation triples :=
  (λ vpcPeers : gmap string (list (list string)),
     ∀ key entries,
       vpcPeers !! key = Some entries →
       entries ≠ [] ∧ Forall (λ entry, length entry = 3%nat) entries).

Lemma addVpcPeer_result result properties peerConn vpcPeers w :
  ((∃ reason, addVpcPeer result properties peerConn vpcPeers w = (Panic reason, w))
   ∧ badPeering result properties peerConn)
  ∨ (¬ badPeering result properties peerConn
     ∧ ∃ id requesterID destinationID sourceID,
         AzureCompute.vnetID result = Some id
         ∧ addVpcPeer result properties peerConn vpcPeers w
           = (Done (<[strings_ToLower id :=
                       default [] (vpcPeers !! strings_ToLower id)
                       ++ [[requesterID; destinationID; sourceID]]]> vpcPeers), w)).
Proof.
  unfold AzureCompute.addVpcPeer, AzureCompute.bind, AzureCompute.deref,
    AzureCompute.ret, AzureCompute.panic.
  destruct result as [[id|] location vnetProperties]; simpl;
    [|left; split; [eauto|by left]].
  destruct peerConn as [[peerProperties]|]; simpl;
    [|left; split; [eauto|by right; left]].
  destruct properties as [space peerings]; simpl.
  destruct peerProperties as [[remoteVnet remoteSpace]|]; simpl;
    [destruct remoteVnet as [[[remoteID|]]|]; simpl;
     [| left; split; [eauto|]; right; right; left; by eexists _, _, _ |];
     (destruct remoteSpace as [[[|[prefix|] rest]]|]; simpl;
      [| | left; split; [eauto|]; right; right; right; left; by eexists _, _, _, _ |])|];
    (destruct space as [[[|[sourcePrefix|] rest']]|]; simpl;
     [| | left; split; [eauto|]; do 4 right; by eexists _, _ |]);
    (right; split; [|by eexists _, _, _, _]);
    intros [?|[?|[(? & ? & ? & ? & ? & ? & ?)|[(? & ? & ? & ? & ? & ? & ? & ?)
                                               |(? & ? & ? & ?)]]]];
    simplify_eq/=.
Qed.

Lemma insert_triples key entry (vpcPeers : gmap string (list (list string))) :
  length entry = 3%nat →
  triples vpcPeers →
  triples (<[key := default [] (vpcPeers !! key) ++ [entry]]> vpcPeers).
Proof.
  intros Hentry Htriples key' entries.
  destruct (decide (key = key')) as [->|Hne].
  - rewrite lookup_insert_eq. intros [= <-]. split.
    + by destruct (default [] (vpcPeers !! key')).
    + apply Forall_app. split; [|by apply Forall_singleton].
      destruct (vpcPeers !! key') as [entries0|] eqn:Hlookup; simpl;
        [by apply (Htriples key')|by apply Forall_nil].
  - rewrite lookup_insert_ne by done. apply Htriples.
Qed.

Lemma rangePeerings_result result properties peerings vpcPeers w :
  ∃ r,
    rangePeerings result properties peerings vpcPeers w = (r, w)
    ∧ ((∃ reason, r = Panic reason)
       ↔ Exists (badPeering result properties) peerings)
    ∧ ∀ vpcPeers',
        r = Done vpcPeers' →
        (triples vpcPeers → triples vpcPeers')
        ∧ ∀ key,
            is_Some (vpcPeers' !! key)
            ↔ is_Some (vpcPeers !! key)
              ∨ (peerings ≠ []
                 ∧ ∃ id, AzureCompute.vnetID result = Some id
                         ∧ strings_ToLower id = key).
Proof.
  revert vpcPeers.
  induction peerings as [|peerConn rest IH]; intros vpcPeers; simpl.
  - exists (Done vpcPeers). split; [done|]. split.
    + split; [by intros [? ?]|]. by intros ?%Exists_nil.
    + intros ? [= <-]. split; [done|]. intros key. naive_solver.
  - unfold AzureCompute.bind.
    destruct (addVpcPeer_result result properties peerConn vpcPeers w)
      as [[[reason ->] Hbad]|(Hgood & id & a & b & c & Hid & ->)].
    + exists (Panic reason). split; [done|]. split.
      * split; [intros _; by apply Exists_cons_hd|eauto].
      * by intros ? ?.
    + destruct (IH (<[strings_ToLower id :=
                       default [] (vpcPeers !! strings_ToLower id) ++ [[a; b; c]]]>
                      vpcPeers)) as (r & -> & Hpanic & Hdone).
      exists r. split; [done|]. split.
      * rewrite Hpanic, Exists_cons. naive_solver.
      * intros vpcPeers' Hr. destruct (Hdone _ Hr) as [Htriples Hkeys]. split.
        -- intros H0. by apply Htriples, insert_triples.
        -- intros key. rewrite Hkeys, lookup_insert_is_Some.
           destruct (decide (strings_ToLower id = key)); naive_solver.
Qed.

Lemma rangeVnets_result results vpcPeers w :
  ∃ r,
    rangeVnets results vpcPeers w = (r, w)
    ∧ ((∃ reason, r = Panic reason) ↔ Exists badVnet results)
    ∧ ∀ vpcPeers',
        r = Done vpcPeers' →
        (triples vpcPeers → triples vpcPeers')
        ∧ ∀ key,
            is_Some (vpcPeers' !! key)
            ↔ is_Some (vpcPeers !! key) ∨ peered results key.
Proof.
  revert vpcPeers.
  induction results as [|result rest IH]; intros vpcPeers; simpl.
  - exists (Done vpcPeers). split; [done|]. split.
    + split; [by intros [? ?]|]. by intros ?%Exists_nil.
    + intros ? [= <-]. split; [done|]. intros key. split; [by left|].
      intros [?|(? & ? & ? & ?%elem_of_nil & _)]; done.
  - destruct (AzureCompute.vnetProperties result) as [properties|] eqn:Hproperties.
    + unfold AzureCompute.bind.
      destruct (rangePeerings_result result properties
                  (AzureCompute.VirtualNetworkPeerings properties) vpcPeers w)
        as (r1 & -> & Hpanic1 & Hdone1).
      destruct r1 as [vpcPeers1|reason].
      * destruct (IH vpcPeers1) as (r & -> & Hpanic & Hdone).
        exists r. split; [done|]. split.
        -- rewrite Hpanic, Exists_cons. split; [by right|].
           intros [(properties' & Hp & Hbad)|?]; [|done].
           rewrite Hproperties in Hp. injection Hp as <-.
           apply Hpanic1 in Hbad as [? ?]. done.
        -- intros vpcPeers' Hr. destruct (Hdone _ Hr) as [Htriples Hkeys].
           destruct (Hdone1 _ eq_refl) as [Htriples1 Hkeys1]. split; [intros H0; by apply Htriples, Htriples1|].
           intros key. rewrite Hkeys, Hkeys1. split.
           ++ intros [[?|(Hne & id & Hid & Hkey)]
                     |(result' & id & properties' & Hin & ?)].
              ** by left.
              ** right. exists result, id, properties.
                 split; [apply list_elem_of_here|done].
              ** right. exists result', id, properties'.
                 split; [by apply list_elem_of_further|done].
           ++ intros [?|(result' & id & properties' & Hin & Hid & Hkey & Hp & Hne)];
                [by left; left|].
              apply elem_of_cons in Hin as [->|Hin].
              ** rewrite Hproperties in Hp. injection Hp as <-.
                 left; right. eauto.
              ** right. by exists result', id, properties'.
      * exists (Panic reason). split; [done|]. split.
        -- split; [intros _|eauto]. apply Exists_cons_hd.
           exists properties. split; [done|]. apply Hpanic1. eauto.
        -- by intros ? ?.
    + destruct (IH vpcPeers) as (r & -> & Hpanic & Hdone).
      exists r. split; [done|]. split.
      * rewrite Hpanic, Exists_cons. split; [by right|].
        intros [(properties' & Hp & _)|?]; [|done].
        by rewrite Hproperties in Hp.
      * intros vpcPeers' Hr. destruct (Hdone _ Hr) as [Htriples Hkeys].
        split; [done|]. intros key. rewrite Hkeys. split.
        -- intros [?|(result' & id & properties' & Hin & ?)]; [by left|].
           right. exists result', id, properties'.
           split; [by apply list_elem_of_further|done].
        -- intros [?|(result' & id & properties' & Hin & Hid & Hkey & Hp & Hne)];
             [by left|].
           apply elem_of_cons in Hin as [->|Hin].
           ++ by rewrite Hproperties in Hp.
           ++ right. by exists result', id, properties'.
Qed.

(** X22.  [buildMapVpcPeers] makes no cloud call.  It panics exactly when
    some vnet has a peering that cannot be read.  Otherwise the map it
    returns has a key exactly for the lower-cased ID of each vnet that has
    at least one peering, and each of its entries is a non-empty list of
    triples. *)
Theorem buildMapVpcPeers_peers computeCfg results (w : AzureCompute.World CloudState) :
  let run := AzureCompute.buildMapVpcPeers strings_ToLower computeCfg results w in
  run.2 = w
  ∧ ((∃ reason, run.1 = Panic reason) ↔ Exists badVnet results)
  ∧ ∀ vpcPeers,
      run.1 = Done vpcPeers →
      (∀ key, is_Some (vpcPeers !! key) ↔ peered results key)
      ∧ triples vpcPeers.
Proof.
  intros run. subst run. unfold AzureCompute.buildMapVpcPeers.
  destruct (rangeVnets_result results ∅ w) as (r & -> & Hpanic & Hdone).
  simpl. split; [done|]. split; [done|].
  intros vpcPeers Hr. destruct (Hdone _ Hr) as [Htriples Hkeys]. split.
  - intros key. rewrite Hkeys, lookup_empty. split; [|by right].
    by intros [[? ?]|?].
  - apply Htriples. intros key entries. by rewrite lookup_empty.
Qed.
End ComputePeers.

Lemma buildMapVpcPeers_peers_witness :
  [["testvnetpeerid01"; "10.1.0.0/16"; "10.0.0.0/16"]] ≠ []
  ∧ Forall (λ entry : list string, length entry = 3%nat)
      [["testvnetpeerid01"; "10.1.0.0/16"; "10.0.0.0/16"]].
Proof.
  assert ((AzureCompute.buildMapVpcPeers GoStrings.asciiToLower
             (Fixtures.computeCfg ∅) [Fixtures.vnetPeered] Fixtures.world0).1
          = Done {[ "testvnetid01" :=
                      [["testvnetpeerid01"; "10.1.0.0/16"; "10.0.0.0/16"]] ]}) as Hrun
    by (vm_compute; reflexivity).
  apply (proj2 (proj2 (proj2 (buildMapVpcPeers_peers unit GoStrings.asciiToLower
                                (Fixtures.computeCfg ∅) [Fixtures.vnetPeered]
                                Fixtures.world0)) _ Hrun) "testvnetid01").
  apply lookup_singleton_eq.
Defined.
